(** * VoiceHub: the admin backup-restore endpoint

    A shallow embedding of [server/api/admin/backup/restore.post.ts].

    The handler reads a JSON backup from [<cwd>/backups/<filename>],
    optionally clears the database, and replays the backed-up collections
    through the Prisma client.  JavaScript values are a small inductive
    type, exceptions are an error type, and the mutable world (database,
    files read, Prisma calls issued) is threaded explicitly. *)

From Stdlib Require Import String Ascii List ZArith Bool Lia Arith.
From Stdlib Require Import Permutation NArith DecimalString.
Import ListNotations.
Local Open Scope list_scope.
Local Open Scope string_scope.

#[local] Set Warnings "-register-all".

(** ** JavaScript values *)

(** The values the handler manipulates: what [JSON.parse] and [readBody]
    produce, plus [undefined] (a missing property) and the [Date] objects
    built by [new Date(x)].  JSON numbers are kept as integers: the
    handler only tests them for truthiness and uses them as row ids. *)
Inductive value : Type :=
| VUndefined
| VNull
| VBool (b : bool)
| VNum (n : Z)
| VStr (s : string)
| VArr (items : list value)
| VObj (fields : list (string * value))
| VDate (arg : value).

(** An object literal, and a database row. *)
Definition obj := list (string * value).

(** JavaScript truthiness, as used by [!x], [x ? a : b] and [if (x)]. *)
Definition truthy (v : value) : bool :=
  match v with
  | VUndefined | VNull => false
  | VBool b => b
  | VNum n => negb (n =? 0)%Z
  | VStr s => negb (s =? "")
  | VArr _ | VObj _ | VDate _ => true
  end.

(** Own-property lookup in an object literal. *)
Fixpoint lookup (k : string) (o : obj) : value :=
  match o with
  | [] => VUndefined
  | (k', v) :: o' => if k' =? k then v else lookup k o'
  end.

Definition has_field (k : string) (o : obj) : bool :=
  existsb (fun kv => fst kv =? k) o.

(** ** Exceptions *)

(** What can be thrown: an h3 error made by [createError], or any other
    JavaScript error (a [TypeError], a Prisma error), of which only the
    message is observed. *)
Inductive exn : Type :=
| H3Error (statusCode : Z) (statusMessage : string)
| JsError (message : string).

Inductive result (A : Type) : Type :=
| Ok (a : A)
| Throw (e : exn).
Arguments Ok {A} a.
Arguments Throw {A} e.

Definition bind {A B} (r : result A) (f : A -> result B) : result B :=
  match r with
  | Ok a => f a
  | Throw e => Throw e
  end.

Notation "x <- c1 ;; c2" := (bind c1 (fun x => c2))
  (at level 61, c1 at next level, right associativity).

(** [v.k]: reading a property of [null] or [undefined] throws a
    [TypeError]; an object yields its own field; every other value
    yields [undefined] for the field names this handler reads. *)
Definition prop (v : value) (k : string) : result value :=
  match v with
  | VUndefined =>
      Throw (JsError ("Cannot read properties of undefined (reading '" ++ k ++ "')"))
  | VNull =>
      Throw (JsError ("Cannot read properties of null (reading '" ++ k ++ "')"))
  | VObj o => Ok (lookup k o)
  | _ => Ok VUndefined
  end.

Definition msg_not_primitive : string :=
  "Cannot convert object to primitive value".

(** Whether a value can be converted to a string or a primitive, as a
    template literal and [new Date(x)] do.  An object parsed from JSON
    cannot when it has a key [toString] of its own (the value under it is
    never a function, and the inherited [valueOf] returns the object);
    an array is joined from the strings of its items. *)
Fixpoint stringifiable (v : value) : bool :=
  match v with
  | VObj o => negb (existsb (fun kv => fst kv =? "toString") o)
  | VArr items => forallb stringifiable items
  | _ => true
  end.

(** [x ? new Date(x) : null]: the constructor throws a [TypeError] when
    [x] cannot be converted to a primitive. *)
Definition to_date (v : value) : result value :=
  if truthy v then
    if stringifiable v then Ok (VDate v)
    else Throw (JsError msg_not_primitive)
  else Ok VNull.

(** The conversion of a date field does not throw. *)
Definition convertible (v : value) : bool :=
  negb (truthy v) || stringifiable v.

(** [mode === 'merge'] *)
Definition is_merge (mode : value) : bool :=
  match mode with
  | VStr s => s =? "merge"
  | _ => false
  end.

(** [v[k]] for a [v] already known not to be [null] or [undefined]. *)
Definition field (v : value) (k : string) : value :=
  match v with
  | VObj o => lookup k o
  | _ => VUndefined
  end.

(** [const { k = dflt } = body]: the default replaces [undefined] only. *)
Definition or_default (v dflt : value) : value :=
  match v with
  | VUndefined => dflt
  | _ => v
  end.

(** ** [path.join] (POSIX; the image's working directory is [/app]) *)

Module Path.

Definition slash : ascii := "/"%char.

(** The segments between separators; [split "a//b/" = [a; ""; b; ""]]. *)
Fixpoint split (s : string) : list string :=
  match s with
  | EmptyString => [EmptyString]
  | String c s' =>
      if (c =? slash)%char then EmptyString :: split s'
      else match split s' with
           | seg :: segs => String c seg :: segs
           | [] => [String c EmptyString]
           end
  end.

(** One segment of node's [normalizeString]; the stack holds the
    segments kept so far, last one first. *)
Definition norm_step (allowAboveRoot : bool) (stack : list string)
    (seg : string) : list string :=
  if (seg =? "") || (seg =? ".") then stack
  else if seg =? ".." then
    match stack with
    | top :: below =>
        if top =? ".." then (if allowAboveRoot then ".." :: stack else stack)
        else below
    | [] => if allowAboveRoot then [".."] else []
    end
  else seg :: stack.

Definition norm_segments (allowAboveRoot : bool) (segs : list string)
  : list string :=
  rev (fold_left (norm_step allowAboveRoot) segs []).

Definition normalizeString (path : string) (allowAboveRoot : bool) : string :=
  String.concat "/" (norm_segments allowAboveRoot (split path)).

Definition isAbsolute (path : string) : bool :=
  match path with
  | String c _ => (c =? slash)%char
  | EmptyString => false
  end.

Fixpoint trailingSeparator (path : string) : bool :=
  match path with
  | EmptyString => false
  | String c EmptyString => (c =? slash)%char
  | String _ rest => trailingSeparator rest
  end.

Definition normalize (path : string) : string :=
  if path =? "" then "."
  else
    let p := normalizeString path (negb (isAbsolute path)) in
    if p =? "" then
      (if isAbsolute path then "/"
       else if trailingSeparator path then "./" else ".")
    else
      let p := if trailingSeparator path then p ++ "/" else p in
      if isAbsolute path then "/" ++ p else p.

(** [path.join(...args)] on string arguments: empty arguments are
    dropped, the rest joined with [/] and normalized. *)
Definition join (args : list string) : string :=
  match filter (fun a => negb (a =? "")) args with
  | [] => "."
  | parts => normalize (String.concat "/" parts)
  end.

(** A segment that normalization keeps, and a string without separator. *)
Definition kept (seg : string) : bool :=
  negb ((seg =? "") || (seg =? ".") || (seg =? "..")).

Fixpoint no_slash (s : string) : bool :=
  match s with
  | EmptyString => true
  | String c s' => negb (c =? slash)%char && no_slash s'
  end.

(** [p] is [dir] itself or a path below it. *)
Definition within (dir p : string) : bool :=
  (p =? dir) || String.prefix (dir ++ "/") p.

End Path.

(** ** The Prisma client, as the handler uses it *)

(** The delegates [prisma.user], [prisma.song], ... *)
Inductive model : Type :=
| User | Song | PlayTime | Semester | SystemSettings
| Vote | Schedule | NotificationSettings | Notification.

(** The three operations the handler issues. *)
Inductive call : Type :=
| DeleteMany (m : model)
| Upsert (m : model) (where_ update create : obj)
| Create (m : model) (data : obj).

(** A Prisma promise resolves, or rejects with an error whose [message]
    is all the handler looks at. *)
Inductive outcome : Type :=
| Resolved
| Rejected (message : string).

Definition resolved (o : outcome) : bool :=
  match o with
  | Resolved => true
  | Rejected _ => false
  end.

(** ** The result object *)

Record details : Type := mkDetails {
  tablesProcessed : nat;
  recordsRestored : nat;
  errors : list string;
  warnings : list string
}.

Record restoreResults : Type := mkResults {
  success : bool;
  message : string;
  details_of : details
}.

Definition push_error (d : details) (e : string) : details :=
  mkDetails d.(tablesProcessed) d.(recordsRestored)
            (d.(errors) ++ [e])%list d.(warnings).

Definition push_warning (d : details) (e : string) : details :=
  mkDetails d.(tablesProcessed) d.(recordsRestored)
            d.(errors) (d.(warnings) ++ [e])%list.

(** [recordsRestored += restoredCount; tablesProcessed++] *)
Definition table_done (d : details) (restoredCount : nat) : details :=
  mkDetails (S d.(tablesProcessed)) (d.(recordsRestored) + restoredCount)
            d.(errors) d.(warnings).

Definition msg_done : string := "数据恢复完成".
Definition msg_with_errors : string := "数据恢复完成，但存在错误".
Definition msg_forbidden : string := "权限不足".
Definition msg_no_filename : string := "请指定备份文件名".
Definition msg_not_found : string := "备份文件不存在或格式错误".
Definition msg_bad_format : string := "备份文件格式无效".
Definition msg_failed : string := "恢复数据库备份失败".
Definition msg_clear_failed : string := "清空数据失败: ".

Definition initial_details : details := mkDetails 0 0 [] [].

(** The last step before [return restoreResults]. *)
Definition finalize (d : details) : restoreResults :=
  match d.(errors) with
  | [] => mkResults true msg_done d
  | _ :: _ => mkResults false msg_with_errors d
  end.

(** ** The fixed orders *)

Definition restoreOrder : list string :=
  ["systemSettings"; "playTimes"; "semesters"; "users"; "songs"; "votes";
   "schedules"; "notificationSettings"; "notifications"].

(** The [deleteMany] calls of the pre-clear, in program order. *)
Definition clearOrder : list model :=
  [Notification; NotificationSettings; Schedule; Vote; Song; User;
   PlayTime; Semester; SystemSettings].

(** The backup collection each delegate stores. *)
Definition collection_of (m : model) : string :=
  match m with
  | User => "users"
  | Song => "songs"
  | PlayTime => "playTimes"
  | Semester => "semesters"
  | SystemSettings => "systemSettings"
  | Vote => "votes"
  | Schedule => "schedules"
  | NotificationSettings => "notificationSettings"
  | Notification => "notifications"
  end.

(** ** One record: which Prisma call the [switch] builds *)

Definition user_update (record lastLogin passwordChangedAt : value) : obj :=
  [("name", field record "name");
   ("grade", field record "grade");
   ("class", field record "class");
   ("role", field record "role");
   ("lastLogin", lastLogin);
   ("lastLoginIp", field record "lastLoginIp");
   ("passwordChangedAt", passwordChangedAt)].

Definition user_create (record lastLogin passwordChangedAt : value) : obj :=
  [("username", field record "username");
   ("name", field record "name");
   ("password", field record "password");
   ("grade", field record "grade");
   ("class", field record "class");
   ("role", field record "role");
   ("lastLogin", lastLogin);
   ("lastLoginIp", field record "lastLoginIp");
   ("passwordChangedAt", passwordChangedAt)].

Definition songData (record playedAt : value) : obj :=
  [("title", field record "title");
   ("artist", field record "artist");
   ("requesterId", field record "requesterId");
   ("played", field record "played");
   ("playedAt", playedAt);
   ("semester", field record "semester");
   ("preferredPlayTimeId", field record "preferredPlayTimeId");
   ("cover", field record "cover");
   ("musicPlatform", field record "musicPlatform");
   ("musicId", field record "musicId")].

Definition playTime_data (record : value) : obj :=
  [("name", field record "name");
   ("startTime", field record "startTime");
   ("endTime", field record "endTime");
   ("enabled", field record "enabled");
   ("description", field record "description")].

Definition semester_create (record : value) : obj :=
  [("name", field record "name");
   ("isActive", field record "isActive")].

Definition settings_data (record : value) : obj :=
  [("enablePlayTimeSelection", field record "enablePlayTimeSelection")].

(** The body of the [switch (tableName)].  [Ok None] is the [default]
    branch ([continue]).  Every branch with a [case] starts by reading a
    property of [record], which throws when the record is [null]; once
    that read succeeded the remaining reads cannot throw, so they are
    written with [field].  After it only the date conversions can throw,
    all with the same error. *)
Definition build_call (tableName : string) (mode record : value)
  : result (option call) :=
  if tableName =? "users" then
    username <- prop record "username" ;;
    lastLogin <- to_date (field record "lastLogin") ;;
    passwordChangedAt <- to_date (field record "passwordChangedAt") ;;
    if is_merge mode then
      Ok (Some (Upsert User [("username", username)]
                       (user_update record lastLogin passwordChangedAt)
                       (user_create record lastLogin passwordChangedAt)))
    else
      Ok (Some (Create User (user_create record lastLogin passwordChangedAt)))
  else if tableName =? "songs" then
    _ <- prop record "title" ;;
    playedAt <- to_date (field record "playedAt") ;;
    if is_merge mode then
      Ok (Some (Upsert Song [("id", field record "id")]
                       (songData record playedAt)
                       (songData record playedAt
                        ++ [("id", field record "id")])%list))
    else
      Ok (Some (Create Song (songData record playedAt)))
  else if tableName =? "playTimes" then
    if is_merge mode then
      id <- prop record "id" ;;
      Ok (Some (Upsert PlayTime [("id", id)]
                       (playTime_data record)
                       (("id", id) :: playTime_data record)))
    else
      _ <- prop record "name" ;;
      Ok (Some (Create PlayTime (playTime_data record)))
  else if tableName =? "semesters" then
    name <- prop record "name" ;;
    if is_merge mode then
      Ok (Some (Upsert Semester [("name", name)]
                       [("isActive", field record "isActive")]
                       (semester_create record)))
    else
      Ok (Some (Create Semester (semester_create record)))
  else if tableName =? "systemSettings" then
    if is_merge mode then
      id <- prop record "id" ;;
      Ok (Some (Upsert SystemSettings [("id", id)]
                       (settings_data record)
                       (("id", id) :: settings_data record)))
    else
      _ <- prop record "enablePlayTimeSelection" ;;
      Ok (Some (Create SystemSettings (settings_data record)))
  else
    Ok None.

Definition exn_message (e : exn) : string :=
  match e with
  | H3Error _ m => m
  | JsError m => m
  end.

(** ** The handler *)

(** [event.context.user] and the value returned by [readBody(event)]. *)
Record event : Type := mkEvent {
  context_user : value;
  body : value
}.

(** How [prisma.$transaction] behaves on a database: it may reject
    before the callback runs ([Some message]), and once the callback has
    returned it settles, given the database the transaction started from
    and the one the callback left: it resolves, or rejects (a failed
    commit, an expired transaction), in both cases with the database that
    remains. *)
Record transactions (Store : Type) : Type := mkTransactions {
  begin_tx : Store -> option string;
  settle_tx : Store -> Store -> outcome * Store
}.
Arguments mkTransactions {Store} begin_tx settle_tx.
Arguments begin_tx {Store} t st.
Arguments settle_tx {Store} t started current.

(** Transactions that always go through. *)
Definition always_commits {Store : Type} : transactions Store :=
  mkTransactions (fun _ => None) (fun _ current => (Resolved, current)).

(** The fields of [metadata] the handler prints. *)
Definition printed_metadata : list string :=
  ["version"; "timestamp"; "creator"; "totalRecords"].

(** The four template literals on [metadata] evaluate without throwing. *)
Definition loggable (metadata : value) : bool :=
  forallb (fun k => stringifiable (field metadata k)) printed_metadata.

Section Handler.

(** The database behind the Prisma client: any state with a way to
    execute one call and to run a transaction. *)
Variable Store : Type.
Variable exec : call -> Store -> outcome * Store.
Variable tx : transactions Store.

(** [process.cwd()], and [fs.readFile] followed by [JSON.parse]:
    [None] when either of the two throws. *)
Variable cwd : string.
Variable readJson : string -> option value.

(** What the handler can change or touch: the database, the paths it
    has read, and the Prisma calls it has awaited, oldest first. *)
Record world : Type := mkWorld {
  db : Store;
  reads : list string;
  calls : list (call * outcome)
}.

(** [await prisma.<m>.<op>(...)] *)
Definition run (c : call) (w : world) : outcome * world :=
  let (o, db') := exec c w.(db) in
  (o, mkWorld db' w.(reads) (w.(calls) ++ [(c, o)])%list).

(** The [deleteMany] statements inside the pre-clear [try]: the first
    rejection skips the rest. *)
Fixpoint deleteAll (ms : list model) (w : world) : outcome * world :=
  match ms with
  | [] => (Resolved, w)
  | m :: ms' =>
      match run (DeleteMany m) w with
      | (Resolved, w') => deleteAll ms' w'
      | (Rejected e, w') => (Rejected e, w')
      end
  end.

(** [if (clearExisting) { try { ... } catch (error) { warnings.push } }] *)
Definition preClear (clearExisting : value) (d : details) (w : world)
  : details * world :=
  if truthy clearExisting then
    match deleteAll clearOrder w with
    | (Resolved, w') => (d, w')
    | (Rejected e, w') => (push_warning d (msg_clear_failed ++ e), w')
    end
  else (d, w).

(** The state of the replay loops: the result under construction, the
    world, and the current table's [restoredCount]. *)
Record replay : Type := mkReplay {
  acc : details;
  wld : world;
  restoredCount : nat
}.

(** The body of [for (const record of tableData)], with its
    [try]/[catch (recordError)]. *)
Definition restore_record (tableName : string) (mode record : value)
    (s : replay) : replay :=
  match build_call tableName mode record with
  | Throw e =>
      mkReplay (push_error s.(acc) (tableName ++ ": " ++ exn_message e))
               s.(wld) s.(restoredCount)
  | Ok None => s
  | Ok (Some c) =>
      match run c s.(wld) with
      | (Resolved, w') => mkReplay s.(acc) w' (S s.(restoredCount))
      | (Rejected e, w') =>
          mkReplay (push_error s.(acc) (tableName ++ ": " ++ e))
                   w' s.(restoredCount)
      end
  end.

Definition restore_records (tableName : string) (mode : value)
    (tableData : list value) (s : replay) : replay :=
  fold_left (fun s record => restore_record tableName mode record s)
            tableData s.

(** The body of [for (const tableName of restoreOrder)].  Both
    [continue]s are the first branch; the [catch (tableError)] has no
    counterpart because nothing inside its [try] throws past the
    per-record [catch]. *)
Definition restore_table (data mode : value) (s : details * world)
    (tableName : string) : details * world :=
  match field data tableName with
  | VArr (record :: rest) =>
      let s' := restore_records tableName mode (record :: rest)
                  (mkReplay (fst s) (snd s) 0) in
      (table_done s'.(acc) s'.(restoredCount), s'.(wld))
  | _ => s
  end.

(** The callback passed to [prisma.$transaction].  The callback itself
    never throws: every error in it is caught per record. *)
Definition transaction (data mode : value) (s : details * world)
  : details * world :=
  fold_left (restore_table data mode) restoreOrder s.

(** [await prisma.$transaction(callback)]: when it rejects, the error
    goes to the outermost [catch] and the result built so far is lost. *)
Definition run_transaction (data mode : value) (s : details * world)
  : result details * world :=
  match begin_tx tx (db (snd s)) with
  | Some e => (Throw (JsError e), snd s)
  | None =>
      let (d', w') := transaction data mode s in
      match settle_tx tx (db (snd s)) (db w') with
      | (Resolved, st) => (Ok d', mkWorld st (reads w') (calls w'))
      | (Rejected e, st) =>
          (Throw (JsError e), mkWorld st (reads w') (calls w'))
      end
  end.

(** The outermost [catch]: whatever was thrown is rethrown as
    [createError({ statusCode: error.statusCode || 500,
                   statusMessage: error.statusMessage || ... })]. *)
Definition rethrow (e : exn) : exn :=
  match e with
  | H3Error code msg =>
      H3Error (if (code =? 0)%Z then 500%Z else code)
              (if msg =? "" then msg_failed else msg)
  | JsError _ => H3Error 500 msg_failed
  end.

Definition is_admin (user : value) : bool :=
  truthy user &&
  match field user "role" with
  | VStr r => (r =? "ADMIN") || (r =? "SUPER_ADMIN")
  | _ => false
  end.

(** [path.join(backupDir, filename)] validates that [filename] is a
    string. *)
Definition backupDir : string := Path.join [cwd; "backups"].

Definition filepath_of (filename : value) : result string :=
  match filename with
  | VStr f => Ok (Path.join [backupDir; f])
  | _ => Throw (JsError "ERR_INVALID_ARG_TYPE")
  end.

(** The [try] block of the handler. *)
Definition handler_body (ev : event) (w : world)
  : result restoreResults * world :=
  if negb (is_admin ev.(context_user)) then
    (Throw (H3Error 403 msg_forbidden), w)
  else
    match prop ev.(body) "filename" with
    | Throw e => (Throw e, w)
    | Ok filename =>
        let mode := or_default (field ev.(body) "mode") (VStr "merge") in
        let clearExisting :=
          or_default (field ev.(body) "clearExisting") (VBool false) in
        if negb (truthy filename) then
          (Throw (H3Error 400 msg_no_filename), w)
        else if negb (stringifiable filename) then
          (Throw (JsError msg_not_primitive), w)
        else
          match filepath_of filename with
          | Throw e => (Throw e, w)
          | Ok filepath =>
              let w1 := mkWorld w.(db) (w.(reads) ++ [filepath])%list
                                w.(calls) in
              match readJson filepath with
              | None => (Throw (H3Error 404 msg_not_found), w1)
              | Some backupData =>
                  match prop backupData "metadata" with
                  | Throw e => (Throw e, w1)
                  | Ok metadata =>
                      if negb (truthy metadata)
                         || negb (truthy (field backupData "data")) then
                        (Throw (H3Error 400 msg_bad_format), w1)
                      else if negb (loggable metadata) then
                        (Throw (JsError msg_not_primitive), w1)
                      else
                        let (d, w2) :=
                          preClear clearExisting initial_details w1 in
                        match run_transaction (field backupData "data") mode
                                              (d, w2) with
                        | (Ok d', w3) => (Ok (finalize d'), w3)
                        | (Throw e, w3) => (Throw e, w3)
                        end
                  end
              end
          end
    end.

Definition handler (ev : event) (w : world)
  : result restoreResults * world :=
  match handler_body ev w with
  | (Throw e, w') => (Throw (rethrow e), w')
  | r => r
  end.

End Handler.

Arguments mkWorld {Store} db reads calls.
Arguments db {Store} w.
Arguments reads {Store} w.
Arguments calls {Store} w.
Arguments mkReplay {Store} acc wld restoredCount.
Arguments acc {Store} r.
Arguments wld {Store} r.
Arguments restoredCount {Store} r.
Arguments run {Store} exec c w.
Arguments deleteAll {Store} exec ms w.
Arguments preClear {Store} exec clearExisting d w.
Arguments restore_record {Store} exec tableName mode record s.
Arguments restore_records {Store} exec tableName mode tableData s.
Arguments restore_table {Store} exec data mode s tableName.
Arguments transaction {Store} exec data mode s.
Arguments run_transaction {Store} exec tx data mode s.
Arguments handler_body {Store} exec tx cwd readJson ev w.
Arguments handler {Store} exec tx cwd readJson ev w.

(** ** A database for the Prisma client *)

Module MemStore.

(** Modelled from the spec: the relational store behind the Prisma
    client.  The schema ([prisma/schema.prisma]) is not among the
    sources, so the store follows the specification: every collection
    has a natural unique key ([username] for users, [name] for
    semesters, [id] for the others); an upsert is keyed by it; an insert
    fails when its key already exists; delete-many empties a
    collection.  As in Prisma, a field whose value is [undefined] is
    treated as not given, and an insert that gives no [id] gets a fresh
    one from the store.  Referential constraints are not modelled. *)

Definition row := obj.
Definition t := model -> list row.

Definition empty : t := fun _ => [].

Definition model_eqb (a b : model) : bool :=
  match a, b with
  | User, User | Song, Song | PlayTime, PlayTime | Semester, Semester
  | SystemSettings, SystemSettings | Vote, Vote | Schedule, Schedule
  | NotificationSettings, NotificationSettings
  | Notification, Notification => true
  | _, _ => false
  end.

Definition set (m : model) (rows : list row) (st : t) : t :=
  fun m' => if model_eqb m m' then rows else st m'.

Inductive key : Type :=
| KNum (n : Z)
| KStr (s : string).

Definition key_eqb (a b : key) : bool :=
  match a, b with
  | KNum x, KNum y => (x =? y)%Z
  | KStr x, KStr y => x =? y
  | _, _ => false
  end.

Definition key_of (v : value) : option key :=
  match v with
  | VNum n => Some (KNum n)
  | VStr s => Some (KStr s)
  | _ => None
  end.

Definition key_field (m : model) : string :=
  match m with
  | User => "username"
  | Semester => "name"
  | _ => "id"
  end.

Definition row_key (m : model) (r : row) : option key :=
  key_of (lookup (key_field m) r).

Definition has_key (m : model) (k : key) (r : row) : bool :=
  match row_key m r with
  | Some k' => key_eqb k k'
  | None => false
  end.

(** The number of stored rows of [m] whose key is [k]. *)
Definition count_key (m : model) (k : key) (st : t) : nat :=
  length (filter (has_key m k) (st m)).

Definition is_undefined (v : value) : bool :=
  match v with
  | VUndefined => true
  | _ => false
  end.

Definition defined_fields (o : obj) : obj :=
  filter (fun kv => negb (is_undefined (snd kv))) o.

Fixpoint set_field (k : string) (v : value) (r : row) : row :=
  match r with
  | [] => [(k, v)]
  | (k', v') :: r' =>
      if k' =? k then (k, v) :: r' else (k', v') :: set_field k v r'
  end.

Definition apply_update (update : obj) (r : row) : row :=
  fold_left (fun r kv => set_field (fst kv) (snd kv) r)
            (defined_fields update) r.

(** Replace the first row whose key is [k]. *)
Fixpoint replace_row (m : model) (k : key) (r' : row) (rows : list row)
  : list row :=
  match rows with
  | [] => []
  | r :: rest =>
      if has_key m k r then r' :: rest
      else r :: replace_row m k r' rest
  end.

Fixpoint max_id (rows : list row) : Z :=
  match rows with
  | [] => 0
  | r :: rest =>
      match lookup "id" r with
      | VNum n => Z.max n (max_id rest)
      | _ => max_id rest
      end
  end.

Definition fresh_id (rows : list row) : Z := (max_id rows + 1)%Z.

Definition unique_violation (m : model) : string :=
  "Unique constraint failed on the fields: (`" ++ key_field m ++ "`)".

Definition missing_argument (m : model) : string :=
  "Argument `" ++ key_field m ++ "` is missing.".

Definition invalid_argument (m : model) : string :=
  "Argument `" ++ key_field m ++ "`: Invalid value provided.".

Definition insert (m : model) (data : obj) (st : t) : outcome * t :=
  let r := defined_fields data in
  match lookup (key_field m) r with
  | VUndefined =>
      if key_field m =? "id" then
        (Resolved,
         set m (st m ++ [("id", VNum (fresh_id (st m))) :: r])%list st)
      else (Rejected (missing_argument m), st)
  | v =>
      match key_of v with
      | None => (Rejected (invalid_argument m), st)
      | Some k =>
          if existsb (has_key m k) (st m) then
            (Rejected (unique_violation m), st)
          else (Resolved, set m (st m ++ [r])%list st)
      end
  end.

Definition find_row (m : model) (k : key) (st : t) : option row :=
  find (has_key m k) (st m).

(** An update may not move a row onto a key that is taken. *)
Definition update_row (m : model) (k : key) (update : obj) (old : row)
    (st : t) : outcome * t :=
  let r' := apply_update update old in
  match row_key m r' with
  | None => (Rejected (invalid_argument m), st)
  | Some k' =>
      if key_eqb k k' || negb (existsb (has_key m k') (st m)) then
        (Resolved, set m (replace_row m k r' (st m)) st)
      else (Rejected (unique_violation m), st)
  end.

Definition exec (c : call) (st : t) : outcome * t :=
  match c with
  | DeleteMany m => (Resolved, set m [] st)
  | Create m data => insert m data st
  | Upsert m where_ update create =>
      match key_of (lookup (key_field m) where_) with
      | None => (Rejected (invalid_argument m), st)
      | Some k =>
          match find_row m k st with
          | Some old => update_row m k update old st
          | None => insert m create st
          end
      end
  end.

End MemStore.

(** A database that cannot be reached: every call rejects. *)
Definition unreachable_exec (c : call) (st : unit) : outcome * unit :=
  (Rejected "Can't reach database server", st).

(** ** Vocabulary of the statements *)

(** [null] and [undefined] are the values whose properties cannot be read. *)
Definition readable (v : value) : bool :=
  match v with
  | VUndefined | VNull => false
  | _ => true
  end.

(** [Array.isArray(v) && v.length > 0] *)
Definition nonempty_array (v : value) : bool :=
  match v with
  | VArr (_ :: _) => true
  | _ => false
  end.

Definition is_delete (c : call) : bool :=
  match c with
  | DeleteMany _ => true
  | _ => false
  end.

(** A record was applied: an upsert or an insert that resolved. *)
Definition applied (entry : call * outcome) : bool :=
  negb (is_delete (fst entry)) && resolved (snd entry).

(** The calls awaited between two worlds. *)
Definition new_calls {Store} (w w' : world Store) : list (call * outcome) :=
  skipn (length (calls w)) (calls w').

(** The collections of a backup's [data] that the replay enters. *)
Definition entered (data : value) : list string :=
  filter (fun t => nonempty_array (field data t)) restoreOrder.

(** The world once the handler has read [filepath]. *)
Definition opened {Store} (filepath : string) (w : world Store) : world Store :=
  mkWorld (db w) (reads w ++ [filepath])%list (calls w).

(** [tr] is what a stretch of the replay loops awaited: no file was read,
    no [deleteMany] issued, and the running count grew by the number of
    applied records. *)
Definition replayed {Store} (w w' : world Store) (n n' : nat)
    (tr : list (call * outcome)) : Prop :=
  calls w' = (calls w ++ tr)%list /\
  reads w' = reads w /\
  forallb (fun e => negb (is_delete (fst e))) tr = true /\
  n' = n + length (filter applied tr).

(** The fields of the result that the per-record code leaves alone. *)
Definition same_counts (d d' : details) : Prop :=
  tablesProcessed d' = tablesProcessed d /\
  recordsRestored d' = recordsRestored d /\
  warnings d' = warnings d.

(** The trace of a pre-clear in which every [deleteMany] resolved. *)
Definition cleared (ms : list model) : list (call * outcome) :=
  map (fun m => (DeleteMany m, Resolved)) ms.

(** The trace of a pre-clear: a run of resolved [deleteMany]s along
    [clearOrder], complete, or cut short by the one that rejected, whose
    message is then the only warning. *)
Definition clear_trace (tr : list (call * outcome)) (d : details) : Prop :=
  (tr = cleared clearOrder /\ warnings d = []) \/
  (exists done m rest e,
      clearOrder = (done ++ m :: rest)%list /\
      tr = (cleared done ++ [(DeleteMany m, Rejected e)])%list /\
      warnings d = [msg_clear_failed ++ e]).

(** [xs] with its elements at positions [i] and [i+1] exchanged. *)
Fixpoint swap_at {A} (i : nat) (xs : list A) : list A :=
  match i, xs with
  | O, x :: y :: rest => y :: x :: rest
  | S i', x :: rest => x :: swap_at i' rest
  | _, _ => xs
  end.

(** The collections the [switch] has a [case] for, with their delegates. *)
Definition supported : list (string * model) :=
  [("users", User); ("songs", Song); ("playTimes", PlayTime);
   ("semesters", Semester); ("systemSettings", SystemSettings)].

(** The collections whose insert carries the natural key of the record. *)
Definition keyed_inserts : list (string * model) :=
  [("users", User); ("semesters", Semester)].

(** The collections whose insert leaves the [id] to the store. *)
Definition unkeyed_inserts : list (string * model) :=
  [("songs", Song); ("playTimes", PlayTime);
   ("systemSettings", SystemSettings)].

(** The fields a merge overwrites in an existing user. *)
Definition user_merge_fields : list string :=
  ["name"; "grade"; "class"; "role"; "lastLogin"; "lastLoginIp";
   "passwordChangedAt"].

(** The collections on which a trace awaited [deleteMany], in order. *)
Definition deleted_collections (tr : list (call * outcome)) : list string :=
  flat_map (fun e => match fst e with
                     | DeleteMany m => [collection_of m]
                     | _ => []
                     end) tr.

(** ** Sample requests, backups and databases *)

Module Sample.

Definition admin : value := VObj [("id", VNum 1); ("role", VStr "ADMIN")].
Definition student : value := VObj [("id", VNum 2); ("role", VStr "USER")].

Definition fall : value :=
  VObj [("name", VStr "Fall"); ("isActive", VBool true)].

Definition alice : value :=
  VObj [("username", VStr "alice"); ("name", VStr "Alice");
        ("password", VStr "hash-in-backup"); ("grade", VStr "10");
        ("class", VStr "3"); ("role", VStr "USER");
        ("lastLogin", VStr "2024-05-01T08:00:00.000Z");
        ("lastLoginIp", VStr "10.0.0.7"); ("passwordChangedAt", VNull)].

Definition bob : value :=
  VObj [("username", VStr "bob"); ("name", VStr "Bob");
        ("password", VStr "hash-of-bob"); ("role", VStr "USER")].

Definition song7 : value :=
  VObj [("id", VNum 7); ("title", VStr "Yesterday");
        ("artist", VStr "The Beatles"); ("requesterId", VNum 1);
        ("played", VBool false); ("preferredPlayTimeId", VNum 3)].

Definition metadata : value :=
  VObj [("version", VStr "1.0"); ("timestamp", VStr "2024-05-02T00:00:00.000Z");
        ("creator", VStr "admin"); ("totalRecords", VNum 4)].

Definition backup : value :=
  VObj [("metadata", metadata);
        ("data", VObj [("foo", VArr [VNull]);
                       ("songs", VArr [song7]);
                       ("users", VArr [alice; bob]);
                       ("semesters", VArr [fall])])].

(** A backup without [metadata], and one with nothing to restore. *)
Definition headless : value :=
  VObj [("data", VObj [("semesters", VArr [fall])])].

Definition hollow : value :=
  VObj [("metadata", metadata); ("data", VObj [])].

(** The files of the image; [/app/secret.json] is not a backup file. *)
Definition files (p : string) : option value :=
  if p =? "/app/backups/backup.json" then Some backup
  else if p =? "/app/backups/headless.json" then Some headless
  else if p =? "/app/backups/hollow.json" then Some hollow
  else if p =? "/app/secret.json" then Some backup
  else None.

Definition request (user : value) (filename mode : string) (clear : bool)
  : event :=
  mkEvent user (VObj [("filename", VStr filename); ("mode", VStr mode);
                      ("clearExisting", VBool clear)]).

Definition stored_alice : obj :=
  [("username", VStr "alice"); ("name", VStr "Old name");
   ("password", VStr "current-hash")].

Definition stored_song : obj :=
  [("id", VNum 7); ("title", VStr "Another song")].

Definition populated : MemStore.t :=
  MemStore.set User [stored_alice]
    (MemStore.set Song [stored_song] MemStore.empty).

Definition fresh : world MemStore.t := mkWorld MemStore.empty [] [].
Definition live : world MemStore.t := mkWorld populated [] [].
Definition offline : world unit := mkWorld tt [] [].

Definition start {Store} (w : world Store) : replay Store :=
  mkReplay initial_details w 0.

End Sample.

(** ** Vocabulary for the rest of the handler *)

(** Whether the [switch] has a [case] for the collection. *)
Definition has_case (t : string) : bool :=
  existsb (fun p => fst p =? t) supported.

(** The collections of the restore order that fall to [default]. *)
Definition unhandled : list string :=
  ["votes"; "schedules"; "notificationSettings"; "notifications"].

(** The records a backup holds for a collection. *)
Definition table_rows (data : value) (t : string) : list value :=
  match field data t with
  | VArr rows => rows
  | _ => []
  end.

(** The number of records in the collections the [switch] handles. *)
Definition supported_total (data : value) : nat :=
  list_sum (map (fun t => if has_case t then length (table_rows data t) else 0)
                restoreOrder).

Definition call_model (c : call) : model :=
  match c with
  | DeleteMany m => m
  | Upsert m _ _ _ => m
  | Create m _ => m
  end.

Definition call_collection (c : call) : string :=
  collection_of (call_model c).

(** The status codes the handler answers a failed request with. *)
Definition status_codes : list Z := [400; 403; 404; 500]%Z.

(** The mode a request asks for. *)
Definition requested_mode (ev : event) : value :=
  or_default (field (body ev) "mode") (VStr "merge").

(** ** Vocabulary for the records *)

(** The fields of a collection's records that the handler turns into
    dates. *)
Definition date_fields (t : string) : list string :=
  if t =? "users" then ["lastLogin"; "passwordChangedAt"]
  else if t =? "songs" then ["playedAt"]
  else [].

(** None of the date conversions of a record throws. *)
Definition dates_convertible (t : string) (record : value) : bool :=
  forallb (fun f => convertible (field record f)) (date_fields t).

(** What a date field is sent as once its conversion went through. *)
Definition date_value (v : value) : value :=
  if truthy v then VDate v else VNull.

(** The fields a call takes from the record as they are. *)
Definition copied_fields (t : string) : list string :=
  if t =? "users" then
    ["username"; "name"; "password"; "grade"; "class"; "role"; "lastLoginIp"]
  else if t =? "songs" then
    ["title"; "artist"; "requesterId"; "played"; "semester";
     "preferredPlayTimeId"; "cover"; "musicPlatform"; "musicId"]
  else if t =? "playTimes" then
    ["name"; "startTime"; "endTime"; "enabled"; "description"]
  else if t =? "semesters" then ["name"; "isActive"]
  else if t =? "systemSettings" then ["enablePlayTimeSelection"]
  else [].

(** The fields the update clause of a merge carries. *)
Definition updated_fields (t : string) : list string :=
  if t =? "users" then user_merge_fields
  else if t =? "semesters" then ["isActive"]
  else (copied_fields t ++ date_fields t)%list.

(** What a call sends for a field of the record. *)
Definition sent_value (t f : string) (record : value) : value :=
  if existsb (String.eqb f) (date_fields t) then date_value (field record f)
  else field record f.

(** The call the [switch] builds for a record when nothing throws. *)
Definition call_for (t : string) (mode record : value) : option call :=
  let lastLogin := date_value (field record "lastLogin") in
  let passwordChangedAt := date_value (field record "passwordChangedAt") in
  let playedAt := date_value (field record "playedAt") in
  if t =? "users" then
    if is_merge mode then
      Some (Upsert User [("username", field record "username")]
                   (user_update record lastLogin passwordChangedAt)
                   (user_create record lastLogin passwordChangedAt))
    else Some (Create User (user_create record lastLogin passwordChangedAt))
  else if t =? "songs" then
    if is_merge mode then
      Some (Upsert Song [("id", field record "id")] (songData record playedAt)
                   (songData record playedAt ++ [("id", field record "id")])%list)
    else Some (Create Song (songData record playedAt))
  else if t =? "playTimes" then
    if is_merge mode then
      Some (Upsert PlayTime [("id", field record "id")] (playTime_data record)
                   (("id", field record "id") :: playTime_data record))
    else Some (Create PlayTime (playTime_data record))
  else if t =? "semesters" then
    if is_merge mode then
      Some (Upsert Semester [("name", field record "name")]
                   [("isActive", field record "isActive")]
                   (semester_create record))
    else Some (Create Semester (semester_create record))
  else if t =? "systemSettings" then
    if is_merge mode then
      Some (Upsert SystemSettings [("id", field record "id")]
                   (settings_data record)
                   (("id", field record "id") :: settings_data record))
    else Some (Create SystemSettings (settings_data record))
  else None.

(** What a stored user holds in field [f] after a merge of [record]: the
    value sent, unless nothing was sent for it. *)
Definition merged_user_field (f : string) (record : value) (old : obj) : value :=
  if MemStore.is_undefined (sent_value "users" f record) then lookup f old
  else sent_value "users" f record.

(** * The deployment check ([scripts/check-deploy.js]) *)

Module CheckDeploy.

(** A JavaScript number that holds a size: a natural number that a
    double represents exactly, or [Infinity]. *)
Inductive number : Type :=
| Finite (n : N)
| Infinity.

(** Up to this bound every natural number is a double. *)
Definition exact_limit : N := 9007199254740992.

(** The double nearest to a natural number (ties to even): 53
    significant bits are kept, and what reaches [2^1024] overflows. *)
Definition round_double (n : N) : number :=
  if (n <=? exact_limit)%N then Finite n
  else
    let e := (N.log2 n - 52)%N in
    let q := N.shiftr n e in
    let r := (n - N.shiftl q e)%N in
    let half := N.shiftl 1 (e - 1) in
    let q' := if (half <? r)%N || ((r =? half)%N && N.odd q)
              then (q + 1)%N else q in
    let m := N.shiftl q' e in
    if (m <? 2 ^ 1024)%N then Finite m else Infinity.

(** [a + b] on sizes. *)
Definition js_add (a b : number) : number :=
  match a, b with
  | Finite x, Finite y => round_double (x + y)
  | _, _ => Infinity
  end.

(** What [fs.statSync] finds at a path: a regular file with its size in
    bytes, a directory with what [fs.readdirSync] lists in it ([None]
    when the listing throws), something that is neither, or nothing
    ([statSync] throws). *)
Inductive node : Type :=
| File (size : N)
| Dir (listing : option (list (string * node)))
| Special
| Missing.

(** The machine the script runs on: the file system, [process.env], and
    whether the [prisma db execute] probe exits normally. *)
Record host : Type := mkHost {
  at_path : string -> node;
  env : string -> option string;
  database : bool
}.

(** One [console.log] of [log(message, color)]. *)
Record line : Type := mkLine {
  color : string;
  text : string
}.

Definition log (message color : string) : line := mkLine color message.
Definition logSuccess (message : string) : line := log ("✅ " ++ message) "green".
Definition logWarning (message : string) : line := log ("⚠️ " ++ message) "yellow".
Definition logError (message : string) : line := log ("❌ " ++ message) "red".
Definition logInfo (message : string) : line := log ("ℹ️ " ++ message) "blue".

(** [fs.existsSync] *)
Definition fileExists (h : host) (filePath : string) : bool :=
  match at_path h filePath with
  | Missing => false
  | _ => true
  end.

(** Every [catch] and the final [return 0] give 0; [stats.size] is the
    size as a number. *)
Fixpoint getDirectorySize (n : node) : number :=
  match n with
  | File size => round_double size
  | Dir (Some files) =>
      fold_left (fun totalSize file =>
                   js_add totalSize (getDirectorySize (snd file)))
                files (Finite 0)
  | Dir None => Finite 0
  | Special => Finite 0
  | Missing => Finite 0
  end.

(** The regular files a size is summed over. *)
Fixpoint files_below (n : node) : list N :=
  match n with
  | File size => [size]
  | Dir (Some files) => flat_map (fun file => files_below (snd file)) files
  | _ => []
  end.

Definition sum_sizes (sizes : list N) : N := fold_right N.add 0%N sizes.

(** [process.env[varName]] is truthy: set, and not to the empty string. *)
Definition env_set (h : host) (varName : string) : bool :=
  match env h varName with
  | Some v => negb (v =? "")
  | None => false
  end.

Definition requiredVars : list string := ["DATABASE_URL"; "JWT_SECRET"].
Definition optionalVars : list string := ["NUXT_SECRET_KEY"; "NODE_ENV"].
Definition criticalFiles : list string :=
  ["nuxt.config.ts"; "prisma/schema.prisma"; "package.json"].

Definition outputDir : string := ".output".
Definition serverIndex : string := ".output/server/index.mjs".
Definition prismaClientPath : string := "node_modules/.prisma/client".

Section Checks.

(** [formatBytes] works on floating-point numbers; the checks only put
    its result into a message. *)
Variable formatBytes : number -> string.

Definition checkBuildOutput (h : host) : bool * list line :=
  let started := [log "🔍 检查构建输出..." "cyan"] in
  if negb (fileExists h outputDir) then
    (false, started ++ [logError "构建输出目录不存在"])%list
  else if negb (fileExists h serverIndex) then
    (false, started ++ [logError "服务器入口文件不存在"])%list
  else
    let outputSize := getDirectorySize (at_path h outputDir) in
    (true,
     started ++
     [logSuccess ("构建输出检查通过 (大小: " ++ formatBytes outputSize ++ ")")])%list.

Definition checkPrismaClient (h : host) : bool * list line :=
  let started := [log "🔍 检查 Prisma 客户端..." "cyan"] in
  if negb (fileExists h prismaClientPath) then
    (false, started ++ [logError "Prisma 客户端未生成"])%list
  else (true, started ++ [logSuccess "Prisma 客户端检查通过"])%list.

(** The two [forEach] loops of [checkEnvironmentVariables]. *)
Definition checkRequired (h : host) (s : bool * list line) (varName : string)
  : bool * list line :=
  if env_set h varName then
    (fst s, snd s ++ [logSuccess (varName ++ " 已设置")])%list
  else
    (false, snd s ++ [logError ("缺少必需的环境变量: " ++ varName)])%list.

Definition checkOptional (h : host) (s : bool * list line) (varName : string)
  : bool * list line :=
  if env_set h varName then
    (fst s, snd s ++ [logInfo (varName ++ " 已设置")])%list
  else
    (fst s, snd s ++ [logWarning ("可选环境变量未设置: " ++ varName)])%list.

Definition checkEnvironmentVariables (h : host) : bool * list line :=
  let started := (true, [log "🔍 检查环境变量..." "cyan"]) in
  fold_left (checkOptional h) optionalVars
            (fold_left (checkRequired h) requiredVars started).

Definition checkDatabaseConnection (h : host) : bool * list line :=
  let started := [log "🔍 检查数据库连接..." "cyan"] in
  if database h then (true, started ++ [logSuccess "数据库连接正常"])%list
  else
    (false,
     started ++
     [logWarning "数据库连接测试失败（这在某些部署环境中是正常的）"])%list.

Definition checkCriticalFile (h : host) (s : bool * list line) (file : string)
  : bool * list line :=
  if fileExists h file then
    (fst s, snd s ++ [logSuccess (file ++ " 存在")])%list
  else
    (false, snd s ++ [logError ("关键文件缺失: " ++ file)])%list.

Definition checkCriticalFiles (h : host) : bool * list line :=
  fold_left (checkCriticalFile h) criticalFiles
            (true, [log "🔍 检查关键文件..." "cyan"]).

(** An entry of the [checks] array. *)
Record check : Type := mkCheck {
  name : string;
  passed : bool;
  details : option string
}.

Definition newline : string := String "010"%char "".

(** A natural number as [`${n}`] prints it. *)
Definition show_nat (n : nat) : string :=
  NilEmpty.string_of_uint (Nat.to_uint n).

Definition report_check (c : check) : list line :=
  log ((if passed c then "✅" else "❌") ++ " " ++ name c)
      (if passed c then "green" else "red")
  :: match details c with
     | Some d => if d =? "" then [] else [log ("   " ++ d) "reset"]
     | None => []
     end.

Definition msg_all_passed : string :=
  "🎉 所有检查都通过了！部署应该可以正常工作。".
Definition msg_some_failed : string :=
  "⚠️ 部分检查未通过，可能会影响应用运行。".

Definition generateDeploymentReport (checks : list check) : list line :=
  let passed_count := length (filter passed checks) in
  let total := length checks in
  ([log (newline ++ "📊 部署检查报告") "bright";
    log (String.concat "" (repeat "=" 50)) "cyan"]
   ++ flat_map report_check checks
   ++ [log (newline ++ "总计: " ++ show_nat passed_count ++ "/" ++
            show_nat total ++ " 项检查通过")
           (if passed_count =? total then "green" else "yellow")%nat;
       if (passed_count =? total)%nat then log msg_all_passed "green"
       else log msg_some_failed "yellow"])%list.

(** [haystack.includes(needle)] *)
Fixpoint includes (needle haystack : string) : bool :=
  String.prefix needle haystack ||
  match haystack with
  | EmptyString => false
  | String _ rest => includes needle rest
  end.

Definition db_check_details : string := "在某些部署环境中这是正常的".

(** The checks that decide the exit code. *)
Definition critical_failures (checks : list check) : list check :=
  filter (fun c => negb (passed c) && negb (includes "数据库连接" (name c)))
         checks.

(** [checkDeployment]: the exit code of the process and what it printed. *)
Definition checkDeployment (h : host) : nat * list line :=
  let files := checkCriticalFiles h in
  let build := checkBuildOutput h in
  let client := checkPrismaClient h in
  let vars := checkEnvironmentVariables h in
  let db := checkDatabaseConnection h in
  let checks :=
    [mkCheck "关键文件检查" (fst files) None;
     mkCheck "构建输出检查" (fst build) None;
     mkCheck "Prisma 客户端检查" (fst client) None;
     mkCheck "环境变量检查" (fst vars) None;
     mkCheck "数据库连接检查" (fst db)
             (if fst db then None else Some db_check_details)] in
  ((if (0 <? length (critical_failures checks))%nat then 1 else 0),
   [log "🔍 开始部署后检查..." "bright"]
   ++ snd files ++ snd build ++ snd client ++ snd vars ++ snd db
   ++ generateDeploymentReport checks)%list.

End Checks.

(** A line printed by [logError]. *)
Definition is_error (l : line) : bool := color l =? "red".

End CheckDeploy.

(** * The Prisma client generation script ([prisma/generate.js]) *)

Module GenerateClient.

(** What the script meets: [process.env] and [process.cwd()], whether
    the old client directory is there, and how each external step ends
    ([Some message] is the error it throws).  [generated] is
    [fs.existsSync] once [prisma generate] has run. *)
Record host : Type := mkHost {
  env : string -> option string;
  cwd : string;
  client_present : bool;
  rmSync : option string;
  npm_list : bool;
  npm_install : option string;
  prisma_generate : option string;
  generated : string -> bool
}.

Inductive stream : Type := Out | Err.

(** What the script has done so far: the lines printed, the commands
    given to [execSync], the paths removed, [process.env], and the
    environment [prisma generate] was started with. *)
Record progress : Type := mkProgress {
  printed : list (stream * string);
  ran : list string;
  removed : list string;
  penv : string -> option string;
  spawn_env : option (string -> option string)
}.

Definition print (s : stream) (text : string) (p : progress) : progress :=
  mkProgress (printed p ++ [(s, text)])%list (ran p) (removed p) (penv p)
             (spawn_env p).

Definition execSync (command : string) (p : progress) : progress :=
  mkProgress (printed p) (ran p ++ [command])%list (removed p) (penv p)
             (spawn_env p).

Definition setenv (k v : string) (p : progress) : progress :=
  mkProgress (printed p) (ran p) (removed p)
             (fun k' => if k' =? k then Some v else penv p k') (spawn_env p).

Definition truthy_var (e : string -> option string) (k : string) : bool :=
  match e k with
  | Some v => negb (v =? "")
  | None => false
  end.

Definition isNetlify (h : host) : bool :=
  truthy_var (env h) "NETLIFY" || truthy_var (env h) "NETLIFY_BUILD_BASE".
Definition isVercel (h : host) : bool := truthy_var (env h) "VERCEL".
Definition isCI (h : host) : bool := truthy_var (env h) "CI".

Definition show_bool (b : bool) : string := if b then "true" else "false".

Definition netlify_targets : string :=
  "debian-openssl-1.1.x,rhel-openssl-1.0.x,linux-musl".

Definition cmd_list : string := "npm list @prisma/client".
Definition cmd_install : string := "npm install @prisma/client".
Definition cmd_generate : string := "npx prisma generate".

Definition generatedFiles : list string :=
  ["node_modules/@prisma/client/index.js";
   "node_modules/@prisma/client/default.js";
   "node_modules/@prisma/client/package.json"].

Definition clientPath (h : host) : string :=
  Path.join [cwd h; "node_modules"; "@prisma"; "client"].

(** The [env] option of the [prisma generate] call. *)
Definition generate_env (h : host) (e : string -> option string)
  : string -> option string :=
  fun k =>
    if k =? "PRISMA_CLI_BINARY_TARGETS" then
      (if isNetlify h then Some netlify_targets else None)
    else if k =? "PRISMA_GENERATE_SKIP_AUTOINSTALL" then Some "false"
    else e k.

Definition started (h : host) : progress :=
  print Out ("环境检测: Netlify=" ++ show_bool (isNetlify h) ++
             ", Vercel=" ++ show_bool (isVercel h) ++
             ", CI=" ++ show_bool (isCI h))
    (print Out "🔧 Prisma 客户端生成脚本启动..."
       (mkProgress [] [] [] (env h) None)).

(** Step 1: remove the previous client. *)
Definition clean (h : host) (p : progress) : option string * progress :=
  if client_present h then
    let p := print Out "🧹 清理之前的 Prisma 客户端..." p in
    match rmSync h with
    | Some e => (Some e, p)
    | None =>
        (None, mkProgress (printed p) (ran p)
                          (removed p ++ [clientPath h])%list (penv p)
                          (spawn_env p))
    end
  else (None, p).

(** Step 2: the Netlify settings. *)
Definition configure (h : host) (p : progress) : progress :=
  if isNetlify h then
    print Out "🔧 设置 Netlify 二进制目标"
      (setenv "PRISMA_GENERATE_SKIP_AUTOINSTALL" "false"
         (setenv "PRISMA_CLI_BINARY_TARGETS" netlify_targets p))
  else p.

(** Step 3: make sure [@prisma/client] is installed. *)
Definition ensure_dependency (h : host) (p : progress)
  : option string * progress :=
  let p := execSync cmd_list (print Out "🔍 检查 @prisma/client 依赖..." p) in
  if npm_list h then (None, print Out "✅ @prisma/client 依赖已存在" p)
  else
    let p := execSync cmd_install
               (print Out "⚠️ @prisma/client 依赖缺失，尝试安装..." p) in
    match npm_install h with
    | None => (None, print Out "✅ @prisma/client 安装完成" p)
    | Some e => (Some e, print Err ("❌ @prisma/client 安装失败: " ++ e) p)
    end.

(** Step 4: generate. *)
Definition generate (h : host) (p : progress) : option string * progress :=
  let p := execSync cmd_generate (print Out "🔧 生成 Prisma 客户端..." p) in
  let p := mkProgress (printed p) (ran p) (removed p) (penv p)
                      (Some (generate_env h (penv p))) in
  (prisma_generate h, p).

(** Step 5: look for the generated files. *)
Definition verify (h : host) (p : progress) : progress :=
  print Out "✅ Prisma 客户端生成完成"
    (fold_left (fun p file =>
                  if generated h file then print Out ("✅ " ++ file) p
                  else print Out ("❌ 缺少: " ++ file) p)
               generatedFiles
               (print Out "🔍 验证生成的文件..." p)).

(** The [try] block: what it throws, if anything. *)
Definition attempt (h : host) : option string * progress :=
  match clean h (started h) with
  | (Some e, p) => (Some e, p)
  | (None, p) =>
      match ensure_dependency h (configure h p) with
      | (Some e, p) => (Some e, p)
      | (None, p) =>
          match generate h p with
          | (Some e, p) => (Some e, p)
          | (None, p) => (None, verify h p)
          end
      end
  end.

(** The script: its exit code and everything it did. *)
Definition main (h : host) : nat * progress :=
  match attempt h with
  | (None, p) => (0, p)
  | (Some e, p) =>
      let p := print Err ("❌ Prisma 客户端生成失败: " ++ e) p in
      if isCI h && negb (truthy_var (penv p) "DATABASE_URL") then
        (0, print Out "⚠️ 检测到CI环境且无DATABASE_URL，继续构建过程..." p)
      else (1, p)
  end.

(** Every step the script depends on went through. *)
Definition all_steps_ok (h : host) : bool :=
  (negb (client_present h) || match rmSync h with None => true | _ => false end)
  && (npm_list h || match npm_install h with None => true | _ => false end)
  && match prisma_generate h with None => true | _ => false end.

End GenerateClient.

(** ** More sample requests, and sample hosts for the two scripts *)

Module MoreSamples.

(** A user record without [lastLogin] and without [grade]. *)
Definition alice_sparse : value :=
  VObj [("username", VStr "alice"); ("name", VStr "Alice")].

Definition stored_alice_full : obj :=
  [("username", VStr "alice"); ("name", VStr "Old name");
   ("password", VStr "current-hash"); ("grade", VStr "9");
   ("lastLogin", VDate (VStr "2024-01-01T00:00:00.000Z"))].

Definition with_alice : world MemStore.t :=
  mkWorld (MemStore.set User [stored_alice_full] MemStore.empty) [] [].


(** The sample backup with another [metadata]. *)
Definition backup_relabelled : value :=
  VObj [("metadata", VObj [("version", VStr "0.1"); ("totalRecords", VNum 0)]);
        ("data", field Sample.backup "data")].

Definition files_relabelled (p : string) : option value :=
  if p =? "/app/backups/backup.json" then Some backup_relabelled else None.

Definition with_votes : value :=
  VObj [("votes", VArr [VObj [("id", VNum 1); ("songId", VNum 7)]])].

(** A backup that holds nothing but one vote, and a file that holds the
    JSON value [null]. *)
Definition backup_votes : value :=
  VObj [("metadata", Sample.metadata); ("data", with_votes)].

Definition files_more (p : string) : option value :=
  if p =? "/app/backups/votes.json" then Some backup_votes
  else if p =? "/app/backups/null.json" then Some VNull
  else Sample.files p.

(** A user record whose [lastLogin] is an object with a [toString] key. *)
Definition alice_odd : value :=
  VObj [("username", VStr "alice"); ("name", VStr "Alice");
        ("password", VStr "hash-in-backup");
        ("lastLogin", VObj [("toString", VNull)])].

(** A play time and a song that prefers it, as a backup holds them. *)
Definition noon : value :=
  VObj [("id", VNum 3); ("name", VStr "Noon"); ("enabled", VBool true)].

Definition stored_playTime : obj := [("id", VNum 1); ("name", VStr "Morning")].

Definition with_playTime : world MemStore.t :=
  mkWorld (MemStore.set PlayTime [stored_playTime] MemStore.empty) [] [].

(** A database whose transactions cannot be committed: what the
    callback did is rolled back. *)
Definition never_commits : transactions MemStore.t :=
  mkTransactions (fun _ => None)
                 (fun started _ => (Rejected "Transaction already closed", started)).

Definition data_fields : list (string * value) :=
  [("foo", VArr [VNull]); ("songs", VArr [Sample.song7]);
   ("users", VArr [Sample.alice; Sample.bob]);
   ("semesters", VArr [Sample.fall])].

(** A deployed tree in which everything is in place, on a host whose
    database cannot be reached. *)
Definition deployed_tree (p : string) : CheckDeploy.node :=
  if p =? ".output" then
    CheckDeploy.Dir
      (Some [("server",
              CheckDeploy.Dir (Some [("index.mjs", CheckDeploy.File 2048)]));
             ("public", CheckDeploy.Dir None);
             ("nitro.json", CheckDeploy.File 512)])
  else if p =? ".output/server/index.mjs" then CheckDeploy.File 2048
  else if p =? "node_modules/.prisma/client" then CheckDeploy.Dir (Some [])
  else if p =? "nuxt.config.ts" then CheckDeploy.File 100
  else if p =? "prisma/schema.prisma" then CheckDeploy.File 100
  else if p =? "package.json" then CheckDeploy.File 100
  else CheckDeploy.Missing.

Definition deployed_env (k : string) : option string :=
  if k =? "DATABASE_URL" then Some "postgresql://db/voicehub"
  else if k =? "JWT_SECRET" then Some "secret"
  else None.

Definition deployed : CheckDeploy.host :=
  CheckDeploy.mkHost deployed_tree deployed_env false.

(** A build outside Netlify whose environment sets the binary targets. *)
Definition builder_env (k : string) : option string :=
  if k =? "PRISMA_CLI_BINARY_TARGETS" then Some "native"
  else if k =? "DATABASE_URL" then Some "postgresql://db/voicehub"
  else None.

Definition builder : GenerateClient.host :=
  GenerateClient.mkHost builder_env "/app" true None true None None
                        (fun _ => true).

End MoreSamples.

(** * Properties *)

Section HandlerFacts.

Variable Store : Type.
Variable exec : call -> Store -> outcome * Store.
Variable tx : transactions Store.
Variable cwd : string.
Variable readJson : string -> option value.

Lemma truthy_readable v : truthy v = true -> readable v = true.
Proof. destruct v; simpl; congruence. Qed.

Lemma prop_readable v k : readable v = true -> prop v k = Ok (field v k).
Proof. destruct v; simpl; congruence. Qed.

Lemma is_admin_role user :
  is_admin user = true ->
  field user "role" = VStr "ADMIN" \/ field user "role" = VStr "SUPER_ADMIN".
Proof.
  unfold is_admin. intros H. apply andb_true_iff in H as [_ H].
  destruct (field user "role"); try discriminate.
  apply orb_true_iff in H as [H | H]; apply String.eqb_eq in H; subst; auto.
Qed.

(** C8: a caller that is absent, or whose role is neither [ADMIN] nor
    [SUPER_ADMIN], gets the 403 error, and the world is exactly what it
    was: no file has been read and no Prisma call has been made. *)
Theorem non_admin_forbidden (ev : event) (w : world Store) :
  context_user ev = VUndefined \/ context_user ev = VNull \/
  (field (context_user ev) "role" <> VStr "ADMIN" /\
   field (context_user ev) "role" <> VStr "SUPER_ADMIN") ->
  handler exec tx cwd readJson ev w = (Throw (H3Error 403 msg_forbidden), w).
Proof.
  intros H.
  assert (Hadm : is_admin (context_user ev) = false).
  { destruct (is_admin (context_user ev)) eqn:E; [|reflexivity].
    destruct H as [H | [H | [H1 H2]]].
    - rewrite H in E. discriminate.
    - rewrite H in E. discriminate.
    - apply is_admin_role in E. tauto. }
  unfold handler, handler_body. rewrite Hadm. reflexivity.
Qed.

(** *** The replay only appends upserts and inserts to the trace *)

Ltac split_build_call :=
  unfold build_call, bind;
  repeat match goal with
         | |- context [if ?b then _ else _] => destruct b
         | |- context [match prop ?v ?k with _ => _ end] => destruct (prop v k)
         | |- context [match to_date ?v with _ => _ end] => destruct (to_date v)
         end.

Lemma build_call_not_delete t mode r c :
  build_call t mode r = Ok (Some c) -> is_delete c = false.
Proof.
  split_build_call; intros H; inversion H; reflexivity.
Qed.

Lemma replayed_refl (w : world Store) n : replayed w w n n [].
Proof.
  unfold replayed. rewrite app_nil_r. simpl. auto with arith.
Qed.

Lemma replayed_trans (w1 w2 w3 : world Store) n1 n2 n3 tr1 tr2 :
  replayed w1 w2 n1 n2 tr1 -> replayed w2 w3 n2 n3 tr2 ->
  replayed w1 w3 n1 n3 (tr1 ++ tr2).
Proof.
  intros (C1 & R1 & D1 & N1) (C2 & R2 & D2 & N2).
  unfold replayed. repeat split.
  - rewrite C2, C1, app_assoc. reflexivity.
  - congruence.
  - rewrite forallb_app, D1, D2. reflexivity.
  - rewrite filter_app, length_app. lia.
Qed.

Lemma run_calls c (w w' : world Store) o :
  run exec c w = (o, w') ->
  calls w' = (calls w ++ [(c, o)])%list /\ reads w' = reads w.
Proof.
  unfold run. destruct (exec c (db w)) as [o' d']. intros H.
  inversion H; subst. simpl. auto.
Qed.

Lemma restore_record_replayed t mode r (s : replay Store) :
  let s' := restore_record exec t mode r s in
  same_counts (acc s) (acc s') /\
  exists tr, replayed (wld s) (wld s') (restoredCount s) (restoredCount s') tr.
Proof.
  unfold restore_record.
  destruct (build_call t mode r) as [[c|]|e] eqn:B; simpl.
  - apply build_call_not_delete in B.
    destruct (run exec c (wld s)) as [[|msg] w'] eqn:R; simpl;
      apply run_calls in R as [R1 R2];
      (split; [repeat split|]).
    + exists [(c, Resolved)].
      unfold replayed, applied; simpl; rewrite B; simpl.
      repeat split; auto; lia.
    + exists [(c, Rejected msg)].
      unfold replayed, applied; simpl; rewrite B; simpl.
      repeat split; auto; lia.
  - split; [repeat split|]. exists []. apply replayed_refl.
  - split; [repeat split|]. exists []. apply replayed_refl.
Qed.

Lemma restore_records_replayed t mode rs : forall (s : replay Store),
  let s' := restore_records exec t mode rs s in
  same_counts (acc s) (acc s') /\
  exists tr, replayed (wld s) (wld s') (restoredCount s) (restoredCount s') tr.
Proof.
  unfold restore_records.
  induction rs as [|r rs IH]; intros s; simpl.
  - split; [repeat split|]. exists []. apply replayed_refl.
  - destruct (restore_record_replayed t mode r s) as [(A1 & A2 & A3) [tr1 H1]].
    destruct (IH (restore_record exec t mode r s)) as [(B1 & B2 & B3) [tr2 H2]].
    split.
    + repeat split; congruence.
    + exists (tr1 ++ tr2)%list. eapply replayed_trans; eassumption.
Qed.

Lemma restore_table_replayed data mode t (s : details * world Store) :
  let s' := restore_table exec data mode s t in
  warnings (fst s') = warnings (fst s) /\
  tablesProcessed (fst s') =
    tablesProcessed (fst s) + (if nonempty_array (field data t) then 1 else 0) /\
  exists tr, replayed (snd s) (snd s')
                      (recordsRestored (fst s)) (recordsRestored (fst s')) tr.
Proof.
  unfold restore_table.
  destruct (field data t) as [| | | | |[|r rs]| |] eqn:F; simpl;
    try (split; [reflexivity|split; [lia|exists []; apply replayed_refl]]).
  destruct (restore_records_replayed t mode (r :: rs) (mkReplay (fst s) (snd s) 0))
    as [(A1 & A2 & A3) [tr H]].
  simpl in *. split; [assumption|split; [lia|]].
  exists tr. destruct H as (C & R & D & N).
  unfold replayed. repeat split; auto; lia.
Qed.

Lemma restore_tables_replayed data mode ts :
  forall (s s' : details * world Store),
  fold_left (restore_table exec data mode) ts s = s' ->
  warnings (fst s') = warnings (fst s) /\
  tablesProcessed (fst s') =
    tablesProcessed (fst s) +
    length (filter (fun t => nonempty_array (field data t)) ts) /\
  exists tr, replayed (snd s) (snd s')
                      (recordsRestored (fst s)) (recordsRestored (fst s')) tr.
Proof.
  induction ts as [|t ts IH]; intros s s' E; simpl in E.
  - subst s'. simpl.
    split; [reflexivity|split; [lia|exists []; apply replayed_refl]].
  - destruct (restore_table_replayed data mode t s) as (A1 & A2 & [tr1 H1]).
    destruct (IH _ _ E) as (B1 & B2 & [tr2 H2]).
    split; [congruence|split].
    + rewrite B2, A2. simpl.
      destruct (nonempty_array (field data t)); simpl; lia.
    + exists (tr1 ++ tr2)%list. eapply replayed_trans; eassumption.
Qed.

Lemma transaction_unfold data mode (s : details * world Store) :
  transaction exec data mode s =
  fold_left (restore_table exec data mode) restoreOrder s.
Proof.
  exact (eq_refl (fold_left (restore_table exec data mode) restoreOrder s)).
Qed.

Lemma transaction_replayed data mode (d d' : details) (w w' : world Store) :
  transaction exec data mode (d, w) = (d', w') ->
  warnings d' = warnings d /\
  tablesProcessed d' = tablesProcessed d + length (entered data) /\
  exists tr, replayed w w' (recordsRestored d) (recordsRestored d') tr.
Proof.
  intros T. rewrite transaction_unfold in T.
  exact (restore_tables_replayed data mode restoreOrder _ _ T).
Qed.

(** *** The pre-clear *)

Lemma deleteAll_trace ms : forall (w w' : world Store) o,
  deleteAll exec ms w = (o, w') ->
  reads w' = reads w /\
  match o with
  | Resolved => calls w' = (calls w ++ cleared ms)%list
  | Rejected e =>
      exists done m rest,
        ms = (done ++ m :: rest)%list /\
        calls w' = (calls w ++ cleared done ++ [(DeleteMany m, Rejected e)])%list
  end.
Proof.
  induction ms as [|m ms IH]; intros w w' o H; simpl in H.
  - inversion H; subst. simpl. rewrite app_nil_r. auto.
  - destruct (run exec (DeleteMany m) w) as [[|e] w1] eqn:R;
      apply run_calls in R as [R1 R2].
    + apply IH in H as [Hr Hc]. split; [congruence|].
      destruct o as [|e].
      * rewrite Hc, R1, <- app_assoc. reflexivity.
      * destruct Hc as (done & m' & rest & -> & Hc).
        exists (m :: done), m', rest. split; [reflexivity|].
        rewrite Hc, R1, <- app_assoc. reflexivity.
    + inversion H; subst. split; [assumption|].
      exists [], m, ms. split; [reflexivity|]. assumption.
Qed.

Lemma skipn_length_app {A} (l tr : list A) : skipn (length l) (l ++ tr) = tr.
Proof. induction l; simpl; auto. Qed.

Lemma new_calls_app (w w' : world Store) tr :
  calls w' = (calls w ++ tr)%list -> new_calls w w' = tr.
Proof. unfold new_calls. intros ->. apply skipn_length_app. Qed.

Lemma deletes_not_applied tr :
  forallb (fun e => is_delete (fst e)) tr = true -> filter applied tr = [].
Proof.
  induction tr as [|[c o] tr IH]; simpl; [reflexivity|].
  intros H. apply andb_true_iff in H as [H1 H2].
  unfold applied at 1. simpl. rewrite H1. simpl. auto.
Qed.

Lemma cleared_deletes ms :
  forallb (fun e => is_delete (fst e)) (cleared ms) = true.
Proof. induction ms; simpl; auto. Qed.

Lemma preClear_trace ce (w w' : world Store) d' :
  truthy ce = true ->
  preClear exec ce initial_details w = (d', w') ->
  reads w' = reads w /\
  errors d' = [] /\ tablesProcessed d' = 0 /\ recordsRestored d' = 0 /\
  exists tr, calls w' = (calls w ++ tr)%list /\
             forallb (fun e => is_delete (fst e)) tr = true /\
             clear_trace tr d'.
Proof.
  intros Hce. unfold preClear. rewrite Hce.
  destruct (deleteAll exec clearOrder w) as [[|e] w1] eqn:D;
    apply deleteAll_trace in D as [Hr Hc]; intros H; inversion H; subst;
    (split; [assumption|]); repeat (split; [reflexivity|]).
  - exists (cleared clearOrder). split; [assumption|].
    split; [apply cleared_deletes|]. left. auto.
  - destruct Hc as (done & m & rest & Ho & Hc).
    exists (cleared done ++ [(DeleteMany m, Rejected e)])%list.
    split; [assumption|]. split.
    + rewrite forallb_app, cleared_deletes. reflexivity.
    + right. exists done, m, rest, e. auto.
Qed.

Lemma preClear_skipped ce (w : world Store) d :
  truthy ce = false -> preClear exec ce d w = (d, w).
Proof. intros H. unfold preClear. rewrite H. reflexivity. Qed.

Lemma finalize_details d : details_of (finalize d) = d.
Proof. unfold finalize. destruct (errors d); reflexivity. Qed.

(** What an accepted request looks like: an administrator names, by a
    non-empty string [f], a file that parses to [doc]. *)
Section Accepted.

Variable ev : event.
Variable f : string.
Variable doc : value.

Hypothesis Hadmin : is_admin (context_user ev) = true.
Hypothesis Hfile : prop (body ev) "filename" = Ok (VStr f).
Hypothesis Hname : f <> "".
Hypothesis Hread :
  readJson (Path.join [backupDir cwd; f]) = Some doc.

Let filepath := Path.join [backupDir cwd; f].
Let mode := or_default (field (body ev) "mode") (VStr "merge").
Let clearExisting :=
  or_default (field (body ev) "clearExisting") (VBool false).

Let opened := opened filepath (Store := Store).

Lemma handler_reaches_validation (w : world Store) :
  handler_body exec tx cwd readJson ev w =
  match prop doc "metadata" with
  | Throw e => (Throw e, opened w)
  | Ok metadata =>
      if negb (truthy metadata) || negb (truthy (field doc "data")) then
        (Throw (H3Error 400 msg_bad_format), opened w)
      else if negb (loggable metadata) then
        (Throw (JsError msg_not_primitive), opened w)
      else
        let (d, w2) := preClear exec clearExisting initial_details
                                (opened w) in
        match run_transaction exec tx (field doc "data") mode (d, w2) with
        | (Ok d', w3) => (Ok (finalize d'), w3)
        | (Throw e, w3) => (Throw e, w3)
        end
  end.
Proof.
  unfold handler_body. rewrite Hadmin, Hfile.
  cbn [negb truthy filepath_of stringifiable].
  apply String.eqb_neq in Hname. rewrite Hname.
  cbn [negb]. rewrite Hread. reflexivity.
Qed.

(** A document other than [null] that lacks [metadata] or [data] is
    rejected with the 400 format error; the database is the one the
    request found and no Prisma call was made, so nothing was deleted
    or written, whatever [clearExisting] says. *)
Lemma malformed_document_rejected (w : world Store) :
  readable doc = true ->
  field doc "metadata" = VUndefined \/ field doc "data" = VUndefined ->
  handler exec tx cwd readJson ev w =
    (Throw (H3Error 400 msg_bad_format), opened w) /\
  db (opened w) = db w /\ calls (opened w) = calls w.
Proof.
  intros Hnn Habs. split; [|split; reflexivity].
  unfold handler. rewrite handler_reaches_validation.
  rewrite (prop_readable _ _ Hnn).
  destruct Habs as [H | H]; rewrite H; simpl.
  - reflexivity.
  - rewrite orb_true_r. reflexivity.
Qed.

(** A file holding the JSON value [null] has no [metadata] either, but
    reading the property throws: the request is answered by the
    outermost [catch], as a generic failure, before any Prisma call. *)
Lemma null_document_rejected (w : world Store) :
  doc = VNull ->
  handler exec tx cwd readJson ev w = (Throw (H3Error 500 msg_failed), opened w).
Proof.
  intros H. unfold handler. rewrite handler_reaches_validation.
  rewrite H. reflexivity.
Qed.

(** *** A document that has both [metadata] and [data] *)
Section WellFormed.

Hypothesis Hmeta : truthy (field doc "metadata") = true.
Hypothesis Hdata : truthy (field doc "data") = true.

(** Printing [metadata] throws when one of its four fields cannot be
    turned into a string; that, too, is before any Prisma call. *)
Lemma unprintable_metadata_rejected (w : world Store) :
  loggable (field doc "metadata") = false ->
  handler exec tx cwd readJson ev w = (Throw (H3Error 500 msg_failed), opened w).
Proof.
  intros Hlog. unfold handler. rewrite handler_reaches_validation.
  assert (Hr : readable doc = true).
  { destruct doc; simpl in *; congruence. }
  rewrite (prop_readable _ _ Hr), Hmeta, Hdata, Hlog. reflexivity.
Qed.

Hypothesis Hlog : loggable (field doc "metadata") = true.

Lemma handler_accepted (w : world Store) :
  handler exec tx cwd readJson ev w =
  let (d, w2) := preClear exec clearExisting initial_details (opened w) in
  match run_transaction exec tx (field doc "data") mode (d, w2) with
  | (Ok d', w3) => (Ok (finalize d'), w3)
  | (Throw e, w3) => (Throw (rethrow e), w3)
  end.
Proof.
  unfold handler. rewrite handler_reaches_validation.
  assert (Hr : readable doc = true).
  { destruct doc; simpl in *; congruence. }
  rewrite (prop_readable _ _ Hr), Hmeta, Hdata, Hlog. cbn [negb orb].
  destruct (preClear exec clearExisting initial_details (opened w)) as [d w2].
  destruct (run_transaction exec tx (field doc "data") mode (d, w2))
    as [[d'|e] w3]; reflexivity.
Qed.

(** What a returned result was built from. *)
Lemma handler_accepted_returns (w w' : world Store) r :
  handler exec tx cwd readJson ev w = (Ok r, w') ->
  exists d w2 d' w3,
    preClear exec clearExisting initial_details (opened w) = (d, w2) /\
    transaction exec (field doc "data") mode (d, w2) = (d', w3) /\
    r = finalize d' /\ calls w' = calls w3 /\ reads w' = reads w3.
Proof.
  rewrite handler_accepted.
  destruct (preClear exec clearExisting initial_details (opened w))
    as [d w2] eqn:P.
  unfold run_transaction. cbn [snd].
  destruct (begin_tx tx (db w2)); [discriminate|].
  destruct (transaction exec (field doc "data") mode (d, w2)) as [d' w3] eqn:T.
  destruct (settle_tx tx (db w2) (db w3)) as [[|e] st]; [|discriminate].
  intros H. inversion H; subst.
  exists d, w2, d', w3.
  split; [reflexivity|]. split; [exact T|]. repeat split; reflexivity.
Qed.

(** Whatever the transaction does, the calls of the request are those
    of the pre-clear followed by upserts and inserts. *)
Lemma handler_accepted_calls (w : world Store) :
  exists d w2 tr,
    preClear exec clearExisting initial_details (opened w) = (d, w2) /\
    calls (snd (handler exec tx cwd readJson ev w)) = (calls w2 ++ tr)%list /\
    forallb (fun e => negb (is_delete (fst e))) tr = true.
Proof.
  rewrite handler_accepted.
  destruct (preClear exec clearExisting initial_details (opened w))
    as [d w2] eqn:P.
  exists d, w2. unfold run_transaction. cbn [snd].
  destruct (begin_tx tx (db w2)).
  { exists []. cbn [snd]. rewrite app_nil_r. auto. }
  destruct (transaction exec (field doc "data") mode (d, w2)) as [d' w3] eqn:T.
  apply transaction_replayed in T as (_ & _ & tr & Hc & _ & Hnd & _).
  exists tr.
  destruct (settle_tx tx (db w2) (db w3)) as [[|e] st]; cbn [snd calls]; auto.
Qed.

End WellFormed.

End Accepted.

(** *** The post-step *)




End HandlerFacts.

(** ** [path.join] on the backup directory *)

Module PathFacts.
Import Path.

Example join_plain :
  join ["/app/backups"; "backup.json"] = "/app/backups/backup.json".
Proof. reflexivity. Qed.

Example join_parent : join ["/app/backups"; "../../etc/passwd"] = "/etc/passwd".
Proof. reflexivity. Qed.

Example join_above_root : join ["/app/backups"; "../../../.."] = "/".
Proof. reflexivity. Qed.

Example join_inner_parent :
  join ["/app/backups"; "old/../b.json"] = "/app/backups/b.json".
Proof. reflexivity. Qed.

Example join_relative : join ["a"; "../../b/./c//"] = "../b/c/".
Proof. reflexivity. Qed.

Lemma append_assoc (a b c : string) : (a ++ b) ++ c = a ++ (b ++ c).
Proof. induction a; simpl; congruence. Qed.

Lemma append_nil_r (a : string) : a ++ "" = a.
Proof. induction a; simpl; congruence. Qed.

Lemma prefix_app (a b : string) : String.prefix a (a ++ b) = true.
Proof.
  induction a as [|c a IH]; simpl.
  - destruct b; reflexivity.
  - destruct (ascii_dec c c); [assumption|congruence].
Qed.

Lemma split_not_nil s : split s <> [].
Proof.
  destruct s as [|c s]; simpl; [discriminate|].
  destruct (c =? slash)%char; [discriminate|].
  destruct (split s); discriminate.
Qed.

Lemma split_app_slash (a b : string) :
  split (a ++ String slash b) = (split a ++ split b)%list.
Proof.
  induction a as [|c a IH]; simpl.
  - reflexivity.
  - rewrite IH. destruct (c =? slash)%char; [reflexivity|].
    pose proof (split_not_nil a) as Hn.
    destruct (split a); [congruence|reflexivity].
Qed.

Lemma split_segment s : no_slash s = true -> split s = [s].
Proof.
  induction s as [|c s IH]; simpl; [reflexivity|].
  intros H. apply andb_true_iff in H as [H1 H2].
  apply negb_true_iff in H1. rewrite H1, (IH H2). reflexivity.
Qed.

Lemma split_no_slash s : forallb no_slash (split s) = true.
Proof.
  induction s as [|c s IH]; simpl; [reflexivity|].
  destruct (c =? slash)%char eqn:E; simpl; [assumption|].
  pose proof (split_not_nil s) as Hn.
  destruct (split s) as [|seg segs]; [congruence|].
  simpl in *. rewrite E. simpl. assumption.
Qed.

(** Joining slash-free segments and splitting again gives them back. *)
Lemma split_concat segs :
  segs <> [] -> forallb no_slash segs = true ->
  split (String.concat "/" segs) = segs.
Proof.
  induction segs as [|s segs IH]; [congruence|].
  intros _ H. simpl in H. apply andb_true_iff in H as [H1 H2].
  destruct segs as [|s' segs'].
  - simpl. apply split_segment. assumption.
  - change (String.concat "/" (s :: s' :: segs'))
      with (s ++ String slash (String.concat "/" (s' :: segs'))).
    rewrite split_app_slash, (split_segment _ H1), IH;
      [reflexivity|discriminate|assumption].
Qed.

Lemma concat_app (xs ys : list string) :
  xs <> [] -> ys <> [] ->
  String.concat "/" (xs ++ ys) =
  String.concat "/" xs ++ "/" ++ String.concat "/" ys.
Proof.
  induction xs as [|x xs IH]; [congruence|].
  intros _ Hy. destruct xs as [|x' xs'].
  - simpl. destruct ys; [congruence|reflexivity].
  - change (String.concat "/" ((x :: x' :: xs') ++ ys))
      with (x ++ "/" ++ String.concat "/" ((x' :: xs') ++ ys)).
    rewrite IH; [|discriminate|assumption].
    change (String.concat "/" (x :: x' :: xs'))
      with (x ++ "/" ++ String.concat "/" (x' :: xs')).
    rewrite !append_assoc. reflexivity.
Qed.

(** Below the root the stack only ever holds kept, slash-free segments. *)
Lemma norm_step_kept stack seg :
  forallb kept stack = true ->
  forallb kept (norm_step false stack seg) = true.
Proof.
  intros H. unfold norm_step.
  destruct ((seg =? "") || (seg =? ".")) eqn:E1; [assumption|].
  destruct (seg =? "..") eqn:E2.
  - destruct stack as [|top below]; [reflexivity|].
    simpl in H. apply andb_true_iff in H as [H1 H2].
    destruct (top =? ".."); [simpl; rewrite H1; assumption|assumption].
  - simpl. rewrite H. unfold kept.
    apply orb_false_iff in E1 as [-> ->]. rewrite E2. reflexivity.
Qed.

Lemma norm_step_no_slash stack seg :
  no_slash seg = true -> forallb no_slash stack = true ->
  forallb no_slash (norm_step false stack seg) = true.
Proof.
  intros Hs H. unfold norm_step.
  destruct ((seg =? "") || (seg =? ".")); [assumption|].
  destruct (seg =? "..").
  - destruct stack as [|top below]; [reflexivity|].
    simpl in H. apply andb_true_iff in H as [H1 H2].
    destruct (top =? ".."); [simpl; rewrite H1; assumption|assumption].
  - simpl. rewrite Hs, H. reflexivity.
Qed.

Lemma fold_norm_invariant segs : forall stack,
  forallb no_slash segs = true ->
  forallb kept stack = true -> forallb no_slash stack = true ->
  forallb kept (fold_left (norm_step false) segs stack) = true /\
  forallb no_slash (fold_left (norm_step false) segs stack) = true.
Proof.
  induction segs as [|seg segs IH]; intros stack Hs Hk Hn; simpl; [auto|].
  simpl in Hs. apply andb_true_iff in Hs as [Hs1 Hs2].
  apply IH; [assumption|apply norm_step_kept|apply norm_step_no_slash];
    assumption.
Qed.

(** Kept segments are pushed as they come. *)
Lemma fold_kept segs : forall stack,
  forallb kept segs = true ->
  fold_left (norm_step false) segs stack = (rev segs ++ stack)%list.
Proof.
  induction segs as [|seg segs IH]; intros stack H; simpl; [reflexivity|].
  simpl in H. apply andb_true_iff in H as [H1 H2].
  rewrite IH by assumption. rewrite <- app_assoc. simpl.
  unfold norm_step. unfold kept in H1. apply negb_true_iff in H1.
  apply orb_false_iff in H1 as [H1 H3]. rewrite H1, H3. reflexivity.
Qed.

(** Without a [..] segment nothing is ever popped. *)
Lemma fold_no_dotdot segs : forall stack,
  ~ In ".." segs ->
  fold_left (norm_step false) segs stack =
  (rev (filter kept segs) ++ stack)%list.
Proof.
  induction segs as [|seg segs IH]; intros stack H; simpl; [reflexivity|].
  assert (Hseg : (seg =? "..") = false).
  { apply String.eqb_neq. intros ->. apply H. left. reflexivity. }
  rewrite IH by (intros Hin; apply H; right; assumption).
  unfold norm_step, kept. rewrite Hseg, orb_false_r.
  destruct ((seg =? "") || (seg =? ".")); simpl.
  - reflexivity.
  - rewrite <- app_assoc. reflexivity.
Qed.

Lemma concat_nonempty segs :
  segs <> [] -> forallb kept segs = true -> String.concat "/" segs <> "".
Proof.
  destruct segs as [|x xs]; [congruence|].
  intros _ H. simpl in H. apply andb_true_iff in H as [H _].
  assert (Hx : x <> "") by (intros ->; discriminate).
  destruct x as [|c x]; [congruence|].
  destruct xs; simpl; discriminate.
Qed.

Lemma trailingSeparator_app (a b : string) :
  b <> "" -> trailingSeparator (a ++ b) = trailingSeparator b.
Proof.
  intros Hb. induction a as [|c a IH]; [reflexivity|].
  simpl. rewrite IH.
  destruct (a ++ b) eqn:E; [|reflexivity].
  destruct a; simpl in E; [congruence|discriminate].
Qed.

Lemma forallb_rev {A} (p : A -> bool) (l : list A) :
  forallb p (rev l) = forallb p l.
Proof.
  induction l as [|x l IH]; simpl; [reflexivity|].
  rewrite forallb_app, IH. simpl. rewrite andb_true_r, andb_comm. reflexivity.
Qed.

(** Normalizing an absolute path whose segments do not all cancel. *)
Lemma normalize_absolute (rest : string) :
  let q := String slash rest in
  let segs := norm_segments false (split q) in
  String.concat "/" segs <> "" ->
  normalize q =
  "/" ++ String.concat "/" segs ++ (if trailingSeparator q then "/" else "").
Proof.
  intros q segs H. unfold normalize.
  change (q =? "") with false. change (isAbsolute q) with true.
  cbn [negb]. unfold normalizeString. fold segs.
  apply String.eqb_neq in H. rewrite H.
  destruct (trailingSeparator q); [reflexivity|].
  rewrite append_nil_r. reflexivity.
Qed.

(** The backup directory is [/] followed by kept segments. *)
Lemma backupDir_shape cwd :
  isAbsolute cwd = true ->
  exists B, B <> [] /\ forallb kept B = true /\ forallb no_slash B = true /\
            join [cwd; "backups"] = "/" ++ String.concat "/" B.
Proof.
  intros Habs. destruct cwd as [|c rest]; [discriminate|].
  simpl in Habs. apply Ascii.eqb_eq in Habs. subst c.
  pose proof (fold_norm_invariant (split (String slash rest)) []
                (split_no_slash _) eq_refl eq_refl) as [Hk Hn].
  set (stk := fold_left (norm_step false) (split (String slash rest)) []) in *.
  assert (Hsegs : norm_segments false
                    (split (String slash (rest ++ String slash "backups")))
                  = (rev stk ++ ["backups"])%list).
  { unfold norm_segments.
    change (String slash (rest ++ String slash "backups"))
      with (String slash rest ++ String slash "backups").
    rewrite split_app_slash, fold_left_app. fold stk. reflexivity. }
  assert (HB1 : forallb kept (rev stk ++ ["backups"]) = true).
  { rewrite forallb_app, forallb_rev, Hk. reflexivity. }
  assert (HB2 : forallb no_slash (rev stk ++ ["backups"]) = true).
  { rewrite forallb_app, forallb_rev, Hn. reflexivity. }
  assert (HB0 : (rev stk ++ ["backups"])%list <> []).
  { destruct (rev stk); discriminate. }
  exists (rev stk ++ ["backups"])%list. repeat (split; [assumption|]).
  unfold join. cbn [filter String.eqb negb String.concat].
  change (String slash rest ++ "/" ++ "backups")
    with (String slash (rest ++ String slash "backups")).
  rewrite normalize_absolute; rewrite Hsegs.
  - change (String slash (rest ++ String slash "backups"))
      with (String slash rest ++ String slash "backups").
    rewrite trailingSeparator_app by discriminate.
    cbn [trailingSeparator Ascii.eqb Bool.eqb slash].
    rewrite append_nil_r. reflexivity.
  - apply concat_nonempty; assumption.
Qed.

(** A file name without [..] segment is resolved inside the backup
    directory. *)
Lemma join_within cwd f :
  isAbsolute cwd = true -> f <> "" -> ~ In ".." (split f) ->
  within (join [cwd; "backups"]) (join [join [cwd; "backups"]; f]) = true.
Proof.
  intros Habs Hf Hdd.
  destruct (backupDir_shape cwd Habs) as (B & HB0 & HBk & HBn & ->).
  set (F := filter kept (split f)).
  assert (Hsegs : norm_segments false
                    (split (String slash (String.concat "/" B ++ String slash f)))
                  = (B ++ F)%list).
  { unfold norm_segments.
    cbn [split Ascii.eqb Bool.eqb slash].
    change (Ascii false false false false true true true true) with slash.
    rewrite split_app_slash, (split_concat B HB0 HBn).
    cbn [fold_left]. change (norm_step false [] "") with (@nil string).
    rewrite fold_left_app, (fold_kept B [] HBk), app_nil_r.
    rewrite (fold_no_dotdot _ _ Hdd), rev_app_distr, !rev_involutive.
    reflexivity. }
  assert (Hne : String.concat "/" (B ++ F) <> "").
  { apply concat_nonempty.
    - destruct B; [congruence|discriminate].
    - rewrite forallb_app, HBk. simpl.
      unfold F. apply forallb_forall. intros x Hx.
      apply filter_In in Hx. tauto. }
  unfold join. cbn [filter String.eqb negb append].
  apply String.eqb_neq in Hf. rewrite Hf. cbn [negb String.concat].
  change (String "/" (String.concat "/" B) ++ "/" ++ f)
    with (String slash (String.concat "/" B ++ String slash f)).
  rewrite normalize_absolute; rewrite Hsegs; [|assumption].
  unfold within. apply orb_true_iff.
  destruct F as [|x F'] eqn:EF.
  - rewrite app_nil_r.
    destruct (trailingSeparator _).
    + right.
      rewrite <- (append_nil_r ("/" ++ String.concat "/" B ++ "/")).
      exact (prefix_app (("/" ++ String.concat "/" B) ++ "/") "").
    + left. rewrite append_nil_r. apply String.eqb_refl.
  - right. rewrite concat_app by (assumption || discriminate).
    match goal with
    | |- String.prefix ?d ("/" ++ (?b ++ "/" ++ ?c) ++ ?t) = true =>
        replace ("/" ++ (b ++ "/" ++ c) ++ t) with (d ++ (c ++ t))
    end.
    + apply prefix_app.
    + simpl. rewrite !append_assoc. reflexivity.
Qed.

End PathFacts.

(** ** The in-memory store *)

Module MemStoreFacts.
Import MemStore.

Lemma model_eqb_refl m : model_eqb m m = true.
Proof. destruct m; reflexivity. Qed.

Lemma set_same m rows st : set m rows st m = rows.
Proof. unfold set. rewrite model_eqb_refl. reflexivity. Qed.

Lemma key_eqb_eq a b : key_eqb a b = true <-> a = b.
Proof.
  destruct a, b; simpl; split; intros H; try discriminate;
    try (apply Z.eqb_eq in H || apply String.eqb_eq in H; congruence);
    inversion H; subst; (apply Z.eqb_refl || apply String.eqb_refl).
Qed.

Lemma has_key_iff m k r : has_key m k r = true <-> row_key m r = Some k.
Proof.
  unfold has_key. destruct (row_key m r) as [k'|].
  - rewrite key_eqb_eq. split; congruence.
  - split; discriminate.
Qed.

(** *** Fields of rows *)

Lemma lookup_set_field f k v r :
  lookup f (set_field k v r) = if k =? f then v else lookup f r.
Proof.
  induction r as [|[k' v'] r IH]; simpl.
  - reflexivity.
  - destruct (k' =? k) eqn:E; simpl.
    + apply String.eqb_eq in E. subst k'.
      destruct (k =? f); reflexivity.
    + destruct (k' =? f) eqn:E'; [|assumption].
      apply String.eqb_eq in E'. subst k'.
      rewrite String.eqb_sym, E. reflexivity.
Qed.

Lemma lookup_absent f o : has_field f o = false -> lookup f o = VUndefined.
Proof.
  induction o as [|[k v] o IH]; simpl; [reflexivity|].
  intros H. apply orb_false_iff in H as [H1 H2]. rewrite H1. auto.
Qed.

Lemma has_field_in f o : has_field f o = false <-> ~ In f (map fst o).
Proof.
  induction o as [|[k v] o IH]; simpl.
  - split; auto.
  - rewrite orb_false_iff, IH, String.eqb_neq. tauto.
Qed.

Lemma lookup_defined_fields f o :
  is_undefined (lookup f o) = false ->
  lookup f (defined_fields o) = lookup f o.
Proof.
  induction o as [|[k v] o IH]; simpl; [reflexivity|].
  destruct (k =? f) eqn:E; intros H.
  - rewrite H. simpl. rewrite E. reflexivity.
  - destruct (is_undefined v); simpl; [|rewrite E]; auto.
Qed.

(** An update sets exactly the fields it gives a value for. *)
Lemma lookup_apply_update update : NoDup (map fst update) ->
  forall r f,
    lookup f (apply_update update r) =
    if is_undefined (lookup f update) then lookup f r else lookup f update.
Proof.
  unfold apply_update.
  induction update as [|[k v] update IH]; intros Hnd r f; simpl.
  - reflexivity.
  - inversion Hnd as [|? ? Hk Hnd']; subst.
    apply has_field_in in Hk.
    destruct (is_undefined v) eqn:Ev; simpl.
    + rewrite (IH Hnd'). destruct (k =? f) eqn:E; [|reflexivity].
      apply String.eqb_eq in E. subst f.
      rewrite Ev, (lookup_absent _ _ Hk). reflexivity.
    + rewrite (IH Hnd'), lookup_set_field.
      destruct (k =? f) eqn:E; [|reflexivity].
      apply String.eqb_eq in E. subst f.
      rewrite Ev, (lookup_absent _ _ Hk). reflexivity.
Qed.

Lemma lookup_apply_update_other update f :
  has_field f update = false ->
  forall r, lookup f (apply_update update r) = lookup f r.
Proof.
  unfold apply_update.
  induction update as [|[k v] update IH]; intros H r; simpl; [reflexivity|].
  simpl in H. apply orb_false_iff in H as [H1 H2].
  destruct (is_undefined v); simpl; [auto|].
  rewrite (IH H2), lookup_set_field, H1. reflexivity.
Qed.

(** *** Counting rows by key *)

Lemma count_zero m k st :
  count_key m k st = 0 <-> existsb (has_key m k) (st m) = false.
Proof.
  unfold count_key. induction (st m) as [|r rows IH]; simpl.
  - tauto.
  - destruct (has_key m k r); simpl.
    + split; discriminate.
    + assumption.
Qed.

Lemma find_row_none m k st :
  find_row m k st = None <-> count_key m k st = 0.
Proof.
  unfold find_row, count_key. induction (st m) as [|r rows IH]; simpl.
  - tauto.
  - destruct (has_key m k r); simpl.
    + split; discriminate.
    + assumption.
Qed.

Lemma find_row_has_key m k st r :
  find_row m k st = Some r -> has_key m k r = true.
Proof. unfold find_row. intros H. apply find_some in H. tauto. Qed.

Lemma count_replace_row m k r' rows :
  has_key m k r' = true ->
  length (filter (has_key m k) (replace_row m k r' rows)) =
  length (filter (has_key m k) rows).
Proof.
  intros H. induction rows as [|r rows IH]; simpl; [reflexivity|].
  destruct (has_key m k r) eqn:E; simpl.
  - rewrite H. reflexivity.
  - rewrite E. assumption.
Qed.

Lemma count_append m k r rows :
  length (filter (has_key m k) (rows ++ [r])) =
  length (filter (has_key m k) rows) + (if has_key m k r then 1 else 0).
Proof.
  rewrite filter_app, length_app. simpl.
  destruct (has_key m k r); reflexivity.
Qed.

(** *** Inserts and upserts *)

Lemma key_defined v k : key_of v = Some k -> is_undefined v = false.
Proof. destruct v; simpl; congruence. Qed.

Lemma has_field_defined f o :
  has_field f o = false -> has_field f (defined_fields o) = false.
Proof.
  induction o as [|[k v] o IH]; simpl; [reflexivity|].
  intros H. apply orb_false_iff in H as [H1 H2].
  destruct (is_undefined v); simpl; [|rewrite H1]; auto.
Qed.

Lemma is_undefined_eq v : is_undefined v = true -> v = VUndefined.
Proof. destruct v; simpl; congruence. Qed.

(** Dropping the fields that are [undefined] changes no field's value. *)
Lemma lookup_defined_nodup f o :
  NoDup (map fst o) -> lookup f (defined_fields o) = lookup f o.
Proof.
  induction o as [|[k v] o IH]; simpl; [reflexivity|].
  intros Hnd. inversion Hnd as [|? ? Hk Hnd']; subst.
  destruct (is_undefined v) eqn:Ev; simpl.
  - destruct (k =? f) eqn:E; [|auto].
    apply String.eqb_eq in E. subst f.
    apply has_field_in in Hk.
    rewrite (lookup_absent _ _ (has_field_defined _ _ Hk)).
    symmetry. apply is_undefined_eq. assumption.
  - destruct (k =? f); auto.
Qed.

Lemma insert_keyed m data st k :
  key_of (lookup (key_field m) data) = Some k ->
  count_key m k st = 0 ->
  insert m data st = (Resolved, set m (st m ++ [defined_fields data])%list st).
Proof.
  intros Hk Hc. unfold insert.
  rewrite (lookup_defined_fields _ _ (key_defined _ _ Hk)).
  apply count_zero in Hc.
  destruct (lookup (key_field m) data); simpl in Hk; try discriminate;
    inversion Hk; subst; simpl; rewrite Hc; reflexivity.
Qed.

Lemma insert_taken m data st k :
  key_of (lookup (key_field m) data) = Some k ->
  count_key m k st <> 0 ->
  insert m data st = (Rejected (unique_violation m), st).
Proof.
  intros Hk Hc. unfold insert.
  rewrite (lookup_defined_fields _ _ (key_defined _ _ Hk)).
  assert (He : existsb (has_key m k) (st m) = true).
  { destruct (existsb (has_key m k) (st m)) eqn:E; [reflexivity|].
    apply count_zero in E. congruence. }
  destruct (lookup (key_field m) data); simpl in Hk; try discriminate;
    inversion Hk; subst; simpl; rewrite He; reflexivity.
Qed.

Lemma insert_unkeyed m data st :
  key_field m = "id" -> has_field "id" data = false ->
  insert m data st =
  (Resolved,
   set m (st m ++ [("id", VNum (fresh_id (st m))) :: defined_fields data])%list
       st).
Proof.
  intros Hm Hd. unfold insert. rewrite Hm.
  rewrite (lookup_absent _ _ (has_field_defined _ _ Hd)). reflexivity.
Qed.

Lemma upsert_existing m where_ update create st k old :
  key_of (lookup (key_field m) where_) = Some k ->
  find_row m k st = Some old ->
  has_field (key_field m) update = false ->
  exec (Upsert m where_ update create) st =
  (Resolved, set m (replace_row m k (apply_update update old) (st m)) st).
Proof.
  intros Hk Hf Hu. simpl. rewrite Hk, Hf. unfold update_row.
  pose proof (find_row_has_key _ _ _ _ Hf) as Hold.
  apply has_key_iff in Hold. unfold row_key in *.
  rewrite (lookup_apply_update_other _ _ Hu), Hold.
  assert (E : key_eqb k k = true) by (apply key_eqb_eq; reflexivity).
  rewrite E. reflexivity.
Qed.

Lemma upsert_new m where_ update create st k :
  key_of (lookup (key_field m) where_) = Some k ->
  find_row m k st = None ->
  exec (Upsert m where_ update create) st = insert m create st.
Proof. intros Hk Hf. simpl. rewrite Hk, Hf. reflexivity. Qed.

(** An upsert whose [where] and [create] carry the same key resolves,
    and leaves exactly one row under that key unless there were more. *)
Lemma upsert_count m where_ update create st k :
  key_of (lookup (key_field m) where_) = Some k ->
  key_of (lookup (key_field m) create) = Some k ->
  has_field (key_field m) update = false ->
  exists st',
    exec (Upsert m where_ update create) st = (Resolved, st') /\
    count_key m k st' = Nat.max 1 (count_key m k st).
Proof.
  intros Hw Hc Hu.
  destruct (find_row m k st) as [old|] eqn:Hf.
  - eexists. split; [eapply upsert_existing; eassumption|].
    unfold count_key at 1. rewrite set_same, count_replace_row.
    + fold (count_key m k st).
      assert (count_key m k st <> 0).
      { intros H0. apply find_row_none in H0. congruence. }
      lia.
    + apply has_key_iff. unfold row_key.
      rewrite (lookup_apply_update_other _ _ Hu).
      apply has_key_iff. eapply find_row_has_key. eassumption.
  - pose proof Hf as H0. apply find_row_none in H0.
    eexists. split.
    + rewrite (upsert_new _ _ _ _ _ _ Hw Hf). eapply insert_keyed; eassumption.
    + unfold count_key at 1. rewrite set_same, count_append.
      fold (count_key m k st). rewrite H0.
      assert (Hk : has_key m k (defined_fields create) = true).
      { apply has_key_iff. unfold row_key.
        rewrite (lookup_defined_fields _ _ (key_defined _ _ Hc)). assumption. }
      rewrite Hk. reflexivity.
Qed.

End MemStoreFacts.

(** ** One record against a store *)

Section RecordFacts.

Variable Store : Type.
Variable exec : call -> Store -> outcome * Store.

Lemma restore_record_resolved t mode r c (s : replay Store) st' :
  build_call t mode r = Ok (Some c) ->
  exec c (db (wld s)) = (Resolved, st') ->
  restore_record exec t mode r s =
  mkReplay (acc s)
           (mkWorld st' (reads (wld s)) (calls (wld s) ++ [(c, Resolved)])%list)
           (S (restoredCount s)).
Proof.
  intros B E. unfold restore_record, run. rewrite B, E. reflexivity.
Qed.

Lemma restore_record_rejected t mode r c (s : replay Store) st' e :
  build_call t mode r = Ok (Some c) ->
  exec c (db (wld s)) = (Rejected e, st') ->
  restore_record exec t mode r s =
  mkReplay (push_error (acc s) (t ++ ": " ++ e))
           (mkWorld st' (reads (wld s)) (calls (wld s) ++ [(c, Rejected e)])%list)
           (restoredCount s).
Proof.
  intros B E. unfold restore_record, run. rewrite B, E. reflexivity.
Qed.

Lemma restore_record_throws t mode r (s : replay Store) e :
  build_call t mode r = Throw e ->
  restore_record exec t mode r s =
  mkReplay (push_error (acc s) (t ++ ": " ++ exn_message e))
           (wld s) (restoredCount s).
Proof. intros B. unfold restore_record. rewrite B. reflexivity. Qed.

(** A record that fails is one step of the loop like any other. *)
Lemma restore_records_cons t mode r rs (s : replay Store) :
  restore_records exec t mode (r :: rs) s =
  restore_records exec t mode rs (restore_record exec t mode r s).
Proof. reflexivity. Qed.

End RecordFacts.

(** ** The calls built for the supported collections *)

Lemma readable_key record f k :
  MemStore.key_of (field record f) = Some k -> exists o, record = VObj o.
Proof. destruct record; simpl; try discriminate. eauto. Qed.

Lemma to_date_convertible v :
  convertible v = true -> to_date v = Ok (date_value v).
Proof.
  unfold convertible, to_date, date_value.
  destruct (truthy v); simpl; [intros ->|]; reflexivity.
Qed.

Lemma to_date_unconvertible v :
  convertible v = false -> to_date v = Throw (JsError msg_not_primitive).
Proof.
  unfold convertible, to_date.
  destruct (truthy v); simpl; [intros ->; reflexivity|discriminate].
Qed.

Lemma in_supported t m :
  In (t, m) supported ->
  (t = "users" /\ m = User) \/ (t = "songs" /\ m = Song) \/
  (t = "playTimes" /\ m = PlayTime) \/ (t = "semesters" /\ m = Semester) \/
  (t = "systemSettings" /\ m = SystemSettings).
Proof.
  simpl. intros [H|[H|[H|[H|[H|[]]]]]]; inversion H; tauto.
Qed.

Lemma build_call_convertible t mode record :
  readable record = true -> dates_convertible t record = true ->
  build_call t mode record = Ok (call_for t mode record).
Proof.
  intros Hr Hd. unfold build_call, call_for, bind, dates_convertible, date_fields in *.
  destruct (t =? "users").
  { cbn [forallb] in Hd. apply andb_true_iff in Hd as [H1 H2].
    rewrite andb_true_r in H2.
    rewrite (prop_readable _ _ Hr), (to_date_convertible _ H1),
      (to_date_convertible _ H2).
    destruct (is_merge mode); reflexivity. }
  destruct (t =? "songs").
  { cbn [forallb] in Hd. rewrite andb_true_r in Hd.
    rewrite (prop_readable _ _ Hr), (to_date_convertible _ Hd).
    destruct (is_merge mode); reflexivity. }
  rewrite !(prop_readable _ _ Hr).
  repeat match goal with
         | |- context [if ?b then _ else _] => destruct b
         end; reflexivity.
Qed.

Lemma build_call_unconvertible t mode record :
  readable record = true -> dates_convertible t record = false ->
  build_call t mode record = Throw (JsError msg_not_primitive).
Proof.
  intros Hr Hd. unfold build_call, bind, dates_convertible, date_fields in *.
  destruct (t =? "users").
  { cbn [forallb] in Hd. rewrite (prop_readable _ _ Hr).
    destruct (convertible (field record "lastLogin")) eqn:H1.
    - rewrite (to_date_convertible _ H1).
      simpl in Hd. rewrite andb_true_r in Hd.
      rewrite (to_date_unconvertible _ Hd). reflexivity.
    - rewrite (to_date_unconvertible _ H1). reflexivity. }
  destruct (t =? "songs").
  { cbn [forallb] in Hd. rewrite andb_true_r in Hd.
    rewrite (prop_readable _ _ Hr), (to_date_unconvertible _ Hd). reflexivity. }
  discriminate.
Qed.

Lemma build_call_unreadable t mode r :
  has_case t = true -> readable r = false ->
  exists msg, build_call t mode r = Throw (JsError msg).
Proof.
  unfold has_case, supported. cbn [existsb fst]. rewrite orb_false_r.
  rewrite (String.eqb_sym "users" t), (String.eqb_sym "songs" t),
    (String.eqb_sym "playTimes" t), (String.eqb_sym "semesters" t),
    (String.eqb_sym "systemSettings" t).
  intros H Hr.
  assert (P : forall k, exists msg, prop r k = Throw (JsError msg)).
  { intros k. destruct r; try discriminate; simpl; eauto. }
  unfold build_call, bind.
  destruct (P "username") as [? ->], (P "title") as [? ->],
    (P "id") as [? ->], (P "name") as [? ->],
    (P "enablePlayTimeSelection") as [? ->].
  destruct (t =? "users"); [eauto|].
  destruct (t =? "songs"); [eauto|].
  destruct (t =? "playTimes"); [destruct (is_merge mode); eauto|].
  destruct (t =? "semesters"); [eauto|].
  destruct (t =? "systemSettings"); [destruct (is_merge mode); eauto|].
  discriminate.
Qed.



Ltac each_supported Hin :=
  apply in_supported in Hin;
  destruct Hin as [[-> ->]|[[-> ->]|[[-> ->]|[[-> ->]|[-> ->]]]]].

Ltac nodup_keys :=
  cbn; repeat (apply NoDup_cons; [cbn; intuition discriminate|]);
  apply NoDup_nil.

Ltac each_field Hf :=
  simpl in Hf;
  repeat (destruct Hf as [<-|Hf]; [reflexivity|]);
  contradiction.

Ltac no_other_field Hf :=
  unfold has_field, user_update, songData, playTime_data, settings_data;
  cbn [existsb fst];
  repeat match goal with
         | |- context [?k =? ?f] =>
             let E := fresh "E" in
             destruct (k =? f) eqn:E;
             [apply String.eqb_eq in E; subst; exfalso; apply Hf; simpl; tauto|]
         end;
  reflexivity.

(** Under merge the call is an upsert keyed by the record's natural
    key; its create clause carries the key and every listed field, its
    update clause exactly the updated fields, the key not among them. *)
Lemma call_for_merge t m mode record :
  In (t, m) supported -> is_merge mode = true ->
  exists update create,
    call_for t mode record =
      Some (Upsert m [(MemStore.key_field m,
                       field record (MemStore.key_field m))] update create) /\
    lookup (MemStore.key_field m) create = field record (MemStore.key_field m) /\
    has_field (MemStore.key_field m) update = false /\
    NoDup (map fst update) /\ NoDup (map fst create) /\
    (forall f, In f (copied_fields t ++ date_fields t) ->
               lookup f create = sent_value t f record) /\
    (forall f, In f (updated_fields t) ->
               lookup f update = sent_value t f record) /\
    (forall f, ~ In f (updated_fields t) -> has_field f update = false).
Proof.
  intros Hin Hm. each_supported Hin; unfold call_for;
    cbn [String.eqb Ascii.eqb Bool.eqb]; rewrite Hm;
    eexists; eexists;
    (split; [reflexivity|]); (split; [reflexivity|]); (split; [reflexivity|]);
    (split; [nodup_keys|]); (split; [nodup_keys|]);
    (split; [intros f Hf; each_field Hf|]);
    (split; [intros f Hf; each_field Hf|]);
    intros f Hf; no_other_field Hf.
Qed.

(** Under replace the call is an insert of every listed field, without
    [id]. *)
Lemma call_for_replace t m mode record :
  In (t, m) supported -> is_merge mode = false ->
  exists data,
    call_for t mode record = Some (Create m data) /\
    has_field "id" data = false /\
    NoDup (map fst data) /\
    (forall f, In f (copied_fields t ++ date_fields t) ->
               lookup f data = sent_value t f record).
Proof.
  intros Hin Hm. each_supported Hin; unfold call_for;
    cbn [String.eqb Ascii.eqb Bool.eqb]; rewrite Hm;
    eexists;
    (split; [reflexivity|]); (split; [reflexivity|]);
    (split; [nodup_keys|]);
    intros f Hf; each_field Hf.
Qed.

(** ** Merge and replace against the in-memory store *)

Section MergeReplace.
Import MemStore MemStoreFacts.

Variable s : replay MemStore.t.
Variable mode record : value.

Lemma key_readable f k :
  key_of (field record f) = Some k -> readable record = true.
Proof. intros Hk. destruct (readable_key _ _ _ Hk) as [o ->]. reflexivity. Qed.

Lemma where_key (m : model) k :
  key_of (field record (key_field m)) = Some k ->
  key_of (lookup (key_field m)
            [(key_field m, field record (key_field m))]) = Some k.
Proof. intros Hk. simpl. rewrite String.eqb_refl. assumption. Qed.

(** A merge of a record whose dates convert resolves and leaves one row
    under the record's key, unless there were more. *)
Lemma merge_resolves t m k (s0 : replay MemStore.t) :
  In (t, m) supported ->
  is_merge mode = true ->
  key_of (field record (key_field m)) = Some k ->
  dates_convertible t record = true ->
  exists c st',
    restore_record exec t mode record s0 =
      mkReplay (acc s0)
        (mkWorld st' (reads (wld s0)) (calls (wld s0) ++ [(c, Resolved)])%list)
        (S (restoredCount s0)) /\
    count_key m k st' = Nat.max 1 (count_key m k (db (wld s0))).
Proof.
  intros Hin Hm Hk Hd.
  pose proof (build_call_convertible t mode record (key_readable _ _ Hk) Hd)
    as B.
  destruct (call_for_merge t m mode record Hin Hm)
    as (update & create & C & Hcr & Hup & _).
  rewrite C in B.
  pose proof (where_key m k Hk) as Hw.
  rewrite <- Hcr in Hk.
  destruct (upsert_count m _ update create (db (wld s0)) k Hw Hk Hup)
    as (st' & E & Hc).
  eexists. exists st'. split; [|exact Hc].
  apply (restore_record_resolved _ exec t mode record _ s0 st' B E).
Qed.

(** A record with a date that does not convert is recorded as an error
    and nothing is sent to the store. *)
Lemma unconvertible_recorded t (s0 : replay MemStore.t) :
  readable record = true ->
  dates_convertible t record = false ->
  restore_record exec t mode record s0 =
  mkReplay (push_error (acc s0) (t ++ ": " ++ msg_not_primitive))
           (wld s0) (restoredCount s0).
Proof.
  intros Hr Hd.
  apply (restore_record_throws _ exec t mode record s0
           (JsError msg_not_primitive)).
  apply build_call_unconvertible; assumption.
Qed.

(** C3 (as amended): for each of the five supported collections,
    restoring a record that carries its natural key twice under merge
    leaves exactly one row under that key when the record's date fields
    convert; both restores are counted and neither records an error.
    When a date field does not convert, nothing is sent to the store:
    each restore records one error and the world stays as it was. *)
Theorem merge_twice_one_row t m k :
  In (t, m) supported ->
  is_merge mode = true ->
  key_of (field record (key_field m)) = Some k ->
  count_key m k (db (wld s)) <= 1 ->
  let s2 := restore_record exec t mode record
              (restore_record exec t mode record s) in
  (dates_convertible t record = true ->
   count_key m k (db (wld s2)) = 1 /\
   restoredCount s2 = restoredCount s + 2 /\
   errors (acc s2) = errors (acc s)) /\
  (dates_convertible t record = false ->
   wld s2 = wld s /\
   restoredCount s2 = restoredCount s /\
   errors (acc s2) =
     (errors (acc s) ++ [(t ++ ": " ++ msg_not_primitive)%string;
                         (t ++ ": " ++ msg_not_primitive)%string])%list).
Proof.
  intros Hin Hm Hk Hc. cbv zeta. split; intros Hd.
  - destruct (merge_resolves t m k s Hin Hm Hk Hd) as (c1 & st1 & R1 & C1).
    rewrite R1.
    destruct (merge_resolves t m k
                (mkReplay (acc s)
                   (mkWorld st1 (reads (wld s))
                      (calls (wld s) ++ [(c1, Resolved)])%list)
                   (S (restoredCount s))) Hin Hm Hk Hd)
      as (c2 & st2 & R2 & C2).
    rewrite R2. cbn [db wld restoredCount acc] in *.
    repeat split; [lia|lia].
  - pose proof (key_readable _ _ Hk) as Hr.
    rewrite !(unconvertible_recorded t _ Hr Hd). simpl.
    rewrite <- app_assoc. repeat split; reflexivity.
Qed.

(** C4 (as amended): under replace, a [users] or [semesters] record
    whose [username] or [name] is already stored is not inserted: the
    loop appends one ["<collection>: <message>"] entry to [errors],
    leaves [restoredCount] and the database as they were, and goes on
    with the remaining records; the entry is the store's rejection of
    the insert when the record's dates convert, and the conversion error
    otherwise.  A readable [songs], [playTimes] or [systemSettings]
    record whose dates convert is inserted without its [id] and counted,
    whatever ids are stored. *)
Theorem replace_existing_key_recorded :
  is_merge mode = false ->
  (forall t m k,
      In (t, m) keyed_inserts ->
      key_of (field record (key_field m)) = Some k ->
      count_key m k (db (wld s)) <> 0 ->
      exists msg tr,
        let s' :=
          mkReplay (push_error (acc s) (t ++ ": " ++ msg))
                   (mkWorld (db (wld s)) (reads (wld s))
                            (calls (wld s) ++ tr)%list)
                   (restoredCount s) in
        restore_record exec t mode record s = s' /\
        (forall rest,
            restore_records exec t mode (record :: rest) s =
            restore_records exec t mode rest s') /\
        (dates_convertible t record = true ->
         msg = unique_violation m /\
         exists data, tr = [(Create m data, Rejected (unique_violation m))]) /\
        (dates_convertible t record = false ->
         msg = msg_not_primitive /\ tr = [])) /\
  (forall t m,
      In (t, m) unkeyed_inserts ->
      readable record = true ->
      dates_convertible t record = true ->
      exists data,
        has_field "id" data = false /\
        restore_record exec t mode record s =
        mkReplay (acc s)
          (mkWorld
             (set m (db (wld s) m ++
                     [("id", VNum (fresh_id (db (wld s) m)))
                      :: defined_fields data])%list (db (wld s)))
             (reads (wld s))
             (calls (wld s) ++ [(Create m data, Resolved)])%list)
          (S (restoredCount s))).
Proof.
  intros Hm. split.
  - intros t m k Hin Hk Hc.
    assert (Hs : In (t, m) supported) by (simpl in *; tauto).
    pose proof (key_readable _ _ Hk) as Hr.
    assert (Hkf : In (key_field m) (copied_fields t ++ date_fields t)).
    { simpl in Hin. destruct Hin as [H|[H|[]]]; inversion H; subst; simpl;
        tauto. }
    destruct (dates_convertible t record) eqn:Hd.
    + pose proof (build_call_convertible t mode record Hr Hd) as B.
      destruct (call_for_replace t m mode record Hs Hm)
        as (data & C & _ & _ & Hf).
      rewrite C in B.
      assert (Hkd : key_of (lookup (key_field m) data) = Some k).
      { rewrite (Hf _ Hkf).
        simpl in Hin. destruct Hin as [H|[H|[]]]; inversion H; subst;
          exact Hk. }
      pose proof (insert_taken m data (db (wld s)) k Hkd Hc) as E.
      pose proof (restore_record_rejected _ exec t mode record _ s _ _ B E)
        as R.
      exists (unique_violation m),
        [(Create m data, Rejected (unique_violation m))].
      cbv zeta. split; [exact R|]. split.
      * intros rest. rewrite restore_records_cons, R. reflexivity.
      * split; [intros _; split; [reflexivity|eauto]|discriminate].
    + pose proof (unconvertible_recorded t s Hr Hd) as R.
      exists msg_not_primitive, []. cbv zeta. rewrite app_nil_r.
      assert (R' : restore_record exec t mode record s =
                   mkReplay (push_error (acc s) (t ++ ": " ++ msg_not_primitive))
                     (mkWorld (db (wld s)) (reads (wld s)) (calls (wld s)))
                     (restoredCount s)).
      { rewrite R. destruct s as [a [d r c] n]. reflexivity. }
      split; [exact R'|]. split.
      * intros rest. rewrite restore_records_cons, R'. reflexivity.
      * split; [discriminate|intros _; split; reflexivity].
  - intros t m Hin Hr Hd.
    assert (Hs : In (t, m) supported) by (simpl in *; tauto).
    assert (Hkf : key_field m = "id").
    { simpl in Hin. destruct Hin as [H|[H|[H|[]]]]; inversion H; reflexivity. }
    pose proof (build_call_convertible t mode record Hr Hd) as B.
    destruct (call_for_replace t m mode record Hs Hm)
      as (data & C & Hid & _).
    rewrite C in B.
    exists data. split; [exact Hid|].
    apply (restore_record_resolved _ exec t mode record _ s _ B).
    apply insert_unkeyed; assumption.
Qed.



(** C9: under merge, a [users] record whose [username] is stored and
    whose dates convert updates that row: each of name, grade, class,
    role, lastLogin, lastLoginIp and passwordChangedAt takes the value
    sent for it from the record (the record's own value, a date field
    turned into a date or [null]; a field the record lacks is left as
    stored), and [password] keeps its stored value.  When the
    [username] is new, the row created carries the record's fields,
    its [password] among them.  A record whose dates do not convert is
    not upserted and the world stays as it was. *)
Theorem merge_keeps_password k :
  is_merge mode = true ->
  key_of (field record "username") = Some k ->
  let s' := restore_record exec "users" mode record s in
  (dates_convertible "users" record = true ->
   (forall old,
       find_row User k (db (wld s)) = Some old ->
       exists new,
         db (wld s') User = replace_row User k new (db (wld s) User) /\
         lookup "password" new = lookup "password" old /\
         forall f, In f user_merge_fields ->
                   lookup f new = merged_user_field f record old) /\
   (find_row User k (db (wld s)) = None ->
    exists new,
      db (wld s') User = (db (wld s) User ++ [new])%list /\
      lookup "password" new = field record "password" /\
      forall f, In f ("username" :: user_merge_fields) ->
                lookup f new = sent_value "users" f record)) /\
  (dates_convertible "users" record = false -> wld s' = wld s).
Proof.
  intros Hm Hk. cbv zeta.
  pose proof (key_readable _ _ Hk) as Hr.
  split; [intros Hd|intros Hd; rewrite (unconvertible_recorded _ s Hr Hd);
                    reflexivity].
  pose proof (build_call_convertible "users" mode record Hr Hd) as B.
  assert (Hs : In ("users", User) supported) by (simpl; tauto).
  destruct (call_for_merge "users" User mode record Hs Hm)
    as (update & create & C & Hcr & Hup & Hnu & Hnc & Hfc & Hfu & Hno).
  rewrite C in B.
  pose proof (where_key User k Hk) as Hw.
  split.
  - intros old Hold.
    pose proof (upsert_existing User _ update create _ k old Hw Hold Hup) as E.
    rewrite (restore_record_resolved _ exec _ _ _ _ s _ B E). simpl.
    exists (apply_update update old).
    rewrite set_same. split; [reflexivity|]. split.
    + apply lookup_apply_update_other. apply Hno.
      simpl. intuition discriminate.
    + intros f Hf. rewrite (lookup_apply_update update Hnu).
      unfold merged_user_field. rewrite (Hfu f Hf). reflexivity.
  - intros Hnone.
    pose proof Hnone as H0. apply find_row_none in H0.
    assert (Hkc : key_of (lookup (key_field User) create) = Some k).
    { rewrite Hcr. exact Hk. }
    assert (E : exec (Upsert User [(key_field User,
                                    field record (key_field User))]
                             update create) (db (wld s)) =
                (Resolved,
                 set User (db (wld s) User ++ [defined_fields create])%list
                     (db (wld s)))).
    { rewrite (upsert_new User _ _ _ _ k Hw Hnone).
      apply (insert_keyed User _ _ k); assumption. }
    rewrite (restore_record_resolved _ exec _ _ _ _ s _ B E). simpl.
    exists (defined_fields create).
    rewrite set_same. split; [reflexivity|]. split.
    + rewrite (lookup_defined_nodup _ _ Hnc).
      apply (Hfc "password"). simpl. tauto.
    + intros f Hf. rewrite (lookup_defined_nodup _ _ Hnc).
      apply Hfc. simpl in *. tauto.
Qed.


End MergeReplace.

(** ** Which file the handler reads *)

Section FileAccess.

Variable Store : Type.
Variable exec : call -> Store -> outcome * Store.
Variable tx : transactions Store.
Variable cwd : string.
Variable readJson : string -> option value.

Lemma preClear_reads ce d (w w' : world Store) d' :
  preClear exec ce d w = (d', w') -> reads w' = reads w.
Proof.
  unfold preClear. destruct (truthy ce).
  - destruct (deleteAll exec clearOrder w) as [[|e] w1] eqn:D;
      apply deleteAll_trace in D as [Hr _]; intros H; inversion H; subst;
      assumption.
  - intros H. inversion H. reflexivity.
Qed.

Lemma handler_reads ev f (w : world Store) :
  is_admin (context_user ev) = true ->
  prop (body ev) "filename" = Ok (VStr f) ->
  f <> "" ->
  reads (snd (handler exec tx cwd readJson ev w)) =
  (reads w ++ [Path.join [backupDir cwd; f]])%list.
Proof.
  intros Hadmin Hfile Hname. unfold handler.
  destruct (readJson (Path.join [backupDir cwd; f])) as [doc|] eqn:Hread.
  - rewrite (handler_reaches_validation _ exec tx cwd readJson ev f doc
               Hadmin Hfile Hname Hread).
    destruct (prop doc "metadata") as [metadata|e]; [|reflexivity].
    destruct (negb (truthy metadata) || negb (truthy (field doc "data")));
      [reflexivity|].
    destruct (negb (loggable metadata)); [reflexivity|].
    destruct (preClear _ _ _ _) as [d w2] eqn:P.
    apply preClear_reads in P.
    unfold run_transaction. cbn [snd].
    destruct (begin_tx tx (db w2)); [cbn [snd]; rewrite P; reflexivity|].
    match goal with
    | |- context [transaction exec ?a ?b ?c] =>
        destruct (transaction exec a b c) as [d' w3] eqn:T
    end.
    apply transaction_replayed in T as (_ & _ & tr & _ & Hr & _).
    cbn [snd] in Hr.
    destruct (settle_tx tx (db w2) (db w3)) as [[|e] st];
      cbn [snd reads]; rewrite Hr, P; reflexivity.
  - unfold handler_body. rewrite Hadmin, Hfile.
    cbn [negb truthy filepath_of].
    apply String.eqb_neq in Hname. rewrite Hname.
    cbn [negb]. rewrite Hread. reflexivity.
Qed.

(** C2 (as amended): the one file an accepted request reads is
    [path.join(backupDir, filename)]; the handler does not compare that
    path with the backup directory, and it lies inside the directory
    whenever [filename] has no [..] segment. *)
Theorem filename_joined_to_backup_dir ev f (w : world Store) :
  is_admin (context_user ev) = true ->
  prop (body ev) "filename" = Ok (VStr f) ->
  f <> "" ->
  reads (snd (handler exec tx cwd readJson ev w)) =
    (reads w ++ [Path.join [backupDir cwd; f]])%list /\
  (Path.isAbsolute cwd = true -> ~ In ".." (Path.split f) ->
   Path.within (backupDir cwd) (Path.join [backupDir cwd; f]) = true).
Proof.
  intros Hadmin Hfile Hname. split.
  - apply handler_reads; assumption.
  - intros Habs Hdd. apply PathFacts.join_within; assumption.
Qed.

End FileAccess.

(** ** The statements at sample inputs *)

Lemma non_admin_forbidden_witness :
  handler MemStore.exec always_commits "/app" Sample.files
          (Sample.request Sample.student "backup.json" "merge" true)
          Sample.live
  = (Throw (H3Error 403 msg_forbidden), Sample.live).
Proof.
  apply non_admin_forbidden. right; right. split; discriminate.
Defined.

(** A backup without [metadata] is answered 400 although the request
    asks for a pre-clear; the database is as it was. *)
Example headless_backup_rejected :
  field Sample.headless "metadata" = VUndefined /\
  handler MemStore.exec always_commits "/app" Sample.files
          (Sample.request Sample.admin "headless.json" "merge" true)
          Sample.live
  = (Throw (H3Error 400 msg_bad_format),
     mkWorld Sample.populated ["/app/backups/headless.json"] []).
Proof.
  split; [reflexivity|].
  apply (malformed_document_rejected _ MemStore.exec always_commits "/app"
           Sample.files
           (Sample.request Sample.admin "headless.json" "merge" true)
           "headless.json" Sample.headless);
    try reflexivity; try discriminate.
  left. reflexivity.
Qed.

(** The sample backup restores four records from three collections; its
    [foo] collection is not one of them. *)
Example restore_counts_sample :
  fst (handler MemStore.exec always_commits "/app" Sample.files
         (Sample.request Sample.admin "backup.json" "merge" true) Sample.live)
  = Ok (mkResults true msg_done (mkDetails 3 4 [] [])).
Proof. vm_compute. reflexivity. Qed.

(** With the database down the pre-clear stops at its first
    [deleteMany]; the replay still visits the three collections. *)
Example preclear_failure_sample :
  fst (handler unreachable_exec always_commits "/app" Sample.files
         (Sample.request Sample.admin "backup.json" "merge" true)
         Sample.offline)
  = Ok (mkResults false msg_with_errors
          (mkDetails 3 0
             ["semesters: Can't reach database server";
              "users: Can't reach database server";
              "users: Can't reach database server";
              "songs: Can't reach database server"]
             ["清空数据失败: Can't reach database server"])).
Proof. vm_compute. reflexivity. Qed.


Lemma filename_joined_to_backup_dir_witness :
  reads (snd (handler MemStore.exec always_commits "/app" Sample.files
                (Sample.request Sample.admin "backup.json" "merge" false)
                Sample.fresh))
  = ["/app/backups/backup.json"] /\
  Path.within "/app/backups" "/app/backups/backup.json" = true.
Proof.
  destruct (filename_joined_to_backup_dir _ MemStore.exec always_commits "/app" Sample.files
              (Sample.request Sample.admin "backup.json" "merge" false)
              "backup.json" Sample.fresh
              eq_refl eq_refl ltac:(discriminate)) as [Hreads Hin].
  split.
  - exact Hreads.
  - apply Hin; [reflexivity|].
    simpl. intros [H|[]]. discriminate.
Defined.

Lemma merge_twice_one_row_witness :
  MemStore.count_key User (MemStore.KStr "alice") Sample.populated <= 1 /\
  let s2 := restore_record MemStore.exec "users" (VStr "merge") Sample.alice
              (restore_record MemStore.exec "users" (VStr "merge") Sample.alice
                 (Sample.start Sample.live)) in
  MemStore.count_key User (MemStore.KStr "alice") (db (wld s2)) = 1 /\
  restoredCount s2 = 0 + 2 /\
  errors (acc s2) = [].
Proof.
  assert (H : MemStore.count_key User (MemStore.KStr "alice")
                Sample.populated <= 1) by (vm_compute; lia).
  split; [exact H|].
  apply (proj1 (merge_twice_one_row (Sample.start Sample.live) (VStr "merge")
                  Sample.alice "users" User (MemStore.KStr "alice")
                  ltac:(simpl; tauto) eq_refl eq_refl H) eq_refl).
Defined.

(** The same on an empty database, for a collection keyed by [id]. *)
Example merge_twice_song_sample :
  let s2 := restore_record MemStore.exec "songs" (VStr "merge") Sample.song7
              (restore_record MemStore.exec "songs" (VStr "merge") Sample.song7
                 (Sample.start Sample.fresh)) in
  map (lookup "id") (db (wld s2) Song) = [VNum 7] /\ restoredCount s2 = 2.
Proof. vm_compute. split; reflexivity. Qed.

Lemma replace_existing_key_recorded_witness :
  (MemStore.count_key User (MemStore.KStr "alice") Sample.populated <> 0 /\
   exists tr,
     restore_record MemStore.exec "users" (VStr "replace") Sample.alice
                    (Sample.start Sample.live) =
     mkReplay (push_error initial_details
                 ("users" ++ ": " ++ MemStore.unique_violation User))
              (mkWorld Sample.populated [] tr) 0) /\
  (exists data,
      has_field "id" data = false /\
      restore_record MemStore.exec "songs" (VStr "replace") Sample.song7
                     (Sample.start Sample.live) =
      mkReplay initial_details
        (mkWorld
           (MemStore.set Song
              (Sample.populated Song ++
               [("id", VNum (MemStore.fresh_id (Sample.populated Song)))
                :: MemStore.defined_fields data])%list Sample.populated)
           [] [(Create Song data, Resolved)])
        1).
Proof.
  assert (H : MemStore.count_key User (MemStore.KStr "alice")
                Sample.populated <> 0) by (vm_compute; discriminate).
  split.
  - split; [exact H|].
    destruct (proj1 (replace_existing_key_recorded (Sample.start Sample.live)
                       (VStr "replace") Sample.alice eq_refl)
                    "users" User (MemStore.KStr "alice")
                    ltac:(simpl; tauto) eq_refl H)
      as (msg & tr & R & _ & Hc & _).
    destruct (Hc eq_refl) as [-> _].
    exists ([] ++ tr)%list. exact R.
  - apply (proj2 (replace_existing_key_recorded (Sample.start Sample.live)
                    (VStr "replace") Sample.song7 eq_refl)
                 "songs" Song ltac:(simpl; tauto) eq_refl eq_refl).
Defined.

(** A duplicate user does not keep the next user from being inserted. *)
Example replace_duplicate_then_bob_sample :
  let s' := restore_records MemStore.exec "users" (VStr "replace")
              [Sample.alice; Sample.bob] (Sample.start Sample.live) in
  errors (acc s') =
    ["users: Unique constraint failed on the fields: (`username`)"] /\
  restoredCount s' = 1 /\
  map (lookup "username") (db (wld s') User) = [VStr "alice"; VStr "bob"].
Proof. vm_compute. repeat split; reflexivity. Qed.

Lemma merge_keeps_password_witness :
  MemStore.find_row User (MemStore.KStr "alice") Sample.populated
    = Some Sample.stored_alice /\
  let s' := restore_record MemStore.exec "users" (VStr "merge") Sample.alice
              (Sample.start Sample.live) in
  exists new,
    db (wld s') User =
      MemStore.replace_row User (MemStore.KStr "alice") new
                           (Sample.populated User) /\
    lookup "password" new = VStr "current-hash" /\
    forall f, In f user_merge_fields ->
              lookup f new =
              merged_user_field f Sample.alice Sample.stored_alice.
Proof.
  split; [reflexivity|].
  apply (proj1 (proj1 (merge_keeps_password (Sample.start Sample.live)
                         (VStr "merge") Sample.alice (MemStore.KStr "alice")
                         eq_refl eq_refl) eq_refl)
               Sample.stored_alice eq_refl).
Defined.

Example merge_existing_user_sample :
  db (wld (restore_record MemStore.exec "users" (VStr "merge") Sample.alice
             (Sample.start Sample.live))) User
  = [[("username", VStr "alice"); ("name", VStr "Alice");
      ("password", VStr "current-hash"); ("grade", VStr "10");
      ("class", VStr "3"); ("role", VStr "USER");
      ("lastLogin", VDate (VStr "2024-05-01T08:00:00.000Z"));
      ("lastLoginIp", VStr "10.0.0.7"); ("passwordChangedAt", VNull)]].
Proof. vm_compute. reflexivity. Qed.

(** A user whose dates do not convert is not merged: the stored row
    keeps its name. *)
Example merge_odd_user_sample :
  let s' := restore_record MemStore.exec "users" (VStr "merge")
              MoreSamples.alice_odd (Sample.start Sample.live) in
  db (wld s') User = [Sample.stored_alice] /\
  errors (acc s') = ["users: Cannot convert object to primitive value"].
Proof. vm_compute. split; reflexivity. Qed.


(** The backup's song 7 is stored as song 8 next to the song 7 that was
    there, with its reference to play time 3 copied as it is. *)
Example replace_song_sample :
  let s' := restore_record MemStore.exec "songs" (VStr "replace") Sample.song7
              (Sample.start Sample.live) in
  map (lookup "id") (db (wld s') Song) = [VNum 7; VNum 8] /\
  map (lookup "preferredPlayTimeId") (db (wld s') Song) = [VUndefined; VNum 3].
Proof. vm_compute. split; reflexivity. Qed.

(** Play time 3 of the backup is stored as play time 2, and the song
    restored after it still names play time 3. *)
Example replace_reference_sample :
  let s1 := restore_record MemStore.exec "playTimes" (VStr "replace")
              MoreSamples.noon (Sample.start MoreSamples.with_playTime) in
  let s2 := restore_record MemStore.exec "songs" (VStr "replace")
              Sample.song7 s1 in
  map (lookup "id") (db (wld s2) PlayTime) = [VNum 1; VNum 2] /\
  map (lookup "preferredPlayTimeId") (db (wld s2) Song) = [VNum 3].
Proof. vm_compute. split; reflexivity. Qed.

(** ** Where the code departs from the stated behaviour *)

(** C1: a backup file that holds the JSON value [null] has neither
    [metadata] nor [data], yet the request is not answered with the
    400 format error: reading [metadata] of [null] throws, and the
    outermost [catch] answers 500 with the generic failure message.
    No Prisma call was made. *)
Theorem null_backup_generic_failure :
  MoreSamples.files_more "/app/backups/null.json" = Some VNull /\
  field VNull "metadata" = VUndefined /\
  field VNull "data" = VUndefined /\
  handler MemStore.exec always_commits "/app" MoreSamples.files_more
          (Sample.request Sample.admin "null.json" "merge" true)
          Sample.live
  = (Throw (H3Error 500 msg_failed),
     mkWorld Sample.populated ["/app/backups/null.json"] []).
Proof. vm_compute. repeat split; reflexivity. Qed.

(** C2: a file name with [..] segments is not rejected; the file read
    lies outside the backup directory and its content is restored. *)
Lemma traversal_reads_outside :
  let out := handler MemStore.exec always_commits "/app" Sample.files
               (Sample.request Sample.admin "../secret.json" "merge" false)
               Sample.fresh in
  (exists r, fst out = Ok r /\ recordsRestored (details_of r) = 4) /\
  reads (snd out) = ["/app/secret.json"] /\
  Path.within (backupDir "/app") "/app/secret.json" = false.
Proof.
  vm_compute. split; [eexists; split; reflexivity|split; reflexivity].
Qed.

(** C3: a user record that carries its [username] but whose
    [lastLogin] is an object with a [toString] key is not stored by
    two merges: no row has its key, nothing is counted and two errors
    are recorded. *)
Lemma merge_twice_unconvertible_not_stored :
  let s2 := restore_record MemStore.exec "users" (VStr "merge")
              MoreSamples.alice_odd
              (restore_record MemStore.exec "users" (VStr "merge")
                 MoreSamples.alice_odd (Sample.start Sample.fresh)) in
  MemStore.key_of (field MoreSamples.alice_odd "username")
    = Some (MemStore.KStr "alice") /\
  MemStore.count_key User (MemStore.KStr "alice") (db (wld s2)) = 0 /\
  restoredCount s2 = 0 /\
  length (errors (acc s2)) = 2.
Proof. vm_compute. repeat split; reflexivity. Qed.

(** C4: under replace a song whose [id] is already stored is inserted
    all the same: no error is recorded and the record is counted. *)
Lemma replace_existing_song_inserted :
  let s' := restore_record MemStore.exec "songs" (VStr "replace") Sample.song7
              (Sample.start Sample.live) in
  field Sample.song7 "id" = VNum 7 /\
  MemStore.count_key Song (MemStore.KNum 7) Sample.populated = 1 /\
  errors (acc s') = [] /\
  restoredCount s' = 1.
Proof. vm_compute. repeat split; reflexivity. Qed.

(** C5: a backup that holds one vote has its [votes] collection
    counted in [tablesProcessed], although the [switch] has no [case]
    for it and the vote falls to [default]: nothing is sent to the
    store for it. *)
Lemma unhandled_votes_counted :
  let out := handler MemStore.exec always_commits "/app" MoreSamples.files_more
               (Sample.request Sample.admin "votes.json" "merge" false)
               Sample.fresh in
  has_case "votes" = false /\
  build_call "votes" (VStr "merge")
             (VObj [("id", VNum 1); ("songId", VNum 7)]) = Ok None /\
  fst out = Ok (mkResults true msg_done (mkDetails 1 0 [] [])) /\
  calls (snd out) = [].
Proof. vm_compute. repeat split; reflexivity. Qed.

(** C6: the pre-clear empties playTimes before semesters, so its order
    is not the restore order read backwards. *)
Lemma clear_order_not_reversed :
  deleted_collections
    (calls (snd (handler MemStore.exec always_commits "/app" Sample.files
                   (Sample.request Sample.admin "backup.json" "merge" true)
                   Sample.fresh)))
  <> rev restoreOrder.
Proof. vm_compute. discriminate. Qed.


(** * The rest of the handler *)

Section Requests.

Variable Store : Type.
Variable exec : call -> Store -> outcome * Store.
Variable tx : transactions Store.
Variable cwd : string.
Variable readJson : string -> option value.


(** A file that cannot be read or parsed is answered 404: the read was
    attempted, and no Prisma call was made. *)
Theorem unreadable_backup_not_found ev f (w : world Store) :
  is_admin (context_user ev) = true ->
  prop (body ev) "filename" = Ok (VStr f) ->
  f <> "" ->
  readJson (Path.join [backupDir cwd; f]) = None ->
  handler exec tx cwd readJson ev w =
  (Throw (H3Error 404 msg_not_found), opened (Path.join [backupDir cwd; f]) w).
Proof.
  intros Hadmin Hfile Hname Hread. unfold handler, handler_body.
  rewrite Hadmin, Hfile. cbn [negb truthy filepath_of stringifiable].
  apply String.eqb_neq in Hname. rewrite Hname. cbn [negb].
  rewrite Hread. reflexivity.
Qed.

Lemma run_transaction_throw data mode (s : details * world Store) e w' :
  run_transaction exec tx data mode s = (Throw e, w') ->
  exists msg, e = JsError msg.
Proof.
  unfold run_transaction.
  destruct (begin_tx tx (db (snd s))).
  { intros H. inversion H. eauto. }
  destruct (transaction exec data mode s) as [d' w3].
  destruct (settle_tx tx (db (snd s)) (db w3)) as [[|msg] st];
    intros H; inversion H. eauto.
Qed.

(** What the [try] block throws is either an h3 error made before the
    first Prisma call, or some other error. *)
Lemma handler_body_throw ev (w w' : world Store) e :
  handler_body exec tx cwd readJson ev w = (Throw e, w') ->
  (exists msg, e = JsError msg) \/
  (db w' = db w /\ calls w' = calls w /\
   exists code msg, e = H3Error code msg /\ msg <> "" /\
                    In code [400; 403; 404]%Z).
Proof.
  unfold handler_body.
  destruct (negb (is_admin (context_user ev))).
  { intros H. inversion H; subst. right. repeat split.
    exists 403%Z, msg_forbidden. simpl. intuition discriminate. }
  destruct (prop (body ev) "filename") as [filename|e0] eqn:Hp.
  2:{ intros H. inversion H; subst. left.
      destruct (body ev); simpl in Hp; inversion Hp; eauto. }
  destruct (negb (truthy filename)).
  { intros H. inversion H; subst. right. repeat split.
    exists 400%Z, msg_no_filename. simpl. intuition discriminate. }
  destruct (negb (stringifiable filename)).
  { intros H. inversion H; subst. left. eauto. }
  destruct (filepath_of cwd filename) as [filepath|e0] eqn:Hf.
  2:{ intros H. inversion H; subst. left.
      destruct filename; simpl in Hf; inversion Hf; eauto. }
  destruct (readJson filepath) as [backupData|].
  2:{ intros H. inversion H; subst. right. repeat split.
      exists 404%Z, msg_not_found. simpl. intuition discriminate. }
  destruct (prop backupData "metadata") as [metadata|e0] eqn:Hm.
  2:{ intros H. inversion H; subst. left.
      destruct backupData; simpl in Hm; inversion Hm; eauto. }
  destruct (negb (truthy metadata) || negb (truthy (field backupData "data"))).
  { intros H. inversion H; subst. right. repeat split.
    exists 400%Z, msg_bad_format. simpl. intuition discriminate. }
  destruct (negb (loggable metadata)).
  { intros H. inversion H; subst. left. eauto. }
  destruct (preClear _ _ _ _) as [d w2].
  destruct (run_transaction _ _ _ _ _) as [[d'|e0] w3] eqn:R;
    [discriminate|].
  intros H. inversion H; subst. left.
  eapply run_transaction_throw. eassumption.
Qed.

(** Whenever the handler throws, what it throws is an h3 error with a
    message and a status among 400, 403, 404 and 500; unless the status
    is 500, the database is the one the request found and no Prisma
    call has been made. *)
Theorem client_error_precedes_mutation ev (w w' : world Store) e :
  handler exec tx cwd readJson ev w = (Throw e, w') ->
  exists code msg,
    e = H3Error code msg /\ In code status_codes /\ msg <> "" /\
    (code <> 500%Z -> db w' = db w /\ calls w' = calls w).
Proof.
  unfold handler.
  destruct (handler_body exec tx cwd readJson ev w) as [[r|e0] w0] eqn:E;
    intros H; inversion H; subst.
  apply handler_body_throw in E
    as [[msg ->]|(Hdb & Hcalls & code & msg & -> & Hmsg & Hcode)]; simpl.
  - exists 500%Z, msg_failed. split; [reflexivity|].
    split; [tauto|]. split; [discriminate|]. congruence.
  - pose proof Hmsg as Hmsg'. apply String.eqb_neq in Hmsg'. rewrite Hmsg'.
    destruct Hcode as [<-|[<-|[<-|[]]]]; simpl; eexists; eexists;
      (split; [reflexivity|]); (split; [tauto|]); (split; [assumption|]);
      intros _; split; assumption.
Qed.

End Requests.

(** ** The replay, collection by collection *)

Lemma build_call_mode_ext t m1 m2 r :
  is_merge m1 = is_merge m2 -> build_call t m1 r = build_call t m2 r.
Proof. intros H. unfold build_call. rewrite H. reflexivity. Qed.

Lemma build_call_collection t mode r c :
  build_call t mode r = Ok (Some c) -> call_collection c = t.
Proof.
  unfold build_call, bind.
  repeat match goal with
         | |- context [if (t =? ?x) then _ else _] =>
             let E := fresh "E" in
             destruct (t =? x) eqn:E; [apply String.eqb_eq in E; subst t|]
         end;
    repeat match goal with
           | |- context [if ?b then _ else _] => destruct b
           | |- context [match prop ?v ?k with _ => _ end] => destruct (prop v k)
           | |- context [match to_date ?v with _ => _ end] => destruct (to_date v)
           end;
    intros H; inversion H; reflexivity.
Qed.

Lemma has_case_spec t :
  has_case t =
  (t =? "users") || ((t =? "songs") || ((t =? "playTimes") ||
  ((t =? "semesters") || (t =? "systemSettings")))).
Proof.
  unfold has_case, supported. cbn [existsb fst].
  rewrite orb_false_r.
  rewrite (String.eqb_sym "users" t), (String.eqb_sym "songs" t),
    (String.eqb_sym "playTimes" t), (String.eqb_sym "semesters" t),
    (String.eqb_sym "systemSettings" t).
  reflexivity.
Qed.

Lemma build_call_has_case t mode r :
  has_case t = true -> build_call t mode r <> Ok None.
Proof.
  rewrite has_case_spec. intros H.
  unfold build_call, bind.
  repeat match goal with
         | |- context [if (t =? ?x) then _ else _] =>
             destruct (t =? x);
             [repeat match goal with
                     | |- context [if ?b then _ else _] => destruct b
                     | |- context [match prop ?v ?k with _ => _ end] =>
                         destruct (prop v k)
                     | |- context [match to_date ?v with _ => _ end] =>
                         destruct (to_date v)
                     end; discriminate|]
         end.
  discriminate.
Qed.

Lemma build_call_no_case t mode r :
  has_case t = false -> build_call t mode r = Ok None.
Proof.
  rewrite has_case_spec. intros H.
  apply orb_false_iff in H as [H1 H]. apply orb_false_iff in H as [H2 H].
  apply orb_false_iff in H as [H3 H]. apply orb_false_iff in H as [H4 H5].
  unfold build_call. rewrite H1, H2, H3, H4, H5. reflexivity.
Qed.

Section Replay.

Variable Store : Type.
Variable exec : call -> Store -> outcome * Store.

(** A record that is [null] in a collection the [switch] handles is
    recorded as one error; no Prisma call is made for it and the count of
    restored records does not move. *)
Theorem null_record_recorded t mode record (s : replay Store) :
  has_case t = true ->
  readable record = false ->
  exists msg,
    restore_record exec t mode record s =
    mkReplay (push_error (acc s) (t ++ ": " ++ msg)) (wld s) (restoredCount s).
Proof.
  intros Hc Hr. unfold restore_record.
  destruct (build_call_unreadable t mode record Hc Hr) as [msg ->].
  exists msg. reflexivity.
Qed.

Lemma restore_records_no_case t mode rs : forall (s : replay Store),
  has_case t = false -> restore_records exec t mode rs s = s.
Proof.
  unfold restore_records.
  induction rs as [|r rs IH]; intros s H; simpl; [reflexivity|].
  unfold restore_record at 2. rewrite (build_call_no_case _ _ _ H).
  apply IH. assumption.
Qed.

(** A non-empty [votes], [schedules], [notificationSettings] or
    [notifications] collection is counted as a processed table although
    none of its records is restored: no call, no error, no record
    counted. *)
Theorem unhandled_collection_counted data mode t r rs d (w : world Store) :
  In t unhandled ->
  field data t = VArr (r :: rs) ->
  restore_table exec data mode (d, w) t = (table_done d 0, w).
Proof.
  intros Hin Hf. unfold restore_table. rewrite Hf.
  rewrite restore_records_no_case; [reflexivity|].
  simpl in Hin. destruct Hin as [<-|[<-|[<-|[<-|[]]]]]; reflexivity.
Qed.

(** The replay looks at its mode only to compare it with ["merge"]:
    every other value, string or not, replays as a replace. *)
Lemma transaction_mode_ext data m1 m2 (s : details * world Store) :
  is_merge m1 = is_merge m2 ->
  transaction exec data m1 s = transaction exec data m2 s.
Proof.
  intros H. rewrite !transaction_unfold.
  assert (R : forall t rs s0, restore_records exec t m1 rs s0 =
                              restore_records exec t m2 rs s0).
  { unfold restore_records. intros t rs.
    induction rs as [|r rs IH]; intros s0; simpl; [reflexivity|].
    unfold restore_record at 2 4.
    rewrite (build_call_mode_ext t m1 m2 r H). apply IH. }
  generalize restoreOrder as ts. intros ts. revert s.
  induction ts as [|t ts IH]; intros s; simpl; [reflexivity|].
  unfold restore_table at 2 4.
  destruct (field data t) as [| | | | |[|r rs]| |]; try apply IH.
  rewrite R. apply IH.
Qed.

(** The replay reads a backup's [data] only through the nine names of
    the restore order. *)
Lemma transaction_data_ext d1 d2 mode (s : details * world Store) :
  (forall t, In t restoreOrder -> field d1 t = field d2 t) ->
  transaction exec d1 mode s = transaction exec d2 mode s.
Proof.
  rewrite !transaction_unfold.
  generalize restoreOrder as ts. intros ts. revert s.
  induction ts as [|t ts IH]; intros s H; simpl; [reflexivity|].
  unfold restore_table at 2 4. rewrite (H t (or_introl eq_refl)).
  apply IH. intros t' Ht'. apply H. right. assumption.
Qed.

Lemma lookup_permutation fields fields' k :
  NoDup (map fst fields) -> Permutation fields fields' ->
  lookup k fields = lookup k fields'.
Proof.
  intros Hnd Hp. induction Hp as [|[k1 v1] l l' Hp IH|[k1 v1] [k2 v2] l|l l' l'' Hp1 IH1 Hp2 IH2].
  - reflexivity.
  - simpl. inversion Hnd; subst. rewrite IH by assumption. reflexivity.
  - simpl. destruct (k2 =? k) eqn:E2; destruct (k1 =? k) eqn:E1; try reflexivity.
    apply String.eqb_eq in E1, E2. subst.
    inversion Hnd as [|? ? Hn _]; subst. simpl in Hn. tauto.
  - rewrite IH1 by assumption. apply IH2.
    eapply Permutation_NoDup; [|exact Hnd]. apply Permutation_map. assumption.
Qed.

(** The collections are replayed in the fixed order whatever their order
    in the document: two documents with the same collections in a
    different order replay identically. *)
Theorem collection_order_irrelevant fields fields' mode
    (s : details * world Store) :
  NoDup (map fst fields) -> Permutation fields fields' ->
  transaction exec (VObj fields) mode s = transaction exec (VObj fields') mode s.
Proof.
  intros Hnd Hp. apply transaction_data_ext. intros t _. simpl.
  apply lookup_permutation; assumption.
Qed.

End Replay.

(** ** The replay as a whole *)

Section ReplayTrace.

Variable Store : Type.
Variable exec : call -> Store -> outcome * Store.

Lemma restore_record_collection t mode r (s : replay Store) :
  exists tr,
    calls (wld (restore_record exec t mode r s)) = (calls (wld s) ++ tr)%list /\
    Forall (fun e => call_collection (fst e) = t) tr.
Proof.
  unfold restore_record.
  destruct (build_call t mode r) as [[c|]|e] eqn:B; simpl.
  - apply build_call_collection in B.
    destruct (run exec c (wld s)) as [o w'] eqn:R.
    apply run_calls in R as [R _].
    exists [(c, o)]. destruct o; simpl; (split; [assumption|]);
      repeat constructor; assumption.
  - exists []. rewrite app_nil_r. auto.
  - exists []. rewrite app_nil_r. auto.
Qed.

Lemma restore_records_collection t mode rs : forall (s : replay Store),
  exists tr,
    calls (wld (restore_records exec t mode rs s)) = (calls (wld s) ++ tr)%list /\
    Forall (fun e => call_collection (fst e) = t) tr.
Proof.
  unfold restore_records.
  induction rs as [|r rs IH]; intros s; simpl.
  - exists []. rewrite app_nil_r. auto.
  - destruct (restore_record_collection t mode r s) as (tr1 & C1 & F1).
    destruct (IH (restore_record exec t mode r s)) as (tr2 & C2 & F2).
    exists (tr1 ++ tr2)%list. split.
    + rewrite C2, C1, app_assoc. reflexivity.
    + apply Forall_app. auto.
Qed.

Lemma restore_table_collection data mode t (s : details * world Store) :
  exists tr,
    calls (snd (restore_table exec data mode s t)) = (calls (snd s) ++ tr)%list /\
    Forall (fun e => call_collection (fst e) = t) tr.
Proof.
  unfold restore_table.
  destruct (field data t) as [| | | | |[|r rs]| |];
    try solve [exists []; rewrite app_nil_r; auto].
  destruct (restore_records_collection t mode (r :: rs)
              (mkReplay (fst s) (snd s) 0)) as (tr & C & F).
  exists tr. auto.
Qed.

Lemma restore_tables_grouped data mode ts : forall (s : details * world Store),
  exists groups,
    calls (snd (fold_left (restore_table exec data mode) ts s)) =
      (calls (snd s) ++ concat groups)%list /\
    Forall2 (fun t g => Forall (fun e => call_collection (fst e) = t) g)
            ts groups.
Proof.
  induction ts as [|t ts IH]; intros s; simpl.
  - exists []. simpl. rewrite app_nil_r. auto.
  - destruct (restore_table_collection data mode t s) as (tr & C & F).
    destruct (IH (restore_table exec data mode s t)) as (groups & Cg & Fg).
    exists (tr :: groups). split.
    + rewrite Cg, C. simpl. rewrite app_assoc. reflexivity.
    + constructor; assumption.
Qed.

(** The Prisma calls of a replay come in nine consecutive groups, one
    per collection of the restore order and in that order: every call on
    a collection precedes every call on the collections after it. *)
Theorem replay_grouped_by_order data mode d (w : world Store) :
  exists groups,
    calls (snd (transaction exec data mode (d, w))) =
      (calls w ++ concat groups)%list /\
    Forall2 (fun t g => Forall (fun e => call_collection (fst e) = t) g)
            restoreOrder groups.
Proof.
  rewrite transaction_unfold.
  exact (restore_tables_grouped data mode restoreOrder (d, w)).
Qed.

(** *** Every record is either counted or reported *)

Lemma restore_record_accounted t mode r (s : replay Store) :
  let s' := restore_record exec t mode r s in
  restoredCount s' + length (errors (acc s')) =
  restoredCount s + length (errors (acc s)) + (if has_case t then 1 else 0).
Proof.
  cbv zeta. unfold restore_record.
  destruct (has_case t) eqn:Hc.
  - pose proof (build_call_has_case t mode r Hc) as Hn.
    destruct (build_call t mode r) as [[c|]|e]; [|congruence|].
    + destruct (run exec c (wld s)) as [[|msg] w']; simpl;
        rewrite ?length_app; simpl; lia.
    + simpl. rewrite length_app. simpl. lia.
  - rewrite (build_call_no_case t mode r Hc). lia.
Qed.

Lemma restore_records_accounted t mode rs : forall (s : replay Store),
  let s' := restore_records exec t mode rs s in
  restoredCount s' + length (errors (acc s')) =
  restoredCount s + length (errors (acc s)) +
  (if has_case t then length rs else 0).
Proof.
  unfold restore_records.
  induction rs as [|r rs IH]; intros s; simpl.
  - destruct (has_case t); lia.
  - specialize (IH (restore_record exec t mode r s)). cbv zeta in IH.
    rewrite IH. pose proof (restore_record_accounted t mode r s) as H.
    cbv zeta in H. destruct (has_case t); lia.
Qed.

Lemma restore_table_accounted data mode t (s : details * world Store) :
  let s' := restore_table exec data mode s t in
  recordsRestored (fst s') + length (errors (fst s')) =
  recordsRestored (fst s) + length (errors (fst s)) +
  (if has_case t then length (table_rows data t) else 0).
Proof.
  cbv zeta. unfold restore_table, table_rows.
  destruct (field data t) as [| | | | |[|r rs]| |];
    try (destruct (has_case t); simpl; lia).
  pose proof (restore_records_accounted t mode (r :: rs)
                (mkReplay (fst s) (snd s) 0)) as H.
  destruct (restore_records_replayed _ exec t mode (r :: rs)
              (mkReplay (fst s) (snd s) 0)) as [(_ & A2 & _) _].
  cbv zeta in H. cbn [acc restoredCount fst snd table_done recordsRestored errors] in *.
  rewrite A2. destruct (has_case t); lia.
Qed.

Lemma restore_tables_accounted data mode ts :
  forall (s s' : details * world Store),
  fold_left (restore_table exec data mode) ts s = s' ->
  recordsRestored (fst s') + length (errors (fst s')) =
  recordsRestored (fst s) + length (errors (fst s)) +
  list_sum (map (fun t => if has_case t then length (table_rows data t) else 0)
                ts).
Proof.
  induction ts as [|t ts IH]; intros s s' E; simpl in E.
  - subst. simpl. lia.
  - rewrite (IH _ _ E). simpl.
    pose proof (restore_table_accounted data mode t s) as H. cbv zeta in H.
    lia.
Qed.

Lemma transaction_accounted data mode d d' (w w' : world Store) :
  transaction exec data mode (d, w) = (d', w') ->
  recordsRestored d' + length (errors d') =
  recordsRestored d + length (errors d) + supported_total data.
Proof.
  intros T. rewrite transaction_unfold in T.
  exact (restore_tables_accounted data mode restoreOrder _ _ T).
Qed.

Lemma preClear_counts ce d (w w' : world Store) d' :
  preClear exec ce d w = (d', w') ->
  errors d' = errors d /\ recordsRestored d' = recordsRestored d.
Proof.
  unfold preClear. destruct (truthy ce).
  - destruct (deleteAll exec clearOrder w) as [[|e] w1];
      intros H; inversion H; subst; auto.
  - intros H. inversion H; subst. auto.
Qed.

End ReplayTrace.

(** ** Accepted requests, continued *)

Section AcceptedRequests.

Variable Store : Type.
Variable exec : call -> Store -> outcome * Store.
Variable tx : transactions Store.
Variable cwd : string.
Variable readJson : string -> option value.

(** A request is answered before the first Prisma call with an error,
    or it gets as far as the pre-clear: then the caller is an admin, the
    file named was read, and the document has its [metadata], which can
    be printed, and its [data]. *)
Lemma handler_stages ev (w : world Store) :
  (calls (snd (handler exec tx cwd readJson ev w)) = calls w /\
   exists e, fst (handler exec tx cwd readJson ev w) = Throw e) \/
  exists f doc,
    is_admin (context_user ev) = true /\
    prop (body ev) "filename" = Ok (VStr f) /\
    f <> "" /\
    readJson (Path.join [backupDir cwd; f]) = Some doc /\
    truthy (field doc "metadata") = true /\
    truthy (field doc "data") = true /\
    loggable (field doc "metadata") = true.
Proof.
  destruct (is_admin (context_user ev)) eqn:Ha.
  2:{ left. unfold handler, handler_body. rewrite Ha.
      split; [reflexivity|eexists; reflexivity]. }
  destruct (prop (body ev) "filename") as [filename|e] eqn:Hp.
  2:{ left. unfold handler, handler_body. rewrite Ha, Hp.
      split; [reflexivity|eexists; reflexivity]. }
  destruct (truthy filename) eqn:Ht.
  2:{ left. unfold handler, handler_body. rewrite Ha, Hp, Ht.
      split; [reflexivity|eexists; reflexivity]. }
  assert (Hs : (exists f, filename = VStr f /\ f <> "") \/
               forall p, filepath_of cwd filename <> Ok p
                         \/ stringifiable filename = false).
  { destruct filename; try (right; intros p; left; discriminate).
    left. exists s. split; [reflexivity|].
    simpl in Ht. intros ->. discriminate. }
  destruct Hs as [(f & -> & Hname)|Hs].
  2:{ left. unfold handler, handler_body. rewrite Ha, Hp, Ht. cbn [negb].
      destruct (stringifiable filename) eqn:Hst; cbn [negb].
      - destruct (filepath_of cwd filename) as [p|e] eqn:Hf.
        + destruct (Hs p) as [H|H]; congruence.
        + split; [reflexivity|eexists; reflexivity].
      - split; [reflexivity|eexists; reflexivity]. }
  destruct (readJson (Path.join [backupDir cwd; f])) as [doc|] eqn:Hr.
  2:{ left. unfold handler, handler_body. rewrite Ha, Hp, Ht.
      cbn [negb stringifiable filepath_of]. rewrite Hr.
      split; [reflexivity|eexists; reflexivity]. }
  unfold handler.
  rewrite (handler_reaches_validation _ exec tx cwd readJson ev f doc
             Ha Hp Hname Hr).
  destruct (prop doc "metadata") as [metadata|e] eqn:Hm.
  2:{ left. split; [reflexivity|eexists; reflexivity]. }
  assert (Hmeta : metadata = field doc "metadata").
  { destruct doc; simpl in Hm; inversion Hm; reflexivity. }
  subst metadata.
  destruct (truthy (field doc "metadata")) eqn:Htm.
  2:{ left. split; [reflexivity|eexists; reflexivity]. }
  destruct (truthy (field doc "data")) eqn:Htd.
  2:{ left. split; [reflexivity|eexists; reflexivity]. }
  destruct (loggable (field doc "metadata")) eqn:Hl.
  2:{ left. split; [reflexivity|eexists; reflexivity]. }
  right. exists f, doc. repeat split; assumption.
Qed.

(** Without [clearExisting] the handler never awaits a [deleteMany],
    whatever becomes of the request, and a result that is returned
    carries no warning. *)
Theorem no_clear_no_delete ev (w : world Store) :
  truthy (or_default (field (body ev) "clearExisting") (VBool false)) = false ->
  forallb (fun e => negb (is_delete (fst e)))
          (new_calls w (snd (handler exec tx cwd readJson ev w))) = true /\
  forall r w',
    handler exec tx cwd readJson ev w = (Ok r, w') ->
    warnings (details_of r) = [].
Proof.
  intros Hce.
  destruct (handler_stages ev w)
    as [[Hc [e He]]|(f & doc & Ha & Hp & Hn & Hr & Hm & Hd & Hl)].
  - split.
    + rewrite (new_calls_app _ w _ []); [reflexivity|].
      rewrite app_nil_r. exact Hc.
    + intros r w' H. rewrite H in He. discriminate.
  - split.
    + destruct (handler_accepted_calls _ exec tx cwd readJson ev f doc
                  Ha Hp Hn Hr Hm Hd Hl w) as (d & w2 & tr & P & Hc & Hnd).
      rewrite (preClear_skipped _ exec _ _ _ Hce) in P.
      inversion P; subst.
      rewrite (new_calls_app _ w _ tr); [assumption|exact Hc].
    + intros r w' H.
      apply (handler_accepted_returns _ exec tx cwd readJson ev f doc
               Ha Hp Hn Hr Hm Hd Hl) in H
        as (d & w2 & d' & w3 & P & T & -> & _).
      rewrite (preClear_skipped _ exec _ _ _ Hce) in P.
      inversion P; subst.
      apply transaction_replayed in T as (Hw & _).
      rewrite finalize_details, Hw. reflexivity.
Qed.

Variable ev : event.
Variable f : string.
Variable doc : value.

Hypothesis Hadmin : is_admin (context_user ev) = true.
Hypothesis Hfile : prop (body ev) "filename" = Ok (VStr f).
Hypothesis Hname : f <> "".
Hypothesis Hread : readJson (Path.join [backupDir cwd; f]) = Some doc.
Hypothesis Hmeta : truthy (field doc "metadata") = true.
Hypothesis Hdata : truthy (field doc "data") = true.

Let filepath := Path.join [backupDir cwd; f].
Let mode := or_default (field (body ev) "mode") (VStr "merge").
Let clearExisting :=
  or_default (field (body ev) "clearExisting") (VBool false).

Lemma returned_loggable (w w' : world Store) r :
  handler exec tx cwd readJson ev w = (Ok r, w') ->
  loggable (field doc "metadata") = true.
Proof.
  intros H. destruct (loggable (field doc "metadata")) eqn:E; [reflexivity|].
  rewrite (unprintable_metadata_rejected _ exec tx cwd readJson ev f doc
             Hadmin Hfile Hname Hread Hmeta Hdata w E) in H.
  discriminate.
Qed.

Lemma returned_from (w w' : world Store) r :
  handler exec tx cwd readJson ev w = (Ok r, w') ->
  exists d w2 d' w3,
    preClear exec clearExisting initial_details (opened filepath w) = (d, w2) /\
    transaction exec (field doc "data") mode (d, w2) = (d', w3) /\
    r = finalize d' /\ calls w' = calls w3 /\ reads w' = reads w3.
Proof.
  intros H.
  apply (handler_accepted_returns _ exec tx cwd readJson ev f doc
           Hadmin Hfile Hname Hread Hmeta Hdata
           (returned_loggable w w' r H) w w' r H).
Qed.

(** C5 (as amended): in every result the handler returns,
    [recordsRestored] is the number of upserts and inserts that
    resolved during the request, and [tablesProcessed] is the number of
    collections of the fixed order that the document holds as a
    non-empty array.  A collection whose name is not in the fixed order
    is skipped: the replay of a document is the replay of the same
    document without it.  The four collections of the fixed order for
    which the [switch] has no [case] are not skipped: a non-empty one
    is counted as processed, with no record restored, no error and no
    call. *)
Theorem restore_counts (w w' : world Store) r :
  handler exec tx cwd readJson ev w = (Ok r, w') ->
  recordsRestored (details_of r) =
    length (filter applied (new_calls w w')) /\
  tablesProcessed (details_of r) = length (entered (field doc "data")) /\
  (forall name v fields md s,
      ~ In name restoreOrder ->
      transaction exec (VObj ((name, v) :: fields)) md s =
      transaction exec (VObj fields) md s) /\
  (forall t,
      In t unhandled ->
      In t restoreOrder /\ has_case t = false /\
      forall data md record rest d w0,
        field data t = VArr (record :: rest) ->
        restore_table exec data md (d, w0) t = (table_done d 0, w0)).
Proof.
  intros H.
  apply returned_from in H as (d & w2 & d' & w3 & P & T & -> & Hc' & _).
  rewrite finalize_details.
  apply transaction_replayed in T as (_ & Htp & tr & Hc & _ & _ & Hn).
  assert (Hcounts :
    recordsRestored d' = length (filter applied (new_calls w w')) /\
    tablesProcessed d' = length (entered (field doc "data"))).
  { destruct (truthy clearExisting) eqn:Hce.
    - apply (preClear_trace _ exec _ _ _ _ Hce) in P
        as (_ & _ & Ht0 & Hr0 & tr0 & Hc0 & Hd0 & _).
      cbn [opened calls] in Hc0. split.
      + rewrite (new_calls_app _ w w' (tr0 ++ tr)).
        * rewrite filter_app, (deletes_not_applied _ Hd0). simpl. lia.
        * rewrite Hc', Hc, Hc0, app_assoc. reflexivity.
      + lia.
    - rewrite (preClear_skipped _ exec _ _ _ Hce) in P. inversion P; subst.
      cbn [initial_details tablesProcessed recordsRestored] in *. split.
      + rewrite (new_calls_app _ w w' tr); [lia|].
        rewrite Hc', Hc. reflexivity.
      + lia. }
  destruct Hcounts as [Hrec Htab].
  split; [exact Hrec|]. split; [exact Htab|]. split.
  - intros name v fields md s Hn'. rewrite !transaction_unfold.
    assert (E : forall ts, incl ts restoreOrder -> forall s0,
               fold_left (restore_table exec (VObj ((name, v) :: fields)) md) ts s0 =
               fold_left (restore_table exec (VObj fields) md) ts s0).
    { induction ts as [|t ts IH]; intros Hi s0; simpl; [reflexivity|].
      assert (Ht : (name =? t) = false).
      { apply String.eqb_neq. intros ->. apply Hn', Hi. left. reflexivity. }
      unfold restore_table at 2 4. simpl. rewrite Ht.
      apply IH. intros x Hx. apply Hi. right. assumption. }
    apply E. apply incl_refl.
  - intros t Hin.
    assert (Hcase : has_case t = false).
    { simpl in Hin. destruct Hin as [<-|[<-|[<-|[<-|[]]]]]; reflexivity. }
    split; [|split; [exact Hcase|]].
    + simpl in Hin. destruct Hin as [<-|[<-|[<-|[<-|[]]]]]; simpl; tauto.
    + intros data md record rest d0 w0 Hf. unfold restore_table. rewrite Hf.
      rewrite restore_records_no_case; [reflexivity|exact Hcase].
Qed.

(** Every record of a collection the [switch] handles is either counted
    in [recordsRestored] or reported by exactly one entry of [errors],
    in every result the handler returns; [success] is true exactly when
    all of them were counted. *)
Theorem every_record_accounted (w w' : world Store) r :
  handler exec tx cwd readJson ev w = (Ok r, w') ->
  recordsRestored (details_of r) + length (errors (details_of r)) =
    supported_total (field doc "data") /\
  (success r = true <->
   recordsRestored (details_of r) = supported_total (field doc "data")).
Proof.
  intros H.
  apply returned_from in H as (d & w2 & d' & w3 & P & T & -> & _).
  apply preClear_counts in P as [Pe Pr].
  apply transaction_accounted in T. rewrite Pe, Pr in T. simpl in T.
  rewrite finalize_details. split; [lia|].
  unfold finalize. destruct (errors d') eqn:E; simpl in *.
  - split; intros; [lia|reflexivity].
  - split; intros H; [discriminate|lia].
Qed.

Hypothesis Hlog : loggable (field doc "metadata") = true.

(** C6 (as amended): when [clearExisting] is truthy, the handler
    first awaits [deleteMany] on the nine collections in the order
    notifications, notificationSettings, schedules, votes, songs,
    users, playTimes, semesters, systemSettings, which is the
    reverse of the restore order with semesters and playTimes
    exchanged; the first [deleteMany] that rejects ends the
    pre-clear and leaves its message as a warning.  Either way the
    handler goes on: its answer is that of the transaction started
    from what the pre-clear left, the replay issues no [deleteMany],
    and a result that is returned carries the warning. *)
Theorem preclear_then_replay (w : world Store) :
  truthy clearExisting = true ->
  map collection_of clearOrder = swap_at 6 (rev restoreOrder) /\
  exists d w2 tr_clear,
    preClear exec clearExisting initial_details (opened filepath w) = (d, w2) /\
    calls w2 = (calls w ++ tr_clear)%list /\
    clear_trace tr_clear d /\
    handler exec tx cwd readJson ev w =
      match run_transaction exec tx (field doc "data") mode (d, w2) with
      | (Ok d', w3) => (Ok (finalize d'), w3)
      | (Throw e, w3) => (Throw (rethrow e), w3)
      end /\
    (exists tr_replay,
        new_calls w (snd (handler exec tx cwd readJson ev w)) =
          (tr_clear ++ tr_replay)%list /\
        forallb (fun e => negb (is_delete (fst e))) tr_replay = true) /\
    (forall r w',
        handler exec tx cwd readJson ev w = (Ok r, w') ->
        warnings (details_of r) = warnings d /\
        tablesProcessed (details_of r) =
          length (entered (field doc "data"))).
Proof.
  intros Hce. split; [reflexivity|].
  destruct (handler_accepted_calls _ exec tx cwd readJson ev f doc
              Hadmin Hfile Hname Hread Hmeta Hdata Hlog w)
    as (d & w2 & tr & P & Hc & Hnd).
  exists d, w2.
  pose proof P as P'.
  apply (preClear_trace _ exec _ _ _ _ Hce) in P'
    as (_ & _ & Ht0 & _ & tr0 & Hc0 & _ & Hct).
  cbn [opened calls] in Hc0.
  exists tr0. split; [exact P|]. split; [exact Hc0|]. split; [exact Hct|].
  split.
  { rewrite (handler_accepted _ exec tx cwd readJson ev f doc
               Hadmin Hfile Hname Hread Hmeta Hdata Hlog).
    unfold filepath, clearExisting in P. rewrite P. reflexivity. }
  split.
  { exists tr. split; [|exact Hnd].
    apply new_calls_app. rewrite Hc, Hc0, app_assoc. reflexivity. }
  intros r w' H.
  apply returned_from in H as (d0 & w20 & d' & w3 & P0 & T & -> & _).
  unfold filepath, clearExisting in P0.
  rewrite P in P0. inversion P0; subst d0 w20.
  apply transaction_replayed in T as (Hw & Htp & _).
  rewrite finalize_details. split; [exact Hw|lia].
Qed.

(** Of [metadata] the handler only prints four fields: a backup with
    the same [data] and any other [metadata] that can be printed is
    restored in exactly the same way. *)
Theorem metadata_only_printed readJson' doc' (w : world Store) :
  readJson' (Path.join [backupDir cwd; f]) = Some doc' ->
  truthy (field doc' "metadata") = true ->
  loggable (field doc' "metadata") = true ->
  field doc' "data" = field doc "data" ->
  handler exec tx cwd readJson' ev w = handler exec tx cwd readJson ev w.
Proof.
  intros Hread' Hmeta' Hlog' Hsame.
  assert (Hdata' : truthy (field doc' "data") = true)
    by (rewrite Hsame; exact Hdata).
  rewrite (handler_accepted _ exec tx cwd readJson ev f doc
             Hadmin Hfile Hname Hread Hmeta Hdata Hlog).
  rewrite (handler_accepted _ exec tx cwd readJson' ev f doc'
             Hadmin Hfile Hname Hread' Hmeta' Hdata' Hlog').
  rewrite Hsame. reflexivity.
Qed.

End AcceptedRequests.

Section Modes.

Variable Store : Type.
Variable exec : call -> Store -> outcome * Store.
Variable tx : transactions Store.
Variable cwd : string.
Variable readJson : string -> option value.

(** The handler looks at the requested mode only to compare it with
    ["merge"]: two requests that differ in nothing else and agree on that
    comparison get the same answer, so a missing mode means merge and any
    other value, such as ["REPLACE"] or [true], means replace. *)
Theorem mode_only_merge_matters ev1 ev2 (w : world Store) :
  context_user ev1 = context_user ev2 ->
  prop (body ev1) "filename" = prop (body ev2) "filename" ->
  field (body ev1) "clearExisting" = field (body ev2) "clearExisting" ->
  is_merge (requested_mode ev1) = is_merge (requested_mode ev2) ->
  handler exec tx cwd readJson ev1 w = handler exec tx cwd readJson ev2 w.
Proof.
  intros Hu Hf Hc Hm. unfold requested_mode in Hm.
  assert (E : handler_body exec tx cwd readJson ev1 w =
              handler_body exec tx cwd readJson ev2 w).
  { unfold handler_body. rewrite Hu, Hf, Hc.
    destruct (negb (is_admin (context_user ev2))); [reflexivity|].
    destruct (prop (body ev2) "filename") as [filename|]; [|reflexivity].
    destruct (negb (truthy filename)); [reflexivity|].
    destruct (negb (stringifiable filename)); [reflexivity|].
    destruct (filepath_of cwd filename) as [filepath|]; [|reflexivity].
    destruct (readJson filepath) as [backupData|]; [|reflexivity].
    destruct (prop backupData "metadata") as [metadata|]; [|reflexivity].
    destruct (negb (truthy metadata) || negb (truthy (field backupData "data")));
      [reflexivity|].
    destruct (negb (loggable metadata)); [reflexivity|].
    destruct (preClear _ _ _ _) as [d w2].
    unfold run_transaction.
    rewrite (transaction_mode_ext _ exec _ _ _ (d, w2) Hm). reflexivity. }
  unfold handler. rewrite E. reflexivity.
Qed.

End Modes.

(** * The deployment check *)

Module CheckDeployFacts.
Import CheckDeploy.

Lemma node_nested_ind (P : node -> Prop) :
  (forall size, P (File size)) ->
  (forall files, Forall (fun file => P (snd file)) files -> P (Dir (Some files))) ->
  P (Dir None) -> P Special -> P Missing ->
  forall n, P n.
Proof.
  intros HFile HDir HNone HSpecial HMissing.
  fix IH 1.
  intros [size|[files|]| |];
    [apply HFile| |exact HNone|exact HSpecial|exact HMissing].
  apply HDir. induction files as [|file files IHfiles]; constructor.
  - apply IH.
  - exact IHfiles.
Qed.

Lemma sum_sizes_app a b : sum_sizes (a ++ b) = (sum_sizes a + sum_sizes b)%N.
Proof. induction a; simpl; lia. Qed.

Lemma round_exact n : (n <= exact_limit)%N -> round_double n = Finite n.
Proof.
  intros H. unfold round_double. apply N.leb_le in H. rewrite H. reflexivity.
Qed.

Lemma fold_sizes_exact files :
  Forall (fun file : string * node =>
            (sum_sizes (files_below (snd file)) <= exact_limit)%N ->
            getDirectorySize (snd file) =
            Finite (sum_sizes (files_below (snd file)))) files ->
  forall total,
    (total + sum_sizes (flat_map (fun file => files_below (snd file)) files)
     <= exact_limit)%N ->
    fold_left (fun totalSize file =>
                 js_add totalSize (getDirectorySize (snd file)))
              files (Finite total) =
    Finite (total +
            sum_sizes (flat_map (fun file => files_below (snd file)) files)).
Proof.
  induction files as [|file files IHfiles]; intros IH total Hle;
    cbn [fold_left flat_map] in *.
  - f_equal. cbn [sum_sizes fold_right]. lia.
  - inversion IH as [|? ? Hfile Hfiles]; subst.
    rewrite sum_sizes_app in Hle. rewrite sum_sizes_app.
    rewrite Hfile by lia. cbn [js_add].
    rewrite round_exact by lia.
    rewrite (IHfiles Hfiles) by lia.
    f_equal. lia.
Qed.

(** As long as the sizes add up to no more than [2^53], the size of a
    path is the total size of the regular files below it, through the
    directories that can be listed; what cannot be read counts for
    nothing and hides nothing else. *)
Theorem size_is_sum_of_files (n : node) :
  (sum_sizes (files_below n) <= exact_limit)%N ->
  getDirectorySize n = Finite (sum_sizes (files_below n)).
Proof.
  induction n as [size|files IH| | |] using node_nested_ind;
    cbn [getDirectorySize files_below]; intros Hle;
    try reflexivity.
  - cbn [sum_sizes fold_right] in *. rewrite N.add_0_r in *.
    apply round_exact. assumption.
  - rewrite (fold_sizes_exact files IH 0%N); [reflexivity|].
    rewrite N.add_0_l. exact Hle.
Qed.

Lemma app_tail_ex {A} (l1 l2 tail : list A) :
  (exists before, l2 = (before ++ tail)%list) ->
  exists before, (l1 ++ l2)%list = (before ++ tail)%list.
Proof.
  intros [before ->]. exists (l1 ++ before)%list. apply app_assoc.
Qed.

Section CheckFacts.

Variable formatBytes : number -> string.
Variable h : host.

Lemma checkCriticalFiles_fold files : forall s,
  let s' := fold_left (checkCriticalFile h) files s in
  fst s' = fst s && forallb (fileExists h) files /\
  existsb is_error (snd s') =
    existsb is_error (snd s) || negb (forallb (fileExists h) files).
Proof.
  induction files as [|file files IH]; intros s; simpl.
  - rewrite andb_true_r, orb_false_r. auto.
  - destruct (IH (checkCriticalFile h s file)) as [H1 H2]. cbv zeta in *.
    rewrite H1, H2. unfold checkCriticalFile.
    destruct (fileExists h file); simpl; rewrite existsb_app; simpl.
    + rewrite orb_false_r. auto.
    + rewrite !orb_true_r, andb_false_r. auto.
Qed.

Lemma checkRequired_fold vars : forall s,
  let s' := fold_left (checkRequired h) vars s in
  fst s' = fst s && forallb (env_set h) vars /\
  existsb is_error (snd s') =
    existsb is_error (snd s) || negb (forallb (env_set h) vars).
Proof.
  induction vars as [|v vars IH]; intros s; simpl.
  - rewrite andb_true_r, orb_false_r. auto.
  - destruct (IH (checkRequired h s v)) as [H1 H2]. cbv zeta in *.
    rewrite H1, H2. unfold checkRequired.
    destruct (env_set h v); simpl; rewrite existsb_app; simpl.
    + rewrite orb_false_r. auto.
    + rewrite !orb_true_r, andb_false_r. auto.
Qed.

Lemma checkOptional_fold vars : forall s,
  let s' := fold_left (checkOptional h) vars s in
  fst s' = fst s /\ existsb is_error (snd s') = existsb is_error (snd s).
Proof.
  induction vars as [|v vars IH]; intros s; simpl; [auto|].
  destruct (IH (checkOptional h s v)) as [H1 H2]. cbv zeta in *.
  rewrite H1, H2. unfold checkOptional.
  destruct (env_set h v); simpl; rewrite existsb_app; simpl;
    rewrite orb_false_r; auto.
Qed.

Lemma checkCriticalFiles_passed :
  fst (checkCriticalFiles h) = forallb (fileExists h) criticalFiles.
Proof.
  unfold checkCriticalFiles.
  destruct (checkCriticalFiles_fold criticalFiles
              (true, [log "🔍 检查关键文件..." "cyan"])) as [H _].
  exact H.
Qed.

Lemma checkEnvironmentVariables_passed :
  fst (checkEnvironmentVariables h) = forallb (env_set h) requiredVars.
Proof.
  unfold checkEnvironmentVariables.
  destruct (checkOptional_fold optionalVars
              (fold_left (checkRequired h) requiredVars
                 (true, [log "🔍 检查环境变量..." "cyan"]))) as [H _].
  cbv zeta in H. rewrite H.
  destruct (checkRequired_fold requiredVars
              (true, [log "🔍 检查环境变量..." "cyan"])) as [H' _].
  exact H'.
Qed.

Lemma checkBuildOutput_passed :
  fst (checkBuildOutput formatBytes h) =
  fileExists h outputDir && fileExists h serverIndex.
Proof.
  unfold checkBuildOutput.
  destruct (fileExists h outputDir), (fileExists h serverIndex); reflexivity.
Qed.

Lemma checkPrismaClient_passed :
  fst (checkPrismaClient h) = fileExists h prismaClientPath.
Proof.
  unfold checkPrismaClient. destruct (fileExists h prismaClientPath); reflexivity.
Qed.

(** Each of the four checks that can fail the deployment fails exactly
    when it has printed an error line: every failure is explained. *)
Theorem failed_check_is_explained :
  (fst (checkCriticalFiles h) = false <->
   existsb is_error (snd (checkCriticalFiles h)) = true) /\
  (fst (checkBuildOutput formatBytes h) = false <->
   existsb is_error (snd (checkBuildOutput formatBytes h)) = true) /\
  (fst (checkPrismaClient h) = false <->
   existsb is_error (snd (checkPrismaClient h)) = true) /\
  (fst (checkEnvironmentVariables h) = false <->
   existsb is_error (snd (checkEnvironmentVariables h)) = true).
Proof.
  split; [|split; [|split]].
  - unfold checkCriticalFiles.
    destruct (checkCriticalFiles_fold criticalFiles
                (true, [log "🔍 检查关键文件..." "cyan"])) as [H1 H2].
    cbv zeta in *. rewrite H1, H2. simpl.
    destruct (fileExists h "nuxt.config.ts"),
      (fileExists h "prisma/schema.prisma"), (fileExists h "package.json");
      simpl; split; congruence.
  - unfold checkBuildOutput.
    destruct (fileExists h outputDir), (fileExists h serverIndex); simpl;
      split; congruence.
  - unfold checkPrismaClient.
    destruct (fileExists h prismaClientPath); simpl; split; congruence.
  - unfold checkEnvironmentVariables.
    destruct (checkOptional_fold optionalVars
                (fold_left (checkRequired h) requiredVars
                   (true, [log "🔍 检查环境变量..." "cyan"]))) as [H1 H2].
    destruct (checkRequired_fold requiredVars
                (true, [log "🔍 检查环境变量..." "cyan"])) as [H3 H4].
    cbv zeta in *. rewrite H1, H2, H3, H4. simpl.
    destruct (env_set h "DATABASE_URL"), (env_set h "JWT_SECRET"); simpl;
      split; congruence.
Qed.

Lemma exit_code_formula :
  fst (checkDeployment formatBytes h) =
  if forallb (fileExists h)
             (criticalFiles ++ [outputDir; serverIndex; prismaClientPath])
     && forallb (env_set h) requiredVars
  then 0 else 1.
Proof.
  unfold checkDeployment. cbn [fst].
  rewrite checkCriticalFiles_passed, checkBuildOutput_passed,
    checkPrismaClient_passed, checkEnvironmentVariables_passed.
  rewrite forallb_app.
  set (a := forallb (fileExists h) criticalFiles).
  set (e := forallb (env_set h) requiredVars).
  cbn [forallb]. rewrite andb_true_r.
  destruct a, (fileExists h outputDir), (fileExists h serverIndex),
    (fileExists h prismaClientPath), e,
    (fst (checkDatabaseConnection h)); reflexivity.
Qed.

(** The exit code is 0 exactly when the three critical files, the build
    output with its server entry, the generated Prisma client and the two
    required variables are all there; the database probe has no say. *)
Theorem exit_code_critical_only :
  fst (checkDeployment formatBytes h) = 0 <->
  forallb (fileExists h)
          (criticalFiles ++ [outputDir; serverIndex; prismaClientPath]) = true /\
  forallb (env_set h) requiredVars = true.
Proof.
  rewrite exit_code_formula, <- andb_true_iff.
  destruct (forallb (fileExists h) _ && forallb (env_set h) requiredVars);
    split; congruence.
Qed.

(** When only the database probe fails, the script exits with 0 and
    still reports four checks out of five, with the probe's excuse and
    the partial-failure message. *)
Theorem database_failure_not_fatal :
  forallb (fileExists h)
          (criticalFiles ++ [outputDir; serverIndex; prismaClientPath]) = true ->
  forallb (env_set h) requiredVars = true ->
  database h = false ->
  fst (checkDeployment formatBytes h) = 0 /\
  exists before,
    snd (checkDeployment formatBytes h) =
    (before ++
     [log "❌ 数据库连接检查" "red";
      log ("   " ++ db_check_details) "reset";
      log (newline ++ "总计: 4/5 项检查通过") "yellow";
      log msg_some_failed "yellow"])%list.
Proof.
  intros Hfiles Henv Hdb. split.
  - rewrite exit_code_formula, Hfiles, Henv. reflexivity.
  - rewrite forallb_app in Hfiles. apply andb_true_iff in Hfiles as [Hc Hf].
    cbn [forallb] in Hf. rewrite andb_true_r in Hf.
    apply andb_true_iff in Hf as [Ho Hf]. apply andb_true_iff in Hf as [Hs Hp].
    unfold checkDeployment. cbn [snd].
    rewrite checkCriticalFiles_passed, checkBuildOutput_passed,
      checkPrismaClient_passed, checkEnvironmentVariables_passed.
    rewrite Hc, Ho, Hs, Hp, Henv.
    assert (Hd : fst (checkDatabaseConnection h) = false).
    { unfold checkDatabaseConnection. rewrite Hdb. reflexivity. }
    rewrite Hd. cbn [andb].
    do 6 apply app_tail_ex.
    exists [log (newline ++ "📊 部署检查报告") "bright";
            log (String.concat "" (repeat "=" 50)) "cyan";
            log "✅ 关键文件检查" "green";
            log "✅ 构建输出检查" "green";
            log "✅ Prisma 客户端检查" "green";
            log "✅ 环境变量检查" "green"].
    vm_compute. reflexivity.
Qed.

End CheckFacts.

End CheckDeployFacts.

(** * The client generation script *)

Module GenerateClientFacts.
Import GenerateClient.

Section ScriptFacts.

Variable h : host.

Ltac run_script :=
  unfold main, attempt, clean, ensure_dependency, generate, configure,
    all_steps_ok;
  destruct (client_present h); [destruct (rmSync h)|];
  destruct (isNetlify h);
  destruct (npm_list h); try destruct (npm_install h);
  destruct (prisma_generate h).

(** The exit code is 0 when every step went through, and also, whatever
    failed, when [CI] is set and [DATABASE_URL] is not; otherwise 1. *)
Theorem exit_code_spec :
  fst (main h) = 0 <->
  all_steps_ok h = true \/
  (isCI h = true /\ truthy_var (env h) "DATABASE_URL" = false).
Proof.
  assert (D : forall p, truthy_var (penv (configure h p)) "DATABASE_URL" =
                        truthy_var (penv p) "DATABASE_URL").
  { intros p. unfold configure. destruct (isNetlify h); reflexivity. }
  unfold main, attempt. fold (configure h).
  destruct (clean h (started h)) as [[e|] p1] eqn:C.
  - assert (P : penv p1 = env h /\ all_steps_ok h = false).
    { unfold clean, all_steps_ok in *. destruct (client_present h);
        [destruct (rmSync h)|]; inversion C; subst; auto. }
    destruct P as [P ->]. cbn [penv print]. rewrite P.
    destruct (isCI h), (truthy_var (env h) "DATABASE_URL"); cbn;
      intuition congruence.
  - assert (P : penv p1 = env h /\
                (negb (client_present h)
                 || match rmSync h with None => true | _ => false end) = true).
    { unfold clean in *. destruct (client_present h);
        [destruct (rmSync h)|]; inversion C; subst; auto. }
    destruct P as [P Hclean].
    assert (P' : truthy_var (penv (configure h p1)) "DATABASE_URL" =
                 truthy_var (env h) "DATABASE_URL") by (rewrite D, P; reflexivity).
    unfold all_steps_ok. rewrite Hclean. cbn [andb].
    unfold ensure_dependency, generate.
    destruct (npm_list h); [|destruct (npm_install h)];
      destruct (prisma_generate h); cbn [penv print execSync fst andb orb];
      rewrite ?P';
      try (split; [intros _; left; reflexivity|reflexivity]);
      destruct (isCI h), (truthy_var (env h) "DATABASE_URL"); cbn;
      intuition congruence.
Qed.

(** Nothing is run when the old client cannot be removed; [npm install]
    is run only after [npm list] failed; [prisma generate] is run only
    once the dependency is there. *)
Theorem commands_run :
  ran (snd (main h)) =
  if client_present h && match rmSync h with Some _ => true | None => false end
  then []
  else cmd_list ::
       (if npm_list h then [cmd_generate]
        else match npm_install h with
             | None => [cmd_install; cmd_generate]
             | Some _ => [cmd_install]
             end).
Proof.
  assert (V : forall p, ran (verify h p) = ran p).
  { intros p. unfold verify. cbn [generatedFiles fold_left].
    repeat match goal with
           | |- context [if generated h ?f then _ else _] =>
               destruct (generated h f)
           end; reflexivity. }
  run_script; cbn -[verify isCI String.eqb]; rewrite ?V;
    try reflexivity;
    destruct (isCI h && _); reflexivity.
Qed.

(** [prisma generate] is started with [process.env], except that
    [PRISMA_GENERATE_SKIP_AUTOINSTALL] is ["false"] and
    [PRISMA_CLI_BINARY_TARGETS] is the Netlify list on Netlify and is
    not passed at all elsewhere, whatever the environment set it to. *)
Theorem generate_environment env' :
  spawn_env (snd (main h)) = Some env' ->
  env' "PRISMA_GENERATE_SKIP_AUTOINSTALL" = Some "false" /\
  env' "PRISMA_CLI_BINARY_TARGETS" =
    (if isNetlify h then Some netlify_targets else None) /\
  forall k, k <> "PRISMA_GENERATE_SKIP_AUTOINSTALL" ->
            k <> "PRISMA_CLI_BINARY_TARGETS" ->
            env' k = env h k.
Proof.
  assert (V : forall p, spawn_env (verify h p) = spawn_env p).
  { intros p. unfold verify. cbn [generatedFiles fold_left].
    repeat match goal with
           | |- context [if generated h ?f then _ else _] =>
               destruct (generated h f)
           end; reflexivity. }
  assert (G : forall e,
             (forall k, k <> "PRISMA_GENERATE_SKIP_AUTOINSTALL" ->
                        k <> "PRISMA_CLI_BINARY_TARGETS" -> e k = env h k) ->
             generate_env h e "PRISMA_GENERATE_SKIP_AUTOINSTALL" = Some "false" /\
             generate_env h e "PRISMA_CLI_BINARY_TARGETS" =
               (if isNetlify h then Some netlify_targets else None) /\
             forall k, k <> "PRISMA_GENERATE_SKIP_AUTOINSTALL" ->
                       k <> "PRISMA_CLI_BINARY_TARGETS" ->
                       generate_env h e k = env h k).
  { intros e He. unfold generate_env. repeat split.
    intros k H1 H2. apply String.eqb_neq in H1, H2. rewrite H1, H2.
    apply He; apply String.eqb_neq; assumption. }
  assert (E0 : forall k, k <> "PRISMA_GENERATE_SKIP_AUTOINSTALL" ->
                         k <> "PRISMA_CLI_BINARY_TARGETS" -> env h k = env h k)
    by reflexivity.
  assert (E1 : forall k, k <> "PRISMA_GENERATE_SKIP_AUTOINSTALL" ->
                         k <> "PRISMA_CLI_BINARY_TARGETS" ->
                         (if k =? "PRISMA_GENERATE_SKIP_AUTOINSTALL"
                          then Some "false"
                          else if k =? "PRISMA_CLI_BINARY_TARGETS"
                               then Some netlify_targets else env h k) = env h k).
  { intros k H1 H2. apply String.eqb_neq in H1, H2. rewrite H1, H2. reflexivity. }
  pose proof (G _ E0) as G0. pose proof (G _ E1) as G1.
  unfold main, attempt, clean, ensure_dependency, generate, configure.
  destruct (client_present h); [destruct (rmSync h)|];
    destruct (isNetlify h) eqn:N;
    destruct (npm_list h); try destruct (npm_install h);
    destruct (prisma_generate h);
    cbn -[verify isCI String.eqb generate_env]; rewrite ?V;
    try destruct (isCI h && _);
    cbn -[verify isCI String.eqb generate_env];
    intros H; inversion H; subst; assumption.
Qed.

End ScriptFacts.

End GenerateClientFacts.


(** * Merge and replace, continued *)

Section MergeReplaceMore.
Import MemStore MemStoreFacts.

Variable s : replay MemStore.t.
Variable mode record : value.

(** Under merge, a stored user whose backup record has no [lastLogin]
    loses the stored one (the update sends [null]), while a field the
    record simply lacks, such as [grade], keeps its stored value; the
    record's [passwordChangedAt] must convert for the upsert to be
    made. *)
Theorem merge_resets_absent_dates k old :
  is_merge mode = true ->
  key_of (field record "username") = Some k ->
  find_row User k (db (wld s)) = Some old ->
  truthy (field record "lastLogin") = false ->
  convertible (field record "passwordChangedAt") = true ->
  field record "grade" = VUndefined ->
  exists new,
    db (wld (restore_record exec "users" mode record s)) User =
      replace_row User k new (db (wld s) User) /\
    lookup "lastLogin" new = VNull /\
    lookup "grade" new = lookup "grade" old.
Proof.
  intros Hm Hk Hold Hlast Hpwd Hgrade.
  pose proof (key_readable record _ _ Hk) as Hr.
  assert (Hd : dates_convertible "users" record = true).
  { change (dates_convertible "users" record)
      with (convertible (field record "lastLogin") &&
            (convertible (field record "passwordChangedAt") && true)).
    unfold convertible at 1. rewrite Hlast, Hpwd. reflexivity. }
  pose proof (build_call_convertible "users" mode record Hr Hd) as B.
  assert (Hs : In ("users", User) supported) by (simpl; tauto).
  destruct (call_for_merge "users" User mode record Hs Hm)
    as (update & create & C & _ & Hup & Hnu & _ & _ & Hfu & _).
  rewrite C in B.
  pose proof (upsert_existing User _ update create _ k old
                (where_key record User k Hk) Hold Hup) as E.
  rewrite (restore_record_resolved _ exec _ _ _ _ s _ B E). simpl.
  exists (apply_update update old).
  rewrite set_same. split; [reflexivity|].
  rewrite !(lookup_apply_update update Hnu).
  rewrite (Hfu "lastLogin"), (Hfu "grade") by (simpl; tauto).
  change (sent_value "users" "lastLogin" record)
    with (date_value (field record "lastLogin")).
  change (sent_value "users" "grade" record) with (field record "grade").
  unfold date_value. rewrite Hlast, Hgrade. split; reflexivity.
Qed.

(** Under replace, restoring the same [songs], [playTimes] or
    [systemSettings] record twice stores it twice when the record can
    be read and its dates convert: both inserts resolve, both are
    counted, and the collection grows by two rows. *)
Theorem replace_twice_two_rows t m :
  In (t, m) unkeyed_inserts ->
  is_merge mode = false ->
  readable record = true ->
  dates_convertible t record = true ->
  let s2 := restore_record exec t mode record
              (restore_record exec t mode record s) in
  length (db (wld s2) m) = length (db (wld s) m) + 2 /\
  restoredCount s2 = restoredCount s + 2 /\
  errors (acc s2) = errors (acc s).
Proof.
  intros Hin Hm Hr Hd.
  assert (Hs : In (t, m) supported) by (simpl in *; tauto).
  assert (Hkf : key_field m = "id").
  { simpl in Hin. destruct Hin as [H|[H|[H|[]]]]; inversion H; reflexivity. }
  pose proof (build_call_convertible t mode record Hr Hd) as B.
  destruct (call_for_replace t m mode record Hs Hm)
    as (data & C & Hid & _).
  rewrite C in B.
  cbv zeta.
  rewrite (restore_record_resolved _ exec t mode record _ s _ B
             (insert_unkeyed m data _ Hkf Hid)).
  rewrite (restore_record_resolved _ exec t mode record _ _ _ B
             (insert_unkeyed m data _ Hkf Hid)).
  simpl. rewrite !set_same, !length_app. simpl. repeat split; lia.
Qed.

End MergeReplaceMore.

(** * The further statements at sample inputs *)


Lemma unreadable_backup_not_found_witness :
  Sample.files "/app/backups/gone.json" = None /\
  handler MemStore.exec always_commits "/app" Sample.files
          (Sample.request Sample.admin "gone.json" "merge" true) Sample.live
  = (Throw (H3Error 404 msg_not_found),
     opened "/app/backups/gone.json" Sample.live).
Proof.
  split; [reflexivity|].
  apply (unreadable_backup_not_found _ MemStore.exec always_commits "/app" Sample.files
           (Sample.request Sample.admin "gone.json" "merge" true)
           "gone.json" Sample.live);
    try reflexivity. discriminate.
Defined.

Lemma client_error_precedes_mutation_witness :
  handler MemStore.exec always_commits "/app" Sample.files
          (Sample.request Sample.admin "headless.json" "merge" true)
          Sample.live
  = (Throw (H3Error 400 msg_bad_format),
     opened "/app/backups/headless.json" Sample.live) /\
  exists code msg,
    H3Error 400 msg_bad_format = H3Error code msg /\
    In code status_codes /\ msg <> "" /\
    (code <> 500%Z ->
     db (opened "/app/backups/headless.json" Sample.live) = db Sample.live /\
     calls (opened "/app/backups/headless.json" Sample.live)
       = calls Sample.live).
Proof.
  assert (E : handler MemStore.exec always_commits "/app" Sample.files
                (Sample.request Sample.admin "headless.json" "merge" true)
                Sample.live
              = (Throw (H3Error 400 msg_bad_format),
                 opened "/app/backups/headless.json" Sample.live))
    by (vm_compute; reflexivity).
  split; [exact E|].
  apply (client_error_precedes_mutation _ MemStore.exec always_commits "/app"
           Sample.files
           (Sample.request Sample.admin "headless.json" "merge" true)
           Sample.live _ _ E).
Defined.

(** When the transaction cannot be committed the request is answered
    500 after the pre-clear has emptied the database: the rows that
    were stored are gone and nothing of the backup is there. *)
Example rejected_transaction_sample :
  let out := handler MemStore.exec MoreSamples.never_commits "/app"
               Sample.files
               (Sample.request Sample.admin "backup.json" "merge" true)
               Sample.live in
  fst out = Throw (H3Error 500 msg_failed) /\
  db Sample.live User = [Sample.stored_alice] /\
  db (snd out) User = [] /\
  deleted_collections (calls (snd out)) = map collection_of clearOrder.
Proof. vm_compute. repeat split; reflexivity. Qed.

(** A backup whose [metadata] has a [version] that cannot be printed is
    answered 500 as well, before any Prisma call. *)
Example unprintable_metadata_sample :
  let doc := VObj [("metadata",
                    VObj [("version", VObj [("toString", VNull)])]);
                   ("data", field Sample.backup "data")] in
  handler MemStore.exec always_commits "/app"
          (fun p => if p =? "/app/backups/odd.json" then Some doc else None)
          (Sample.request Sample.admin "odd.json" "merge" true) Sample.live
  = (Throw (H3Error 500 msg_failed),
     opened "/app/backups/odd.json" Sample.live).
Proof. vm_compute. reflexivity. Qed.

Lemma null_record_recorded_witness :
  exists msg,
    restore_record MemStore.exec "songs" (VStr "merge") VNull
                   (Sample.start Sample.live) =
    mkReplay (push_error initial_details ("songs" ++ ": " ++ msg))
             Sample.live 0.
Proof.
  apply (null_record_recorded _ MemStore.exec "songs" (VStr "merge") VNull
           (Sample.start Sample.live)); reflexivity.
Defined.

Lemma unhandled_collection_counted_witness :
  restore_table MemStore.exec MoreSamples.with_votes (VStr "merge")
                (initial_details, Sample.live) "votes"
  = (mkDetails 1 0 [] [], Sample.live).
Proof.
  apply (unhandled_collection_counted _ MemStore.exec MoreSamples.with_votes
           (VStr "merge") "votes"
           (VObj [("id", VNum 1); ("songId", VNum 7)]) []
           initial_details Sample.live).
  - simpl. tauto.
  - reflexivity.
Defined.

Lemma collection_order_irrelevant_witness :
  transaction MemStore.exec (VObj MoreSamples.data_fields) (VStr "merge")
              (initial_details, Sample.live)
  = transaction MemStore.exec (VObj (rev MoreSamples.data_fields)) (VStr "merge")
                (initial_details, Sample.live).
Proof.
  apply (collection_order_irrelevant _ MemStore.exec MoreSamples.data_fields
           (rev MoreSamples.data_fields) (VStr "merge")
           (initial_details, Sample.live)).
  - simpl. repeat constructor; simpl; intuition discriminate.
  - apply Permutation_rev.
Defined.

Lemma restore_counts_witness :
  exists r w',
    handler MemStore.exec always_commits "/app" Sample.files
            (Sample.request Sample.admin "backup.json" "merge" true)
            Sample.live = (Ok r, w') /\
    recordsRestored (details_of r) =
      length (filter applied (new_calls Sample.live w')) /\
    tablesProcessed (details_of r) =
      length (entered (field Sample.backup "data")).
Proof.
  eassert (E : handler MemStore.exec always_commits "/app" Sample.files
                 (Sample.request Sample.admin "backup.json" "merge" true)
                 Sample.live = (Ok _, _)) by (vm_compute; reflexivity).
  eexists. eexists. split; [exact E|].
  destruct (restore_counts _ MemStore.exec always_commits "/app" Sample.files
              (Sample.request Sample.admin "backup.json" "merge" true)
              "backup.json" Sample.backup
              eq_refl eq_refl ltac:(discriminate) eq_refl eq_refl eq_refl
              Sample.live _ _ E)
    as (H1 & H2 & _).
  split; [exact H1|exact H2].
Defined.

Lemma preclear_then_replay_witness :
  truthy (VBool true) = true /\
  exists d w2 tr_clear,
    preClear unreachable_exec (VBool true) initial_details
             (opened "/app/backups/backup.json" Sample.offline) = (d, w2) /\
    calls w2 = (calls Sample.offline ++ tr_clear)%list /\
    clear_trace tr_clear d /\
    warnings d = ["清空数据失败: Can't reach database server"] /\
    exists r w',
      handler unreachable_exec always_commits "/app" Sample.files
              (Sample.request Sample.admin "backup.json" "merge" true)
              Sample.offline = (Ok r, w') /\
      warnings (details_of r) = warnings d /\
      tablesProcessed (details_of r) =
        length (entered (field Sample.backup "data")).
Proof.
  split; [reflexivity|].
  destruct (proj2 (preclear_then_replay _ unreachable_exec always_commits
                     "/app" Sample.files
                     (Sample.request Sample.admin "backup.json" "merge" true)
                     "backup.json" Sample.backup
                     eq_refl eq_refl ltac:(discriminate) eq_refl eq_refl
                     eq_refl eq_refl Sample.offline eq_refl))
    as (d & w2 & tr & P & Hc & Hct & _ & _ & Hret).
  exists d, w2, tr. split; [exact P|]. split; [exact Hc|].
  split; [exact Hct|].
  assert (Hw : warnings d = ["清空数据失败: Can't reach database server"]).
  { vm_compute in P. inversion P. reflexivity. }
  split; [exact Hw|].
  eassert (E : handler unreachable_exec always_commits "/app" Sample.files
                 (Sample.request Sample.admin "backup.json" "merge" true)
                 Sample.offline = (Ok _, _)) by (vm_compute; reflexivity).
  eexists. eexists. split; [exact E|].
  apply (Hret _ _ E).
Defined.

Lemma every_record_accounted_witness :
  exists r w',
    handler MemStore.exec always_commits "/app" Sample.files
            (Sample.request Sample.admin "backup.json" "replace" false)
            Sample.live = (Ok r, w') /\
    recordsRestored (details_of r) + length (errors (details_of r)) =
      supported_total (field Sample.backup "data") /\
    (success r = true <->
     recordsRestored (details_of r) =
       supported_total (field Sample.backup "data")).
Proof.
  eassert (E : handler MemStore.exec always_commits "/app" Sample.files
                 (Sample.request Sample.admin "backup.json" "replace" false)
                 Sample.live = (Ok _, _)) by (vm_compute; reflexivity).
  eexists. eexists. split; [exact E|].
  apply (every_record_accounted _ MemStore.exec always_commits "/app" Sample.files
           (Sample.request Sample.admin "backup.json" "replace" false)
           "backup.json" Sample.backup
           eq_refl eq_refl ltac:(discriminate) eq_refl eq_refl eq_refl
           Sample.live _ _ E).
Defined.

(** Replacing into the populated database: alice is refused, the other
    three records go in. *)
Example every_record_accounted_sample :
  fst (handler MemStore.exec always_commits "/app" Sample.files
         (Sample.request Sample.admin "backup.json" "replace" false)
         Sample.live)
  = Ok (mkResults false msg_with_errors
          (mkDetails 3 3
             ["users: Unique constraint failed on the fields: (`username`)"]
             [])) /\
  supported_total (field Sample.backup "data") = 4.
Proof. vm_compute. split; reflexivity. Qed.

Lemma no_clear_no_delete_witness :
  truthy (or_default
            (field (body (Sample.request Sample.admin "backup.json" "merge"
                            false)) "clearExisting") (VBool false)) = false /\
  forallb (fun e => negb (is_delete (fst e)))
          (new_calls Sample.live
             (snd (handler MemStore.exec always_commits "/app" Sample.files
                     (Sample.request Sample.admin "backup.json" "merge" false)
                     Sample.live))) = true /\
  forall r w',
    handler MemStore.exec always_commits "/app" Sample.files
            (Sample.request Sample.admin "backup.json" "merge" false)
            Sample.live = (Ok r, w') ->
    warnings (details_of r) = [].
Proof.
  split; [reflexivity|].
  apply (no_clear_no_delete _ MemStore.exec always_commits "/app" Sample.files
           (Sample.request Sample.admin "backup.json" "merge" false)
           Sample.live eq_refl).
Defined.

Lemma metadata_only_printed_witness :
  field MoreSamples.backup_relabelled "metadata" <> field Sample.backup "metadata" /\
  handler MemStore.exec always_commits "/app" MoreSamples.files_relabelled
          (Sample.request Sample.admin "backup.json" "merge" true) Sample.live
  = handler MemStore.exec always_commits "/app" Sample.files
            (Sample.request Sample.admin "backup.json" "merge" true) Sample.live.
Proof.
  split; [discriminate|].
  apply (metadata_only_printed _ MemStore.exec always_commits "/app" Sample.files
           (Sample.request Sample.admin "backup.json" "merge" true)
           "backup.json" Sample.backup
           eq_refl eq_refl ltac:(discriminate) eq_refl eq_refl eq_refl eq_refl
           MoreSamples.files_relabelled MoreSamples.backup_relabelled
           Sample.live eq_refl eq_refl eq_refl eq_refl).
Defined.

Lemma mode_only_merge_matters_witness :
  handler MemStore.exec always_commits "/app" Sample.files
          (Sample.request Sample.admin "backup.json" "replace" false) Sample.live
  = handler MemStore.exec always_commits "/app" Sample.files
            (Sample.request Sample.admin "backup.json" "MERGE" false) Sample.live.
Proof.
  apply (mode_only_merge_matters _ MemStore.exec always_commits "/app" Sample.files
           (Sample.request Sample.admin "backup.json" "replace" false)
           (Sample.request Sample.admin "backup.json" "MERGE" false)
           Sample.live); reflexivity.
Defined.

Lemma merge_resets_absent_dates_witness :
  lookup "lastLogin" MoreSamples.stored_alice_full
    = VDate (VStr "2024-01-01T00:00:00.000Z") /\
  exists new,
    db (wld (restore_record MemStore.exec "users" (VStr "merge")
               MoreSamples.alice_sparse (Sample.start MoreSamples.with_alice)))
       User
    = MemStore.replace_row User (MemStore.KStr "alice") new
        (db MoreSamples.with_alice User) /\
    lookup "lastLogin" new = VNull /\
    lookup "grade" new = lookup "grade" MoreSamples.stored_alice_full.
Proof.
  split; [reflexivity|].
  apply (merge_resets_absent_dates (Sample.start MoreSamples.with_alice)
           (VStr "merge") MoreSamples.alice_sparse (MemStore.KStr "alice")
           MoreSamples.stored_alice_full); reflexivity.
Defined.

Lemma replace_twice_two_rows_witness :
  let s2 := restore_record MemStore.exec "songs" (VStr "replace") Sample.song7
              (restore_record MemStore.exec "songs" (VStr "replace") Sample.song7
                 (Sample.start Sample.live)) in
  length (db (wld s2) Song) = length (db Sample.live Song) + 2 /\
  restoredCount s2 = 0 + 2 /\
  errors (acc s2) = [].
Proof.
  apply (replace_twice_two_rows (Sample.start Sample.live) (VStr "replace")
           Sample.song7 "songs" Song);
    [simpl; tauto|reflexivity|reflexivity|reflexivity].
Defined.

Lemma size_is_sum_of_files_witness :
  (CheckDeploy.sum_sizes
     (CheckDeploy.files_below (MoreSamples.deployed_tree ".output"))
   <= CheckDeploy.exact_limit)%N /\
  CheckDeploy.getDirectorySize (MoreSamples.deployed_tree ".output")
  = CheckDeploy.Finite 2560.
Proof.
  assert (H : (CheckDeploy.sum_sizes
                 (CheckDeploy.files_below (MoreSamples.deployed_tree ".output"))
               <= CheckDeploy.exact_limit)%N) by (vm_compute; discriminate).
  split; [exact H|].
  apply (CheckDeployFacts.size_is_sum_of_files
           (MoreSamples.deployed_tree ".output") H).
Defined.

(** Past [2^53] the sum is the one of doubles: one more byte is lost. *)
Example rounded_size_sample :
  CheckDeploy.getDirectorySize
    (CheckDeploy.Dir (Some [("a", CheckDeploy.File 9007199254740992);
                            ("b", CheckDeploy.File 1)]))
  = CheckDeploy.Finite 9007199254740992.
Proof. vm_compute. reflexivity. Qed.

Lemma database_failure_not_fatal_witness :
  CheckDeploy.database MoreSamples.deployed = false /\
  fst (CheckDeploy.checkDeployment (fun _ => "2.5 KB") MoreSamples.deployed) = 0 /\
  exists before,
    snd (CheckDeploy.checkDeployment (fun _ => "2.5 KB") MoreSamples.deployed) =
    (before ++
     [CheckDeploy.log "❌ 数据库连接检查" "red";
      CheckDeploy.log ("   " ++ CheckDeploy.db_check_details) "reset";
      CheckDeploy.log (CheckDeploy.newline ++ "总计: 4/5 项检查通过") "yellow";
      CheckDeploy.log CheckDeploy.msg_some_failed "yellow"])%list.
Proof.
  split; [reflexivity|].
  apply (CheckDeployFacts.database_failure_not_fatal (fun _ => "2.5 KB")
           MoreSamples.deployed); reflexivity.
Defined.

Lemma generate_environment_witness :
  GenerateClient.env MoreSamples.builder "PRISMA_CLI_BINARY_TARGETS"
    = Some "native" /\
  exists env',
    GenerateClient.spawn_env (snd (GenerateClient.main MoreSamples.builder))
      = Some env' /\
    env' "PRISMA_GENERATE_SKIP_AUTOINSTALL" = Some "false" /\
    env' "PRISMA_CLI_BINARY_TARGETS" = None /\
    env' "DATABASE_URL" = Some "postgresql://db/voicehub".
Proof.
  split; [reflexivity|].
  assert (H : GenerateClient.spawn_env
                (snd (GenerateClient.main MoreSamples.builder))
              = Some (GenerateClient.generate_env MoreSamples.builder
                        MoreSamples.builder_env)) by reflexivity.
  exists (GenerateClient.generate_env MoreSamples.builder
            MoreSamples.builder_env).
  split; [exact H|].
  destruct (GenerateClientFacts.generate_environment MoreSamples.builder _ H)
    as (H1 & H2 & H3).
  split; [exact H1|]. split; [exact H2|].
  rewrite H3; [reflexivity|discriminate|discriminate].
Defined.
